(** * Potential cloud, cloud-shadow and snow mask (l4-7_cfmask)

    A shallow embedding of [potential_cloud_shadow_snow_mask]
    (src/l4-7_cfmask/src/potential_cloud_shadow_snow_mask.c) and the
    properties of it that the specification states.

    Conventions of the embedding:
    - C [int] and [int16] values are [Z]; a store into an [int16] or an
      [unsigned char] cell writes the wrap-around out ([wrap16], [to_u8]);
    - C [float] is IEEE binary32 and C [double] is IEEE binary64, both
      taken from the Standard Library's executable [SpecFloat] operations,
      with every promotion and every narrowing written where C performs
      it (evaluation in the declared type, round to nearest even);
    - the arrays ([pixel_mask], [conf_mask], [clear_mask], ...) are lists
      read with [!!!] and written with [<[i:=v]>];
    - the collaborators (row reader, percentile routines, flood fill,
      allocator) are fields of an environment record;
    - every pass reads a scan line before it uses it, so the row buffers
      are values local to the row; the saturation substitution, which the
      code writes back into the buffer, is applied to the sample where it
      is read (pass 5, which copies the substituted line, keeps the
      buffer); a band the reader was not asked for reads as 0;
    - the four pixel counters and the sample counts are unbounded: they
      never exceed the number of pixels, which fits an [int]. *)

From Stdlib Require Import ZArith Bool List Lia SpecFloat.
From stdpp Require Import base list.
Import ListNotations.

Local Open Scope Z_scope.
Local Open Scope bool_scope.

(** ** Machine integers *)

(** Store into a 16-bit signed cell. *)
Definition wrap16 (x : Z) : Z := (x + 32768) mod 65536 - 32768.

(** Store into an [unsigned char] cell. *)
Definition to_u8 (x : Z) : Z := x mod 256.

Definition SHRT_MIN : Z := -32768.
Definition SHRT_MAX : Z := 32767.

Definition int16_range (x : Z) : Prop := SHRT_MIN <= x <= SHRT_MAX.

(** ** IEEE arithmetic *)

(** Re-rounding of a value into the format [(prec, emax)]: exact when the
    value is representable (widening), round to nearest even otherwise
    (narrowing). *)
Definition sf_convert (prec emax : Z) (x : spec_float) : spec_float :=
  match x with
  | S754_finite s m e => binary_normalize prec emax (cond_Zopp s (Zpos m)) e s
  | _ => x
  end.

(** C [float]. *)
Module F32.
Definition prec : Z := 24.
Definition emax : Z := 128.
Definition t : Type := spec_float.
Definition of_Z (n : Z) : t := binary_normalize prec emax n 0 false.
Definition of_double (x : spec_float) : t := sf_convert prec emax x.
Definition add : t -> t -> t := SFadd prec emax.
Definition sub : t -> t -> t := SFsub prec emax.
Definition mul : t -> t -> t := SFmul prec emax.
Definition div : t -> t -> t := SFdiv prec emax.
Definition ltb : t -> t -> bool := SFltb.
Definition eqb : t -> t -> bool := SFeqb.
Definition is_nan (x : t) : bool :=
  match x with S754_nan => true | _ => false end.
End F32.

(** C [double]. *)
Module F64.
Definition prec : Z := 53.
Definition emax : Z := 1024.
Definition t : Type := spec_float.
Definition of_Z (n : Z) : t := binary_normalize prec emax n 0 false.
Definition of_single (x : F32.t) : t := sf_convert prec emax x.
Definition add : t -> t -> t := SFadd prec emax.
Definition sub : t -> t -> t := SFsub prec emax.
Definition mul : t -> t -> t := SFmul prec emax.
Definition div : t -> t -> t := SFdiv prec emax.
Definition abs : t -> t := SFabs.
Definition ltb : t -> t -> bool := SFltb.
Definition leb : t -> t -> bool := SFleb.
(** The decimal literal [n/d], correctly rounded. *)
Definition lit (n d : Z) : t := div (of_Z n) (of_Z d).
End F64.

(** [fabs] takes and returns a [double]; its [float] argument is promoted. *)
Definition fabs (x : F32.t) : F64.t := F64.abs (F64.of_single x).

(** ** Constants of the headers *)

(** Modelled from the spec: const.h is not part of the sources; the spec
    gives [MINSIGMA] as a small positive value, e.g. 1e-7. *)
Definition MINSIGMA : F64.t := F64.lit 1 10000000.

(** Modelled from the spec: [FILL_PIXEL] is the fill sentinel of the input
    bands, "typically -9999". *)
Definition FILL_PIXEL : Z := -9999.

(** Modelled from the spec: cfmask.h is not part of the sources; the spec
    lays the [pixel_mask] bits out as bit 0 FILL, bit 1 CLOUD, bit 2
    SHADOW, bit 3 SNOW, bit 4 WATER. *)
Definition CF_FILL_BIT : Z := 1.
Definition CF_CLOUD_BIT : Z := 2.
Definition CF_SHADOW_BIT : Z := 4.
Definition CF_SNOW_BIT : Z := 8.
Definition CF_WATER_BIT : Z := 16.

(** Modelled from the spec: the [clear_mask] flags CLEAR_FILL, CLEAR,
    CLEAR_LAND, CLEAR_WATER, in the order the spec lists them. *)
Definition CF_CLEAR_NONE : Z := 0.
Definition CF_CLEAR_FILL_BIT : Z := 1.
Definition CF_CLEAR_BIT : Z := 2.
Definition CF_CLEAR_LAND_BIT : Z := 4.
Definition CF_CLEAR_WATER_BIT : Z := 8.

(** Modelled from the spec: the [conf_mask] values LOW = 1, MED = 2,
    HIGH = 3 and the fill value 255. *)
Definition CLOUD_CONFIDENCE_LOW : Z := 1.
Definition CLOUD_CONFIDENCE_MED : Z := 2.
Definition CLOUD_CONFIDENCE_HIGH : Z := 3.
Definition CF_FILL_PIXEL : Z := 255.

(** Band indices of the six reflective bands. *)
Definition BI_BLUE : nat := 0.
Definition BI_GREEN : nat := 1.
Definition BI_RED : nat := 2.
Definition BI_NIR : nat := 3.
Definition BI_SWIR_1 : nat := 4.
Definition BI_SWIR_2 : nat := 5.
Definition BI_REFL_BAND_COUNT : nat := 6.

(** ** Operations on mask cells *)

(** [cell |= bit] *)
Definition mask_or (m bit : Z) : Z := to_u8 (Z.lor m bit).

(** [cell &= ~bit] *)
Definition mask_andnot (m bit : Z) : Z := to_u8 (Z.land m (Z.lnot bit)).

(** [cell & bit], as a C truth value. *)
Definition mask_test (m bit : Z) : bool := negb (Z.land m bit =? 0).

(** [if (c) cell |= bit; else cell &= ~bit;] *)
Definition mask_assign (c : bool) (m bit : Z) : Z :=
  if c then mask_or m bit else mask_andnot m bit.

(** ** Input descriptor *)

Record meta_t := {
  satu_value_ref : nat -> Z;
  satu_value_max : nat -> Z;
  therm_satu_value_ref : Z;
  therm_satu_value_max : Z
}.

(** The seven samples of one pixel, as they stand in the row buffers. *)
Record pixel := mkPixel {
  blue : Z; green : Z; red : Z; nir : Z; swir1 : Z; swir2 : Z; therm : Z
}.

(** [if (buf == ref) buf = max;] on an [int16] cell. *)
Definition saturate (ref max v : Z) : Z :=
  if v =? ref then wrap16 max else v.

(** The row buffers of one scan line: the lines of the reflective bands in
    band order, and the thermal line. *)
Record row_t := {
  buf : list (list Z);
  therm_buf : list Z
}.

Definition band_at (r : row_t) (ib col : nat) : Z :=
  nth col (nth ib (buf r) []) 0.

Definition therm_at (r : row_t) (col : nat) : Z := nth col (therm_buf r) 0.

Definition raw_pixel (r : row_t) (col : nat) : pixel :=
  mkPixel (band_at r BI_BLUE col) (band_at r BI_GREEN col)
          (band_at r BI_RED col) (band_at r BI_NIR col)
          (band_at r BI_SWIR_1 col) (band_at r BI_SWIR_2 col)
          (therm_at r col).

(** Saturation substitution of pass 1: all six reflective bands and the
    thermal band. *)
Definition saturate_all (meta : meta_t) (px : pixel) : pixel :=
  mkPixel
    (saturate (satu_value_ref meta BI_BLUE) (satu_value_max meta BI_BLUE) (blue px))
    (saturate (satu_value_ref meta BI_GREEN) (satu_value_max meta BI_GREEN) (green px))
    (saturate (satu_value_ref meta BI_RED) (satu_value_max meta BI_RED) (red px))
    (saturate (satu_value_ref meta BI_NIR) (satu_value_max meta BI_NIR) (nir px))
    (saturate (satu_value_ref meta BI_SWIR_1) (satu_value_max meta BI_SWIR_1) (swir1 px))
    (saturate (satu_value_ref meta BI_SWIR_2) (satu_value_max meta BI_SWIR_2) (swir2 px))
    (saturate (therm_satu_value_ref meta) (therm_satu_value_max meta) (therm px)).

(** The fill test of pass 1, on the substituted samples. *)
Definition is_fill (px : pixel) : bool :=
  (therm px <=? FILL_PIXEL)
  || (blue px =? FILL_PIXEL) || (green px =? FILL_PIXEL)
  || (red px =? FILL_PIXEL) || (nir px =? FILL_PIXEL)
  || (swir1 px =? FILL_PIXEL) || (swir2 px =? FILL_PIXEL).

(** ** Spectral quantities *)

Definition ndvi_of (px : pixel) : F32.t :=
  if negb (red px + nir px =? 0)
  then F32.div (F32.of_Z (nir px - red px)) (F32.of_Z (nir px + red px))
  else F32.of_double (F64.lit 1 100).

Definition ndsi_of (px : pixel) : F32.t :=
  if negb (green px + swir1 px =? 0)
  then F32.div (F32.of_Z (green px - swir1 px)) (F32.of_Z (green px + swir1 px))
  else F32.of_double (F64.lit 1 100).

(** [x - c < MINSIGMA] with [x] a [float] and [c] a [double] literal. *)
Definition below (x : F32.t) (c : F64.t) : bool :=
  F64.ltb (F64.sub (F64.of_single x) c) MINSIGMA.

(** [x - c > MINSIGMA]. *)
Definition above (x : F32.t) (c : F64.t) : bool :=
  F64.ltb MINSIGMA (F64.sub (F64.of_single x) c).

(** [x > MINSIGMA]. *)
Definition positive (x : F32.t) : bool := F64.ltb MINSIGMA (F64.of_single x).

(** [x < MINSIGMA]. *)
Definition not_positive (x : F32.t) : bool := F64.ltb (F64.of_single x) MINSIGMA.

(** Pass 1: [(float) (blue + green + red) / 3.0]. *)
Definition visi_mean_p1 (px : pixel) : F32.t :=
  F32.of_double
    (F64.div (F64.of_single (F32.of_Z (blue px + green px + red px)))
             (F64.lit 3 1)).

(** Pass 3: [(blue + green + red) / 3.0]. *)
Definition visi_mean_p3 (px : pixel) : F32.t :=
  F32.of_double (F64.div (F64.of_Z (blue px + green px + red px)) (F64.lit 3 1)).

(** [(fabs (blue - visi_mean) + fabs (green - visi_mean)
      + fabs (red - visi_mean)) / visi_mean] *)
Definition flatness (px : pixel) (visi_mean : F32.t) : F32.t :=
  F32.of_double
    (F64.div
       (F64.add
          (F64.add (fabs (F32.sub (F32.of_Z (blue px)) visi_mean))
                   (fabs (F32.sub (F32.of_Z (green px)) visi_mean)))
          (fabs (F32.sub (F32.of_Z (red px)) visi_mean)))
       (F64.of_single visi_mean)).

Definition f32_zero : F32.t := F32.of_double (F64.lit 0 1).

(** One visible band at or above [satu_value_max - 1]. *)
Definition visible_saturated (meta : meta_t) (px : pixel) : bool :=
  (blue px >=? satu_value_max meta BI_BLUE - 1)
  || (green px >=? satu_value_max meta BI_GREEN - 1)
  || (red px >=? satu_value_max meta BI_RED - 1).

(** [hot = (float) blue - 0.5 * (float) red - 800.0] *)
Definition hot_of (px : pixel) : F32.t :=
  F32.of_double
    (F64.sub
       (F64.sub (F64.of_single (F32.of_Z (blue px)))
                (F64.mul (F64.lit 1 2) (F64.of_single (F32.of_Z (red px)))))
       (F64.lit 800 1)).

(** [(float) nir / (float) swir1 - 0.75 > MINSIGMA] *)
Definition ratio_test (px : pixel) : bool :=
  above (F32.div (F32.of_Z (nir px)) (F32.of_Z (swir1 px))) (F64.lit 3 4).

(** ** Pass 1, one non-fill pixel *)

(** The whiteness in force at the whiteness test: the local [whiteness]
    is declared outside the loops, recomputed only when the basic cloud
    test has set CLOUD, and overridden by the saturation test. [w] is the
    value left by the previous pixel. *)
Definition whiteness_p1 (meta : meta_t) (px : pixel) (cloud : bool) (w : F32.t)
  : F32.t :=
  let w1 :=
    if cloud then
      let visi_mean := visi_mean_p1 px in
      if negb (F32.eqb visi_mean (F32.of_Z 0))
      then flatness px visi_mean
      else F32.of_double (F64.lit 100 1)
    else w in
  if visible_saturated meta px then f32_zero else w1.

Definition satu_bv_of (meta : meta_t) (px : pixel) : Z :=
  if visible_saturated meta px then 1 else 0.

(** The statements of pass 1 from the basic cloud test to the band-ratio
    test, on the cell [m] of [pixel_mask]; returns the new cell and the
    new value of [whiteness]. *)
Definition first_pass_pixel (meta : meta_t) (px : pixel) (w : F32.t) (m : Z)
  : Z * F32.t :=
  let ndvi := ndvi_of px in
  let ndsi := ndsi_of px in
  (* basic cloud test *)
  let m := mask_assign (below ndsi (F64.lit 8 10) && below ndvi (F64.lit 8 10)
                        && (swir2 px >? 300) && (therm px <? 2700))
                       m CF_CLOUD_BIT in
  (* snow *)
  let m := mask_assign (above ndsi (F64.lit 15 100) && (therm px <? 1000)
                        && (nir px >? 1100) && (green px >? 1000))
                       m CF_SNOW_BIT in
  (* water *)
  let m := mask_assign ((below ndvi (F64.lit 1 100) && (nir px <? 1100))
                        || (below ndvi (F64.lit 1 10) && positive ndvi
                            && (nir px <? 500)))
                       m CF_WATER_BIT in
  (* whiteness *)
  let whiteness := whiteness_p1 meta px (mask_test m CF_CLOUD_BIT) w in
  let satu_bv := satu_bv_of meta px in
  let m := mask_assign (mask_test m CF_CLOUD_BIT
                        && below whiteness (F64.lit 7 10))
                       m CF_CLOUD_BIT in
  (* haze *)
  let hot := hot_of px in
  let m := mask_assign (mask_test m CF_CLOUD_BIT
                        && (positive hot || (satu_bv =? 1)))
                       m CF_CLOUD_BIT in
  (* ratio 4/5 *)
  let m :=
    if mask_test m CF_CLOUD_BIT && negb (swir1 px =? 0)
    then mask_assign (ratio_test px) m CF_CLOUD_BIT
    else mask_andnot m CF_CLOUD_BIT in
  (m, whiteness).

(** ** Collaborators *)

(** The six sweeps over the image; the row reader is called again in
    every sweep, and each call can fail on its own. *)
Inductive pass_id := P1 | P2 | P3 | P4 | P5 | P6.

(** The scratch buffers the function allocates. *)
Inductive buffer :=
| B_clear_mask | B_f_temp | B_f_wtemp | B_wfinal_prob | B_final_prob
| B_prob | B_wprob | B_nir | B_swir1 | B_nir_data | B_swir1_data
| B_filled_nir_data | B_filled_swir1_data.

Definition buffer_eqb (a b : buffer) : bool :=
  match a, b with
  | B_clear_mask, B_clear_mask | B_f_temp, B_f_temp | B_f_wtemp, B_f_wtemp
  | B_wfinal_prob, B_wfinal_prob | B_final_prob, B_final_prob
  | B_prob, B_prob | B_wprob, B_wprob | B_nir, B_nir | B_swir1, B_swir1
  | B_nir_data, B_nir_data | B_swir1_data, B_swir1_data
  | B_filled_nir_data, B_filled_nir_data
  | B_filled_swir1_data, B_filled_swir1_data => true
  | _, _ => false
  end.

(** What the function consumes: the input structure ([meta], [nband] and
    the row reader behind [GetInputLine] / [GetInputThermLine]), the
    percentile routines, the flood fill, and the outcome of each
    allocation. A reader or routine that fails returns [None]. *)
Record env_t := {
  meta : meta_t;
  nband : nat;
  GetInputLine : pass_id -> nat -> nat -> option (list Z);
  GetInputThermLine : pass_id -> nat -> option (list Z);
  prctile : list Z -> Z -> Z -> Z -> F64.t -> option F32.t;
  prctile2 : list F32.t -> Z -> F32.t -> F32.t -> F64.t -> option F32.t;
  fill_local_minima_in_image : list Z -> nat -> nat -> F32.t -> option (list Z);
  alloc_ok : buffer -> bool
}.

(** [for (ib = 0; ib < nband; ib++) if (!GetInputLine (input, ib, row)) ...] *)
Fixpoint read_bands (get : nat -> option (list Z)) (n ib : nat)
  : option (list (list Z)) :=
  match n with
  | O => Some []
  | S n' =>
      match get ib with
      | None => None
      | Some l =>
          match read_bands get n' (S ib) with
          | None => None
          | Some ls => Some (l :: ls)
          end
      end
  end.

(** Passes 1, 3 and 6 read the reflective bands, then the thermal band. *)
Definition read_row (env : env_t) (p : pass_id) (row : nat) : option row_t :=
  match read_bands (fun ib => GetInputLine env p ib row) (nband env) 0%nat with
  | None => None
  | Some ls =>
      match GetInputThermLine env p row with
      | None => None
      | Some th => Some {| buf := ls; therm_buf := th |}
      end
  end.

(** Passes 2 and 4 read the thermal band only. *)
Definition read_therm_row (env : env_t) (p : pass_id) (row : nat)
  : option row_t :=
  match GetInputThermLine env p row with
  | None => None
  | Some th => Some {| buf := []; therm_buf := th |}
  end.

(** Pass 5 reads the reflective bands only. *)
Definition read_refl_row (env : env_t) (p : pass_id) (row : nat)
  : option row_t :=
  match read_bands (fun ib => GetInputLine env p ib row) (nband env) 0%nat with
  | None => None
  | Some ls => Some {| buf := ls; therm_buf := [] |}
  end.

(** ** Loops *)

(** The outcome of a fallible sweep: the state reached, and whether the
    sweep ran to its end or stopped at a failed read. *)
Inductive res (A : Type) : Type :=
| Ok (a : A)
| Fail (a : A).
Arguments Ok {A} a.
Arguments Fail {A} a.

Section Sweep.
Context {Row St : Type}.

(** [for (col = c; col < c + n; col++) st = body col st] *)
Fixpoint for_cols (body : nat -> St -> St) (n c : nat) (st : St) : St :=
  match n with
  | O => st
  | S n' => for_cols body n' (S c) (body c st)
  end.

(** [for (row = r; row < r + n; row++)]: read the row, return on a
    failed read, else run the row's statements. *)
Fixpoint for_rows (read : nat -> option Row)
         (row_body : Row -> nat -> St -> St) (n r : nat) (st : St)
  : res St :=
  match n with
  | O => Ok st
  | S n' =>
      match read r with
      | None => Fail st
      | Some line => for_rows read row_body n' (S r) (row_body line r st)
      end
  end.
End Sweep.

#[global] Instance spec_float_inhabited : Inhabited spec_float :=
  populate (S754_zero false).

(** ** Pass 1 *)

Record p1_state := {
  p1_pixel_mask : list Z;
  p1_clear_mask : list Z;
  image_data_counter : Z;
  clear_pixel_counter : Z;
  clear_land_pixel_counter : Z;
  clear_water_pixel_counter : Z;
  p1_whiteness : F32.t
}.

(** The body of the column loop of pass 1 at [pixel_index]. *)
Definition first_pass_body (m : meta_t) (r : row_t) (pixel_index col : nat)
           (st : p1_state) : p1_state :=
  let px := saturate_all m (raw_pixel r col) in
  if is_fill px then
    {| p1_pixel_mask := <[pixel_index := CF_FILL_BIT]> (p1_pixel_mask st);
       p1_clear_mask := <[pixel_index := CF_CLEAR_FILL_BIT]> (p1_clear_mask st);
       image_data_counter := image_data_counter st;
       clear_pixel_counter := clear_pixel_counter st;
       clear_land_pixel_counter := clear_land_pixel_counter st;
       clear_water_pixel_counter := clear_water_pixel_counter st;
       p1_whiteness := p1_whiteness st |}
  else
    let '(cell, w) :=
      first_pass_pixel m px (p1_whiteness st) (p1_pixel_mask st !!! pixel_index) in
    let pm := <[pixel_index := cell]> (p1_pixel_mask st) in
    if mask_test cell CF_CLOUD_BIT then
      {| p1_pixel_mask := pm;
         p1_clear_mask := <[pixel_index := CF_CLEAR_NONE]> (p1_clear_mask st);
         image_data_counter := image_data_counter st + 1;
         clear_pixel_counter := clear_pixel_counter st;
         clear_land_pixel_counter := clear_land_pixel_counter st;
         clear_water_pixel_counter := clear_water_pixel_counter st;
         p1_whiteness := w |}
    else if mask_test cell CF_WATER_BIT then
      {| p1_pixel_mask := pm;
         p1_clear_mask :=
           <[pixel_index := mask_or CF_CLEAR_BIT CF_CLEAR_WATER_BIT]> (p1_clear_mask st);
         image_data_counter := image_data_counter st + 1;
         clear_pixel_counter := clear_pixel_counter st + 1;
         clear_land_pixel_counter := clear_land_pixel_counter st;
         clear_water_pixel_counter := clear_water_pixel_counter st + 1;
         p1_whiteness := w |}
    else
      {| p1_pixel_mask := pm;
         p1_clear_mask :=
           <[pixel_index := mask_or CF_CLEAR_BIT CF_CLEAR_LAND_BIT]> (p1_clear_mask st);
         image_data_counter := image_data_counter st + 1;
         clear_pixel_counter := clear_pixel_counter st + 1;
         clear_land_pixel_counter := clear_land_pixel_counter st + 1;
         clear_water_pixel_counter := clear_water_pixel_counter st;
         p1_whiteness := w |}.

Definition first_pass (env : env_t) (nrows ncols : nat) (st : p1_state)
  : res p1_state :=
  for_rows (read_row env P1)
           (fun r row => for_cols (fun col => first_pass_body (meta env) r (row * ncols + col) col) ncols 0)
           nrows 0 st.

(** [100.0 * ((float) counter / (float) image_data_counter)] *)
Definition percent_of (counter image_data : Z) : F32.t :=
  F32.of_double
    (F64.mul (F64.lit 100 1)
             (F64.of_single (F32.div (F32.of_Z counter) (F32.of_Z image_data)))).

(** [clear_ptm - 0.1 <= MINSIGMA], on the value behind the out-parameter. *)
Definition all_cloud_test (clear_ptm : F32.t) : bool :=
  F64.leb (F64.sub (F64.of_single clear_ptm) (F64.lit 1 10)) MINSIGMA.

(** [(ptm - 0.1) >= MINSIGMA] *)
Definition enough (ptm : F32.t) : bool :=
  F64.leb MINSIGMA (F64.sub (F64.of_single ptm) (F64.lit 1 10)).

(** ** All-cloud shortcut *)

Definition all_cloud_pixel (m : Z) : Z :=
  if negb (mask_test m CF_CLOUD_BIT)
  then mask_or m CF_SHADOW_BIT
  else mask_andnot m CF_SHADOW_BIT.

Definition all_cloud (pixel_count : nat) (pixel_mask : list Z) : list Z :=
  for_cols (fun pixel_index pm =>
              <[pixel_index := all_cloud_pixel (pm !!! pixel_index)]> pm)
           pixel_count 0 pixel_mask.

(** ** Pass 2: thermal samples of clear land and clear water *)

Record p2_state := {
  f_temp : list Z; f_temp_max : Z; f_temp_min : Z; land_count : nat;
  f_wtemp : list Z; f_wtemp_max : Z; f_wtemp_min : Z; water_count : nat
}.

Definition second_pass_body (m : meta_t) (clear_mask : list Z)
           (land_bit water_bit : Z) (r : row_t) (pixel_index col : nat)
           (st : p2_state) : p2_state :=
  if mask_test (clear_mask !!! pixel_index) CF_CLEAR_FILL_BIT then st
  else
    let t := saturate (therm_satu_value_ref m) (therm_satu_value_max m)
                      (therm_at r col) in
    let st :=
      if mask_test (clear_mask !!! pixel_index) land_bit then
        {| f_temp := <[land_count st := t]> (f_temp st);
           f_temp_max := if f_temp_max st <? t then t else f_temp_max st;
           f_temp_min := if f_temp_min st >? t then t else f_temp_min st;
           land_count := S (land_count st);
           f_wtemp := f_wtemp st; f_wtemp_max := f_wtemp_max st;
           f_wtemp_min := f_wtemp_min st; water_count := water_count st |}
      else st in
    if mask_test (clear_mask !!! pixel_index) water_bit then
      {| f_temp := f_temp st; f_temp_max := f_temp_max st;
         f_temp_min := f_temp_min st; land_count := land_count st;
         f_wtemp := <[water_count st := t]> (f_wtemp st);
         f_wtemp_max := if f_wtemp_max st <? t then t else f_wtemp_max st;
         f_wtemp_min := if f_wtemp_min st >? t then t else f_wtemp_min st;
         water_count := S (water_count st) |}
    else st.

Definition second_pass (env : env_t) (nrows ncols : nat) (clear_mask : list Z)
           (land_bit water_bit : Z) : res p2_state :=
  for_rows (read_therm_row env P2)
           (fun r row =>
              for_cols (fun col => second_pass_body (meta env) clear_mask land_bit
                                     water_bit r (row * ncols + col) col) ncols 0)
           nrows 0
           {| f_temp := replicate (nrows * ncols) 0; f_temp_max := SHRT_MIN;
              f_temp_min := SHRT_MAX; land_count := 0;
              f_wtemp := replicate (nrows * ncols) 0; f_wtemp_max := SHRT_MIN;
              f_wtemp_min := SHRT_MAX; water_count := 0 |}.

(** [l_pt = 0.175; h_pt = 1.0 - l_pt;] *)
Definition l_pt : F32.t := F32.of_double (F64.lit 175 1000).
Definition h_pt : F32.t :=
  F32.of_double (F64.sub (F64.lit 1 1) (F64.of_single l_pt)).

(** [100.0 * pt], the percentile handed to the percentile routines. *)
Definition pct (pt : F32.t) : F64.t := F64.mul (F64.lit 100 1) (F64.of_single pt).

Definition t_buffer : Z := 4 * 100.

(** ** Pass 3: cloud probability over land and over water *)

(** Saturation substitution of pass 3: the first five reflective bands
    and the thermal band. *)
Definition saturate_p3 (meta : meta_t) (px : pixel) : pixel :=
  mkPixel
    (saturate (satu_value_ref meta BI_BLUE) (satu_value_max meta BI_BLUE) (blue px))
    (saturate (satu_value_ref meta BI_GREEN) (satu_value_max meta BI_GREEN) (green px))
    (saturate (satu_value_ref meta BI_RED) (satu_value_max meta BI_RED) (red px))
    (saturate (satu_value_ref meta BI_NIR) (satu_value_max meta BI_NIR) (nir px))
    (saturate (satu_value_ref meta BI_SWIR_1) (satu_value_max meta BI_SWIR_1) (swir1 px))
    (swir2 px)
    (saturate (therm_satu_value_ref meta) (therm_satu_value_max meta) (therm px)).

(** The whiteness of pass 3. *)
Definition whiteness_p3 (meta : meta_t) (px : pixel) : F32.t :=
  let visi_mean := visi_mean_p3 px in
  let w :=
    if negb (F32.eqb visi_mean (F32.of_Z 0))
    then flatness px visi_mean
    else f32_zero in
  if visible_saturated meta px then f32_zero else w.

(** Cloud probability over water. *)
Definition wfinal_prob_of (t_wtemp : F32.t) (px : pixel) : F32.t :=
  let wtemp_prob :=
    F32.of_double
      (F64.div (F64.of_single (F32.sub t_wtemp (F32.of_Z (therm px))))
               (F64.lit 400 1)) in
  let wtemp_prob := if not_positive wtemp_prob then f32_zero else wtemp_prob in
  let t_bright := 1100 in
  let brightness_prob := F32.div (F32.of_Z (swir1 px)) (F32.of_Z t_bright) in
  let brightness_prob :=
    if above brightness_prob (F64.lit 1 1)
    then F32.of_double (F64.lit 1 1) else brightness_prob in
  let brightness_prob :=
    if not_positive brightness_prob then f32_zero else brightness_prob in
  F32.of_double
    (F64.mul (F64.mul (F64.lit 100 1) (F64.of_single wtemp_prob))
             (F64.of_single brightness_prob)).

(** Cloud probability over land. *)
Definition final_prob_of (meta : meta_t) (t_temph temp_l : F32.t) (px : pixel)
  : F32.t :=
  let temp_prob := F32.div (F32.sub t_temph (F32.of_Z (therm px))) temp_l in
  let temp_prob := if not_positive temp_prob then f32_zero else temp_prob in
  let ndvi := ndvi_of px in
  let ndsi := ndsi_of px in
  let ndsi := if not_positive ndsi then f32_zero else ndsi in
  let ndvi := if not_positive ndvi then f32_zero else ndvi in
  let whiteness := whiteness_p3 meta px in
  let max_value := if positive (F32.sub ndsi ndvi) then ndsi else ndvi in
  let max_value :=
    if positive (F32.sub whiteness max_value) then whiteness else max_value in
  let vari_prob :=
    F32.of_double (F64.sub (F64.lit 1 1) (F64.of_single max_value)) in
  F32.of_double
    (F64.mul (F64.lit 100 1) (F64.of_single (F32.mul temp_prob vari_prob))).

Record p3_state := { final_prob : list F32.t; wfinal_prob : list F32.t }.

Definition third_pass_body (m : meta_t) (pixel_mask : list Z)
           (t_temph temp_l t_wtemp : F32.t) (r : row_t)
           (pixel_index col : nat) (st : p3_state) : p3_state :=
  if mask_test (pixel_mask !!! pixel_index) CF_FILL_BIT then st
  else
    let px := saturate_p3 m (raw_pixel r col) in
    if mask_test (pixel_mask !!! pixel_index) CF_WATER_BIT then
      {| wfinal_prob := <[pixel_index := wfinal_prob_of t_wtemp px]> (wfinal_prob st);
         final_prob := <[pixel_index := f32_zero]> (final_prob st) |}
    else
      {| final_prob :=
           <[pixel_index := final_prob_of m t_temph temp_l px]> (final_prob st);
         wfinal_prob := <[pixel_index := f32_zero]> (wfinal_prob st) |}.

Definition third_pass (env : env_t) (nrows ncols : nat) (pixel_mask : list Z)
           (t_temph temp_l t_wtemp : F32.t) : res p3_state :=
  for_rows (read_row env P3)
           (fun r row =>
              for_cols (fun col => third_pass_body (meta env) pixel_mask t_temph
                                     temp_l t_wtemp r (row * ncols + col) col)
                       ncols 0)
           nrows 0
           {| final_prob := replicate (nrows * ncols) f32_zero;
              wfinal_prob := replicate (nrows * ncols) f32_zero |}.

(** ** Dynamic thresholds *)

Record prob_state := {
  prob : list F32.t; prob_max : F32.t; prob_min : F32.t; prob_count : nat
}.

(** The gathering loop over [final_prob] (with [land_bit]) and over
    [wfinal_prob] (with [water_bit]). [prob] comes from [malloc]; the cells
    the loop has not written are never read and stand here as 0. *)
Definition gather_body (clear_mask : list Z) (bit : Z) (src : list F32.t)
           (pixel_index : nat) (st : prob_state) : prob_state :=
  if mask_test (clear_mask !!! pixel_index) CF_CLEAR_FILL_BIT then st
  else if mask_test (clear_mask !!! pixel_index) bit then
    let v := src !!! pixel_index in
    {| prob := <[prob_count st := v]> (prob st);
       prob_max := if positive (F32.sub v (prob_max st)) then v else prob_max st;
       prob_min := if positive (F32.sub (prob_min st) v) then v else prob_min st;
       prob_count := S (prob_count st) |}
  else st.

Definition gather (pixel_count : nat) (clear_mask : list Z) (bit : Z)
           (src : list F32.t) : prob_state :=
  for_cols (gather_body clear_mask bit src) pixel_count 0
           {| prob := replicate pixel_count f32_zero; prob_max := f32_zero;
              prob_min := f32_zero; prob_count := 0 |}.

(** ** Pass 4: confidence *)

Record masks := { pixel_mask : list Z; conf_mask : list Z }.

(** The test of the high-confidence branch, on the cell [m]. *)
Definition high_test (m : Z) (fp wfp clr_mask wclr_mask t_templ : F32.t)
           (th : Z) : bool :=
  (mask_test m CF_CLOUD_BIT && F32.ltb clr_mask fp
   && negb (mask_test m CF_WATER_BIT))
  || (mask_test m CF_CLOUD_BIT && F32.ltb wclr_mask wfp
      && mask_test m CF_WATER_BIT)
  || F32.ltb (F32.of_Z th)
             (F32.sub (F32.add t_templ (F32.of_Z t_buffer)) (F32.of_Z 3500)).

(** [prob > mask - 10.0] *)
Definition exceeds_less_10 (p mask : F32.t) : bool :=
  F64.ltb (F64.sub (F64.of_single mask) (F64.lit 10 1)) (F64.of_single p).

(** The test of the medium-confidence branch. *)
Definition med_test (m : Z) (fp wfp clr_mask wclr_mask : F32.t) : bool :=
  (mask_test m CF_CLOUD_BIT && exceeds_less_10 fp clr_mask
   && negb (mask_test m CF_WATER_BIT))
  || (mask_test m CF_CLOUD_BIT && exceeds_less_10 wfp wclr_mask
      && mask_test m CF_WATER_BIT).

(** The confidence decision on one non-fill pixel: the new [conf_mask]
    cell and the new [pixel_mask] cell. *)
Definition fourth_pass_pixel (m : Z) (fp wfp clr_mask wclr_mask t_templ : F32.t)
           (th : Z) : Z * Z :=
  if high_test m fp wfp clr_mask wclr_mask t_templ th
  then (CLOUD_CONFIDENCE_HIGH, mask_or m CF_CLOUD_BIT)
  else if med_test m fp wfp clr_mask wclr_mask
  then (CLOUD_CONFIDENCE_MED, mask_andnot m CF_CLOUD_BIT)
  else (CLOUD_CONFIDENCE_LOW, mask_andnot m CF_CLOUD_BIT).

Definition fourth_pass_body (me : meta_t) (fp wfp : list F32.t)
           (clr_mask wclr_mask t_templ : F32.t) (r : row_t)
           (pixel_index col : nat) (st : masks) : masks :=
  if mask_test (pixel_mask st !!! pixel_index) CF_FILL_BIT then st
  else
    let th := saturate (therm_satu_value_ref me) (therm_satu_value_max me)
                       (therm_at r col) in
    let '(c, m) :=
      fourth_pass_pixel (pixel_mask st !!! pixel_index) (fp !!! pixel_index)
                        (wfp !!! pixel_index) clr_mask wclr_mask t_templ th in
    {| conf_mask := <[pixel_index := c]> (conf_mask st);
       pixel_mask := <[pixel_index := m]> (pixel_mask st) |}.

Definition fourth_pass (env : env_t) (nrows ncols : nat) (fp wfp : list F32.t)
           (clr_mask wclr_mask t_templ : F32.t) (st : masks) : res masks :=
  for_rows (read_therm_row env P4)
           (fun r row =>
              for_cols (fun col => fourth_pass_body (meta env) fp wfp clr_mask
                                     wclr_mask t_templ r (row * ncols + col) col)
                       ncols 0)
           nrows 0 st.

(** ** Pass 5: infrared background *)

Record p5_state := {
  nir_smp : list Z; nir_max : Z; nir_min : Z; nir_count : nat;
  swir1_smp : list Z; swir1_max : Z; swir1_min : Z; swir1_count : nat;
  nir_line : list Z; swir1_line : list Z;
  nir_data : list Z; swir1_data : list Z
}.

(** The column body of pass 5; the substituted samples are written back
    into the row buffers [nir_line] and [swir1_line]. *)
Definition fifth_pass_body (m : meta_t) (clear_mask : list Z) (land_bit : Z)
           (pixel_index col : nat) (st : p5_state) : p5_state :=
  if mask_test (clear_mask !!! pixel_index) CF_CLEAR_FILL_BIT then st
  else
    let n := saturate (satu_value_ref m BI_NIR) (satu_value_max m BI_NIR)
                      (nth col (nir_line st) 0) in
    let s := saturate (satu_value_ref m BI_SWIR_1) (satu_value_max m BI_SWIR_1)
                      (nth col (swir1_line st) 0) in
    let nl := <[col := n]> (nir_line st) in
    let sl := <[col := s]> (swir1_line st) in
    if mask_test (clear_mask !!! pixel_index) land_bit then
      {| nir_smp := <[nir_count st := n]> (nir_smp st);
         nir_max := if n >? nir_max st then n else nir_max st;
         nir_min := if n <? nir_min st then n else nir_min st;
         nir_count := S (nir_count st);
         swir1_smp := <[swir1_count st := s]> (swir1_smp st);
         swir1_max := if s >? swir1_max st then s else swir1_max st;
         swir1_min := if s <? swir1_min st then s else swir1_min st;
         swir1_count := S (swir1_count st);
         nir_line := nl; swir1_line := sl;
         nir_data := nir_data st; swir1_data := swir1_data st |}
    else
      {| nir_smp := nir_smp st; nir_max := nir_max st; nir_min := nir_min st;
         nir_count := nir_count st;
         swir1_smp := swir1_smp st; swir1_max := swir1_max st;
         swir1_min := swir1_min st; swir1_count := swir1_count st;
         nir_line := nl; swir1_line := sl;
         nir_data := nir_data st; swir1_data := swir1_data st |}.

(** [memcpy (&dst[offset], &line[0], n * sizeof (int16))] *)
Definition memcpy (dst : list Z) (offset : nat) (line : list Z) (n : nat)
  : list Z :=
  for_cols (fun c d => <[(offset + c)%nat := nth c line 0]> d) n 0 dst.

Definition fifth_pass_row (m : meta_t) (clear_mask : list Z) (land_bit : Z)
           (ncols : nat) (r : row_t) (row : nat) (st : p5_state) : p5_state :=
  let st :=
    {| nir_smp := nir_smp st; nir_max := nir_max st; nir_min := nir_min st;
       nir_count := nir_count st;
       swir1_smp := swir1_smp st; swir1_max := swir1_max st;
       swir1_min := swir1_min st; swir1_count := swir1_count st;
       nir_line := nth BI_NIR (buf r) []; swir1_line := nth BI_SWIR_1 (buf r) [];
       nir_data := nir_data st; swir1_data := swir1_data st |} in
  let st :=
    for_cols (fun col => fifth_pass_body m clear_mask land_bit (row * ncols + col) col)
             ncols 0 st in
  {| nir_smp := nir_smp st; nir_max := nir_max st; nir_min := nir_min st;
     nir_count := nir_count st;
     swir1_smp := swir1_smp st; swir1_max := swir1_max st;
     swir1_min := swir1_min st; swir1_count := swir1_count st;
     nir_line := nir_line st; swir1_line := swir1_line st;
     nir_data := memcpy (nir_data st) (row * ncols) (nir_line st) ncols;
     swir1_data := memcpy (swir1_data st) (row * ncols) (swir1_line st) ncols |}.

Definition fifth_pass (env : env_t) (nrows ncols : nat) (clear_mask : list Z)
           (land_bit : Z) : res p5_state :=
  let data_size := (nrows * ncols)%nat in
  for_rows (read_refl_row env P5)
           (fifth_pass_row (meta env) clear_mask land_bit ncols)
           nrows 0
           {| nir_smp := replicate data_size 0; nir_max := 0; nir_min := 0;
              nir_count := 0;
              swir1_smp := replicate data_size 0; swir1_max := 0; swir1_min := 0;
              swir1_count := 0;
              nir_line := []; swir1_line := [];
              nir_data := replicate data_size 0;
              swir1_data := replicate data_size 0 |}.

(** ** Pass 6: shadow and water refinement *)

(** The statements of pass 6 on the cell [m] of a pixel whose FILL bit is
    clear; [n] and [s] are the substituted NIR and SWIR1 samples. *)
Definition sixth_pass_pixel (m filled_nir filled_swir1 n s : Z) : Z :=
  let new_nir := wrap16 (filled_nir - n) in
  let new_swir1 := wrap16 (filled_swir1 - s) in
  let shadow_prob := if new_nir <? new_swir1 then new_nir else new_swir1 in
  let m := mask_assign (shadow_prob >? 200) m CF_SHADOW_BIT in
  if mask_test m CF_WATER_BIT && mask_test m CF_CLOUD_BIT
  then mask_andnot m CF_WATER_BIT
  else m.

Definition sixth_pass_body (me : meta_t) (filled_nir_data filled_swir1_data : list Z)
           (r : row_t) (pixel_index col : nat) (st : masks) : masks :=
  let n := saturate (satu_value_ref me BI_NIR) (satu_value_max me BI_NIR)
                    (band_at r BI_NIR col) in
  let s := saturate (satu_value_ref me BI_SWIR_1) (satu_value_max me BI_SWIR_1)
                    (band_at r BI_SWIR_1 col) in
  if mask_test (pixel_mask st !!! pixel_index) CF_FILL_BIT then
    {| pixel_mask := pixel_mask st;
       conf_mask := <[pixel_index := CF_FILL_PIXEL]> (conf_mask st) |}
  else
    {| pixel_mask :=
         <[pixel_index := sixth_pass_pixel (pixel_mask st !!! pixel_index)
                            (filled_nir_data !!! pixel_index)
                            (filled_swir1_data !!! pixel_index) n s]>
           (pixel_mask st);
       conf_mask := conf_mask st |}.

Definition sixth_pass (env : env_t) (nrows ncols : nat)
           (filled_nir_data filled_swir1_data : list Z) (st : masks)
  : res masks :=
  for_rows (read_row env P6)
           (fun r row =>
              for_cols (fun col => sixth_pass_body (meta env) filled_nir_data
                                     filled_swir1_data r (row * ncols + col) col)
                       ncols 0)
           nrows 0 st.

(** ** The operation *)

Inductive status_t := SUCCESS | FAILURE.

(** What the caller lends and reads back: the two masks and the three
    [float] out-parameters. *)
Record io_t := {
  io_masks : masks;
  clear_ptm : F32.t;
  t_templ : F32.t;
  t_temph : F32.t
}.

(** The return value, the buffers still allocated at the return, and the
    caller's data as the function leaves it. *)
Record outcome := {
  status : status_t;
  live : list buffer;
  io : io_t
}.

(** [free (b)] *)
Definition free (b : buffer) (l : list buffer) : list buffer :=
  List.filter (fun x => negb (buffer_eqb x b)) l.

(** [b = calloc (...)] or [b = malloc (...)]: the buffer is owned when the
    allocation succeeds. *)
Definition alloc (env : env_t) (b : buffer) (l : list buffer) : list buffer :=
  if alloc_ok env b then b :: l else l.

(** [RETURN_ERROR (message, module, FAILURE)]. error.h is not part of the
    sources; the macro reports the message and returns its third
    argument. It releases nothing: the one failure path that releases
    buffers, after the flood fill, does so by hand before it invokes the
    macro. *)
Definition RETURN_ERROR (l : list buffer) (o : io_t) : outcome :=
  {| status := FAILURE; live := l; io := o |}.

Definition set_masks (o : io_t) (m : masks) : io_t :=
  {| io_masks := m; clear_ptm := clear_ptm o; t_templ := t_templ o;
     t_temph := t_temph o |}.

Definition set_temps (o : io_t) (tl th : F32.t) : io_t :=
  {| io_masks := io_masks o; clear_ptm := clear_ptm o; t_templ := tl;
     t_temph := th |}.

Definition set_clear_ptm (o : io_t) (c : F32.t) : io_t :=
  {| io_masks := io_masks o; clear_ptm := c; t_templ := t_templ o;
     t_temph := t_temph o |}.

(** From the sixth pass to the return. *)
Definition sixth_stage (env : env_t) (nrows ncols : nat) (l : list buffer)
           (filled_nir_data filled_swir1_data : list Z) (o : io_t) : outcome :=
  match sixth_pass env nrows ncols filled_nir_data filled_swir1_data (io_masks o) with
  | Fail m => RETURN_ERROR l (set_masks o m)
  | Ok m =>
      let l := free B_nir_data l in
      let l := free B_swir1_data l in
      let l := free B_filled_nir_data l in
      let l := free B_filled_swir1_data l in
      let l := free B_clear_mask l in
      {| status := SUCCESS; live := l; io := set_masks o m |}
  end.

(** The flood-fill section: pass 5, the two background percentiles and
    the two fills. *)
Definition fifth_stage (env : env_t) (nrows ncols : nat) (l : list buffer)
           (clear_mask : list Z) (land_bit : Z) (o : io_t) : outcome :=
  let l := alloc env B_nir l in
  let l := alloc env B_swir1 l in
  if negb (alloc_ok env B_nir && alloc_ok env B_swir1) then RETURN_ERROR l o
  else
  let l := alloc env B_nir_data l in
  let l := alloc env B_swir1_data l in
  let l := alloc env B_filled_nir_data l in
  let l := alloc env B_filled_swir1_data l in
  if negb (alloc_ok env B_nir_data && alloc_ok env B_swir1_data
           && alloc_ok env B_filled_nir_data && alloc_ok env B_filled_swir1_data)
  then RETURN_ERROR l o
  else
  match fifth_pass env nrows ncols clear_mask land_bit with
  | Fail _ => RETURN_ERROR l o
  | Ok s5 =>
      match prctile env (nir_smp s5) (Z.of_nat (nir_count s5)) (nir_min s5)
                    (nir_max s5) (pct l_pt) with
      | None => RETURN_ERROR l o
      | Some nir_boundary =>
          match prctile env (swir1_smp s5) (Z.of_nat (swir1_count s5))
                        (swir1_min s5) (swir1_max s5) (pct l_pt) with
          | None => RETURN_ERROR l o
          | Some swir1_boundary =>
              let l := free B_nir l in
              let l := free B_swir1 l in
              let fn := fill_local_minima_in_image env (nir_data s5) nrows ncols
                                                   nir_boundary in
              let fs := fill_local_minima_in_image env (swir1_data s5) nrows ncols
                                                   swir1_boundary in
              let l := free B_nir_data l in
              let l := free B_swir1_data l in
              match fn, fs with
              | Some filled_nir_data, Some filled_swir1_data =>
                  sixth_stage env nrows ncols l filled_nir_data
                              filled_swir1_data o
              | _, _ =>
                  let l := free B_filled_nir_data l in
                  let l := free B_filled_swir1_data l in
                  RETURN_ERROR l o
              end
          end
      end
  end.

(** The dynamic thresholds and pass 4. *)
Definition fourth_stage (env : env_t) (nrows ncols : nat)
           (cloud_prob_threshold : F32.t) (l : list buffer)
           (clear_mask : list Z) (land_bit water_bit : Z) (s3 : p3_state)
           (o : io_t) : outcome :=
  let pixel_count := (nrows * ncols)%nat in
  let l := alloc env B_prob l in
  if negb (alloc_ok env B_prob) then RETURN_ERROR l o
  else
  let g := gather pixel_count clear_mask land_bit (final_prob s3) in
  match prctile2 env (prob g) (Z.of_nat (prob_count g)) (prob_min g) (prob_max g)
                 (pct h_pt) with
  | None => RETURN_ERROR l o
  | Some clr =>
      let clr_mask := F32.add clr cloud_prob_threshold in
      let l := free B_prob l in
      let l := alloc env B_wprob l in
      if negb (alloc_ok env B_wprob) then RETURN_ERROR l o
      else
      let w := gather pixel_count clear_mask water_bit (wfinal_prob s3) in
      match prctile2 env (prob w) (Z.of_nat (prob_count w)) (prob_min w)
                     (prob_max w) (pct h_pt) with
      | None => RETURN_ERROR l o
      | Some wclr =>
          let wclr_mask := F32.add wclr cloud_prob_threshold in
          let l := free B_wprob l in
          match fourth_pass env nrows ncols (final_prob s3) (wfinal_prob s3)
                            clr_mask wclr_mask (t_templ o) (io_masks o) with
          | Fail m => RETURN_ERROR l (set_masks o m)
          | Ok m =>
              let l := free B_wfinal_prob l in
              let l := free B_final_prob l in
              fifth_stage env nrows ncols l clear_mask land_bit (set_masks o m)
          end
      end
  end.

(** Pass 3. *)
Definition third_stage (env : env_t) (nrows ncols : nat)
           (cloud_prob_threshold : F32.t) (l : list buffer)
           (clear_mask : list Z) (land_bit water_bit : Z)
           (temp_l t_wtemp : F32.t) (o : io_t) : outcome :=
  let l := alloc env B_wfinal_prob l in
  let l := alloc env B_final_prob l in
  if negb (alloc_ok env B_wfinal_prob && alloc_ok env B_final_prob)
  then RETURN_ERROR l o
  else
  match third_pass env nrows ncols (pixel_mask (io_masks o)) (t_temph o) temp_l
                   t_wtemp with
  | Fail _ => RETURN_ERROR l o
  | Ok s3 =>
      fourth_stage env nrows ncols cloud_prob_threshold l clear_mask land_bit
                   water_bit s3 o
  end.

(** Pass 2 and the temperature percentiles. Each percentile is written
    through its out-parameter as soon as its call returns. *)
Definition second_stage (env : env_t) (nrows ncols : nat)
           (cloud_prob_threshold : F32.t) (l : list buffer)
           (clear_mask : list Z) (land_ptm water_ptm : F32.t) (o : io_t)
  : outcome :=
  let l := alloc env B_f_temp l in
  let l := alloc env B_f_wtemp l in
  if negb (alloc_ok env B_f_temp && alloc_ok env B_f_wtemp) then RETURN_ERROR l o
  else
  let land_bit := if enough land_ptm then CF_CLEAR_LAND_BIT else CF_CLEAR_BIT in
  let water_bit := if enough water_ptm then CF_CLEAR_WATER_BIT else CF_CLEAR_BIT in
  match second_pass env nrows ncols clear_mask land_bit water_bit with
  | Fail _ => RETURN_ERROR l o
  | Ok s2 =>
      let f_temp_min := if f_temp_min s2 =? SHRT_MAX then 0 else f_temp_min s2 in
      let f_temp_max := if f_temp_max s2 =? SHRT_MIN then 0 else f_temp_max s2 in
      let f_wtemp_min := if f_wtemp_min s2 =? SHRT_MAX then 0 else f_wtemp_min s2 in
      let f_wtemp_max := if f_wtemp_max s2 =? SHRT_MIN then 0 else f_wtemp_max s2 in
      match prctile env (f_temp s2) (Z.of_nat (land_count s2)) f_temp_min
                    f_temp_max (pct l_pt) with
      | None => RETURN_ERROR l o
      | Some tl =>
          let o := set_temps o tl (t_temph o) in
          match prctile env (f_temp s2) (Z.of_nat (land_count s2)) f_temp_min
                        f_temp_max (pct h_pt) with
          | None => RETURN_ERROR l o
          | Some th =>
              let o := set_temps o (t_templ o) th in
              match prctile env (f_wtemp s2) (Z.of_nat (water_count s2))
                            f_wtemp_min f_wtemp_max (pct h_pt) with
              | None => RETURN_ERROR l o
              | Some t_wtemp =>
                  let o := set_temps o (F32.sub (t_templ o) (F32.of_Z t_buffer))
                                     (F32.add (t_temph o) (F32.of_Z t_buffer)) in
                  let temp_l := F32.sub (t_temph o) (t_templ o) in
                  let l := free B_f_wtemp l in
                  let l := free B_f_temp l in
                  third_stage env nrows ncols cloud_prob_threshold l clear_mask
                              land_bit water_bit temp_l t_wtemp o
              end
          end
      end
  end.

(** The state in which pass 1 starts: the caller's [pixel_mask], a zeroed
    [clear_mask], zero counters, [whiteness = 0.0]. *)
Definition p1_init (pixel_count : nat) (pm : list Z) : p1_state :=
  {| p1_pixel_mask := pm; p1_clear_mask := replicate pixel_count 0;
     image_data_counter := 0; clear_pixel_counter := 0;
     clear_land_pixel_counter := 0; clear_water_pixel_counter := 0;
     p1_whiteness := f32_zero |}.

Definition minus_one : F32.t := F32.of_double (F64.lit (-1) 1).

Definition potential_cloud_shadow_snow_mask (env : env_t) (nrows ncols : nat)
           (cloud_prob_threshold : F32.t) (o : io_t) : outcome :=
  let pixel_count := (nrows * ncols)%nat in
  let l := alloc env B_clear_mask [] in
  if negb (alloc_ok env B_clear_mask) then RETURN_ERROR l o
  else
  match first_pass env nrows ncols
                   (p1_init pixel_count (pixel_mask (io_masks o))) with
  | Fail s1 =>
      RETURN_ERROR l (set_masks o {| pixel_mask := p1_pixel_mask s1;
                                     conf_mask := conf_mask (io_masks o) |})
  | Ok s1 =>
      let o := set_masks o {| pixel_mask := p1_pixel_mask s1;
                              conf_mask := conf_mask (io_masks o) |} in
      let o := set_clear_ptm o (percent_of (clear_pixel_counter s1)
                                           (image_data_counter s1)) in
      let land_ptm := percent_of (clear_land_pixel_counter s1)
                                 (image_data_counter s1) in
      let water_ptm := percent_of (clear_water_pixel_counter s1)
                                  (image_data_counter s1) in
      if all_cloud_test (clear_ptm o) then
        let o := set_temps o minus_one minus_one in
        let o := set_masks o {| pixel_mask := all_cloud pixel_count
                                                (pixel_mask (io_masks o));
                                conf_mask := conf_mask (io_masks o) |} in
        {| status := SUCCESS; live := free B_clear_mask l; io := o |}
      else
        second_stage env nrows ncols cloud_prob_threshold l (p1_clear_mask s1)
                     land_ptm water_ptm o
  end.

(** ** The specification's wording of the pass-1 cloud chain *)

(** NDVI and NDSI, 0.01 when the denominator is zero. *)
Definition spec_ndvi (px : pixel) : F32.t :=
  if nir px + red px =? 0 then F32.of_double (F64.lit 1 100)
  else F32.div (F32.of_Z (nir px - red px)) (F32.of_Z (nir px + red px)).

Definition spec_ndsi (px : pixel) : F32.t :=
  if green px + swir1 px =? 0 then F32.of_double (F64.lit 1 100)
  else F32.div (F32.of_Z (green px - swir1 px)) (F32.of_Z (green px + swir1 px)).

(** [satu_bv]: 1 when a visible band is at or above [satu_value_max - 1]. *)
Definition spec_satu_bv (meta : meta_t) (px : pixel) : Z :=
  if (blue px >=? satu_value_max meta BI_BLUE - 1)
     || (green px >=? satu_value_max meta BI_GREEN - 1)
     || (red px >=? satu_value_max meta BI_RED - 1)
  then 1 else 0.

(** Whiteness: forced to 0 under saturation, 100 when [visi_mean] is 0. *)
Definition spec_whiteness (meta : meta_t) (px : pixel) : F32.t :=
  if spec_satu_bv meta px =? 1 then f32_zero
  else if F32.eqb (visi_mean_p1 px) (F32.of_Z 0) then F32.of_double (F64.lit 100 1)
  else flatness px (visi_mean_p1 px).

(** The four chained tests, each float comparison with the [MINSIGMA]
    epsilon. *)
Definition spec_basic_test (px : pixel) : bool :=
  below (spec_ndsi px) (F64.lit 8 10) && below (spec_ndvi px) (F64.lit 8 10)
  && (swir2 px >? 300) && (therm px <? 2700).

Definition spec_whiteness_test (meta : meta_t) (px : pixel) : bool :=
  below (spec_whiteness meta px) (F64.lit 7 10).

Definition spec_hot_test (meta : meta_t) (px : pixel) : bool :=
  positive (hot_of px) || (spec_satu_bv meta px =? 1).

Definition spec_ratio_test (px : pixel) : bool :=
  negb (swir1 px =? 0)
  && above (F32.div (F32.of_Z (nir px)) (F32.of_Z (swir1 px))) (F64.lit 3 4).

Definition spec_cloud_chain (meta : meta_t) (px : pixel) : bool :=
  spec_basic_test px && spec_whiteness_test meta px
  && spec_hot_test meta px && spec_ratio_test px.

(** ** What the sweeps do to one cell *)

(** The cells of a pixel in the two masks. *)
Definition cells (st : masks) (i : nat) : Z * Z :=
  (pixel_mask st !!! i, conf_mask st !!! i).

(** Pass 1 on the [pixel_mask] cell of the pixel in column [c] of the
    scan line [line]; [w] is the [whiteness] left by the pixel before. *)
Definition first_pass_cell (m : meta_t) (line : row_t) (c : nat) (v v' : Z)
  : Prop :=
  let px := saturate_all m (raw_pixel line c) in
  if is_fill px then v' = CF_FILL_BIT
  else exists w, v' = fst (first_pass_pixel m px w v).

(** Pass 4 on the cells of pixel [i], column [c] of [line]. *)
Definition fourth_pass_cell (me : meta_t) (fp wfp : list F32.t)
           (clr_mask wclr_mask tl : F32.t) (line : row_t) (i c : nat)
           (v : Z * Z) : Z * Z :=
  if mask_test (fst v) CF_FILL_BIT then v
  else
    let th := saturate (therm_satu_value_ref me) (therm_satu_value_max me)
                       (therm_at line c) in
    let '(cf, m) := fourth_pass_pixel (fst v) (fp !!! i) (wfp !!! i) clr_mask
                                      wclr_mask tl th in
    (m, cf).

(** Pass 6 on the cells of pixel [i], column [c] of [line]. *)
Definition sixth_pass_cell (me : meta_t) (filled_nir_data filled_swir1_data : list Z)
           (line : row_t) (i c : nat) (v : Z * Z) : Z * Z :=
  if mask_test (fst v) CF_FILL_BIT then (fst v, CF_FILL_PIXEL)
  else
    (sixth_pass_pixel (fst v) (filled_nir_data !!! i) (filled_swir1_data !!! i)
       (saturate (satu_value_ref me BI_NIR) (satu_value_max me BI_NIR)
                 (band_at line BI_NIR c))
       (saturate (satu_value_ref me BI_SWIR_1) (satu_value_max me BI_SWIR_1)
                 (band_at line BI_SWIR_1 c)),
     snd v).

(** ** The specification's wording of the pass-4 decision *)

(** HIGH: CLOUD and not WATER and [final_prob > clr_mask], or CLOUD and
    WATER and [wfinal_prob > wclr_mask], or
    [thermal < t_templ + 400 - 3500]. *)
Definition spec_high (m : Z) (fp wfp clr_mask wclr_mask tl : F32.t) (th : Z)
  : bool :=
  (mask_test m CF_CLOUD_BIT && negb (mask_test m CF_WATER_BIT)
   && F32.ltb clr_mask fp)
  || (mask_test m CF_CLOUD_BIT && mask_test m CF_WATER_BIT
      && F32.ltb wclr_mask wfp)
  || F32.ltb (F32.of_Z th)
             (F32.sub (F32.add tl (F32.of_Z 400)) (F32.of_Z 3500)).

(** MED: CLOUD and not WATER and [final_prob > clr_mask - 10], or CLOUD and
    WATER and [wfinal_prob > wclr_mask - 10]. *)
Definition spec_med (m : Z) (fp wfp clr_mask wclr_mask : F32.t) : bool :=
  (mask_test m CF_CLOUD_BIT && negb (mask_test m CF_WATER_BIT)
   && exceeds_less_10 fp clr_mask)
  || (mask_test m CF_CLOUD_BIT && mask_test m CF_WATER_BIT
      && exceeds_less_10 wfp wclr_mask).

(** The confidence the top-down reading of the three cases assigns. *)
Definition spec_confidence (high med : bool) : Z :=
  if high then CLOUD_CONFIDENCE_HIGH
  else if med then CLOUD_CONFIDENCE_MED
  else CLOUD_CONFIDENCE_LOW.

(** The two land percentiles as pass 2 delivers them, before the buffer
    of 400 is applied. *)
Definition land_percentiles (env : env_t) (nrows ncols : nat)
           (clear_mask : list Z) (land_ptm water_ptm : F32.t)
           (tl0 th0 : F32.t) : Prop :=
  let land_bit := if enough land_ptm then CF_CLEAR_LAND_BIT else CF_CLEAR_BIT in
  let water_bit := if enough water_ptm then CF_CLEAR_WATER_BIT else CF_CLEAR_BIT in
  exists s2,
    second_pass env nrows ncols clear_mask land_bit water_bit = Ok s2
    /\ let f_temp_min := if f_temp_min s2 =? SHRT_MAX then 0 else f_temp_min s2 in
       let f_temp_max := if f_temp_max s2 =? SHRT_MIN then 0 else f_temp_max s2 in
       prctile env (f_temp s2) (Z.of_nat (land_count s2)) f_temp_min f_temp_max
               (pct l_pt) = Some tl0
       /\ prctile env (f_temp s2) (Z.of_nat (land_count s2)) f_temp_min f_temp_max
                  (pct h_pt) = Some th0.


(** ** Concrete scenes *)

(** A descriptor whose saturation sentinel, 20000, is replaced by 16000
    in the reflective bands and by 9000 in the thermal band. *)
Definition demo_meta : meta_t :=
  {| satu_value_ref := fun _ => 20000; satu_value_max := fun _ => 16000;
     therm_satu_value_ref := 20000; therm_satu_value_max := 9000 |}.

Definition band_of (ib : nat) (p : pixel) : Z :=
  match ib with
  | 0%nat => blue p | 1%nat => green p | 2%nat => red p
  | 3%nat => nir p | 4%nat => swir1 p | _ => swir2 p
  end.

(** The pixels of row [row] of a row-major image. *)
Definition scan_line (img : list pixel) (ncols row : nat) : list pixel :=
  firstn ncols (skipn (row * ncols) img).

(** An environment that serves the image [img], [ncols] columns wide, in
    which nothing fails: the percentile of a sample is its minimum (0 for
    an empty sample) and the flood fill returns its input. *)
Definition demo_env (img : list pixel) (ncols : nat) : env_t :=
  {| meta := demo_meta; nband := 6;
     GetInputLine := fun _ ib row => Some (map (band_of ib) (scan_line img ncols row));
     GetInputThermLine := fun _ row => Some (map therm (scan_line img ncols row));
     prctile := fun _ _ mn _ _ => Some (F32.of_Z mn);
     prctile2 := fun _ _ mn _ _ => Some mn;
     fill_local_minima_in_image := fun src _ _ _ => Some src;
     alloc_ok := fun _ => true |}.

(** The caller's data at entry: both masks zeroed, the out-parameters 0. *)
Definition demo_io (n : nat) : io_t :=
  {| io_masks := {| pixel_mask := replicate n 0; conf_mask := replicate n 0 |};
     clear_ptm := f32_zero; t_templ := f32_zero; t_temph := f32_zero |}.

Definition fill_px : pixel :=
  mkPixel FILL_PIXEL FILL_PIXEL FILL_PIXEL FILL_PIXEL FILL_PIXEL FILL_PIXEL
          FILL_PIXEL.
(** A bright, cold, flat pixel: passes the four tests of the cloud chain. *)
Definition cloud_px : pixel := mkPixel 3000 3000 3000 3000 2000 1000 1000.
(** Clear vegetation (scenario 2 of the specification). *)
Definition veg_px : pixel := mkPixel 400 500 600 3000 1500 800 2500.
(** Water (scenario 4 of the specification). *)
Definition water_px : pixel := mkPixel 500 500 400 200 100 50 2800.
(** Cloud over water: passes the water test and the cloud chain. *)
Definition wet_cloud_px : pixel := mkPixel 3000 3000 3000 1000 1200 1000 1000.
(** Visible bands that sum to zero. *)
Definition balanced_px : pixel := mkPixel (-100) 0 100 150 500 400 1000.

(** The default threshold of the specification, 22.5. *)
Definition demo_threshold : F32.t := F32.of_double (F64.lit 225 10).

(** A run on a one-row image with zeroed masks. *)
Definition demo_run (img : list pixel) : outcome :=
  potential_cloud_shadow_snow_mask (demo_env img (length img)) 1 (length img)
                                   demo_threshold (demo_io (length img)).

(** The state after pass 1 of that run. *)
Definition demo_first_pass (img : list pixel) : p1_state :=
  match first_pass (demo_env img (length img)) 1 (length img)
                   (p1_init (length img) (replicate (length img) 0)) with
  | Ok s => s
  | Fail s => s
  end.

(** The masks pass 4 starts from in the scene [cloud_px; veg_px], the
    probabilities handed to it, and the masks it ends with. *)
Definition demo_p4_in : masks := {| pixel_mask := [2; 0]; conf_mask := [0; 0] |}.
Definition demo_final_prob : list F32.t := [F32.of_Z 50; f32_zero].
Definition demo_wfinal_prob : list F32.t := [f32_zero; f32_zero].
Definition demo_p4_out : masks :=
  match fourth_pass (demo_env [cloud_px; veg_px] 2) 1 2 demo_final_prob
                    demo_wfinal_prob demo_threshold demo_threshold
                    (F32.of_Z 500) demo_p4_in with
  | Ok s => s
  | Fail s => s
  end.

(** The masks, the filled rasters and the result of pass 6 in the scene
    [wet_cloud_px; veg_px]. *)
Definition demo_p6_in : masks := {| pixel_mask := [18; 0]; conf_mask := [3; 1] |}.
Definition demo_filled_nir : list Z := [1500; 3000].
Definition demo_filled_swir1 : list Z := [1600; 1500].
Definition demo_p6_out : masks :=
  match sixth_pass (demo_env [wet_cloud_px; veg_px] 2) 1 2 demo_filled_nir
                   demo_filled_swir1 demo_p6_in with
  | Ok s => s
  | Fail s => s
  end.

(** An environment whose reader fails on the first line it is asked for. *)
Definition failing_reader_env : env_t :=
  {| meta := demo_meta; nband := 6;
     GetInputLine := fun _ _ _ => None;
     GetInputThermLine := fun _ _ => None;
     prctile := fun _ _ mn _ _ => Some (F32.of_Z mn);
     prctile2 := fun _ _ mn _ _ => Some mn;
     fill_local_minima_in_image := fun src _ _ _ => Some src;
     alloc_ok := fun _ => true |}.

(** An image all of whose samples, in all seven bands, are [FILL_PIXEL],
    as pass 1 reads it. *)
Definition all_fill_image (env : env_t) (nrows ncols : nat) : Prop :=
  forall r c line, (r < nrows)%nat -> (c < ncols)%nat ->
    read_row env P1 r = Some line -> raw_pixel line c = fill_px.

(** The cells of a pixel in [pixel_mask] and [clear_mask] during pass 1. *)
Definition p1_cells (st : p1_state) (i : nat) : Z * Z :=
  (p1_pixel_mask st !!! i, p1_clear_mask st !!! i).

(** The state in which pass 2 starts. *)
Definition p2_init (pixel_count : nat) : p2_state :=
  {| f_temp := replicate pixel_count 0; f_temp_max := SHRT_MIN;
     f_temp_min := SHRT_MAX; land_count := 0;
     f_wtemp := replicate pixel_count 0; f_wtemp_max := SHRT_MIN;
     f_wtemp_min := SHRT_MAX; water_count := 0 |}.

(** ** Widening of small integers *)

(** Structural equality of two floats. *)
Definition sf_same (x y : spec_float) : bool :=
  match x, y with
  | S754_zero a, S754_zero b => Bool.eqb a b
  | S754_infinity a, S754_infinity b => Bool.eqb a b
  | S754_nan, S754_nan => true
  | S754_finite s m e, S754_finite s' m' e' =>
      Bool.eqb s s' && Pos.eqb m m' && Z.eqb e e'
  | _, _ => false
  end.

(** [(double) (float) z] and [(double) z] coincide for the [k] integers
    from [n] on. *)
Fixpoint widening_exact (k : nat) (n : Z) : bool :=
  match k with
  | O => true
  | S k' =>
      sf_same (F64.of_single (F32.of_Z n)) (F64.of_Z n)
      && widening_exact k' (n + 1)
  end.

(** ** The snow and water tests of pass 1, and its [clear_mask] cells *)

(** The condition under which pass 1 sets SNOW. *)
Definition snow_test (px : pixel) : bool :=
  above (ndsi_of px) (F64.lit 15 100) && (therm px <? 1000)
  && (nir px >? 1100) && (green px >? 1000).

(** The condition under which pass 1 sets WATER. *)
Definition water_test (px : pixel) : bool :=
  (below (ndvi_of px) (F64.lit 1 100) && (nir px <? 1100))
  || (below (ndvi_of px) (F64.lit 1 10) && positive (ndvi_of px)
      && (nir px <? 500)).

(** The [clear_mask] cell pass 1 writes beside the [pixel_mask] cell
    [cell] of a non-fill pixel. *)
Definition clear_cell_of (cell : Z) : Z :=
  if mask_test cell CF_CLOUD_BIT then CF_CLEAR_NONE
  else if mask_test cell CF_WATER_BIT
       then mask_or CF_CLEAR_BIT CF_CLEAR_WATER_BIT
       else mask_or CF_CLEAR_BIT CF_CLEAR_LAND_BIT.

(** ** Samples gathered for the percentile routines *)

(** The reader delivers [int16] samples on the thermal lines of pass [p]. *)
Definition therm_lines_int16 (env : env_t) (p : pass_id) : Prop :=
  forall row line, GetInputThermLine env p row = Some line ->
    Forall int16_range line.

(** The first [count] cells of [smp] lie between [mn] and [mx]. *)
Definition enclosed (smp : list Z) (count : nat) (mn mx : Z) : Prop :=
  forall j, (j < count)%nat -> mn <= smp !!! j <= mx.

(** What pass 2 keeps true of one of its two sample buffers after [k]
    pixels: the count is at most [k], the samples gathered are [int16]
    values within the running bounds, and the bounds are still the
    sentinels when nothing has been gathered. *)
Definition thermal_samples (n k : nat) (smp : list Z) (count : nat)
           (mn mx : Z) : Prop :=
  (count <= k)%nat
  /\ length smp = n
  /\ (forall j, (j < count)%nat -> int16_range (smp !!! j))
  /\ enclosed smp count mn mx
  /\ (count = 0%nat -> mn = SHRT_MAX /\ mx = SHRT_MIN).

(** The bounds pass 2 hands to [prctile]: a bound still at its sentinel
    becomes 0. *)
Definition lower_bound (mn : Z) : Z := if mn =? SHRT_MAX then 0 else mn.
Definition upper_bound (mx : Z) : Z := if mx =? SHRT_MIN then 0 else mx.

(** Pass 2 in the scene [veg_px; water_px], on the [clear_mask] pass 1
    has left. *)
Definition demo_second_pass : p2_state :=
  match second_pass (demo_env [veg_px; water_px] 2) 1 2
                    (p1_clear_mask (demo_first_pass [veg_px; water_px]))
                    CF_CLEAR_LAND_BIT CF_CLEAR_WATER_BIT with
  | Ok s => s
  | Fail s => s
  end.

(** ** Cells of the probability surfaces *)

(** The cells of a pixel in [final_prob] and [wfinal_prob]. *)
Definition p3_cells (st : p3_state) (i : nat) : F32.t * F32.t :=
  (final_prob st !!! i, wfinal_prob st !!! i).

(** Pass 3 in the scene [water_px; veg_px]. *)
Definition demo_third_pass : p3_state :=
  match third_pass (demo_env [water_px; veg_px] 2) 1 2
                   (p1_pixel_mask (demo_first_pass [water_px; veg_px]))
                   (F32.of_Z 3000) (F32.of_Z 1000) (F32.of_Z 2900) with
  | Ok s => s
  | Fail s => s
  end.

(** ** The shadow test of pass 6 *)

(** [shadow_prob > 200], with [shadow_prob] the smaller of the two
    16-bit differences. *)
Definition shadow_test (filled_nir filled_swir1 n s : Z) : bool :=
  (if wrap16 (filled_nir - n) <? wrap16 (filled_swir1 - s)
   then wrap16 (filled_nir - n) else wrap16 (filled_swir1 - s)) >? 200.

(** The extreme-cold test of pass 4. *)
Definition cold_test (tl : F32.t) (th : Z) : bool :=
  F32.ltb (F32.of_Z th)
          (F32.sub (F32.add tl (F32.of_Z t_buffer)) (F32.of_Z 3500)).

(** ** The samples of the dynamic thresholds *)

(** The pixels whose probability the gathering loops copy: not fill, and
    with [bit] set in [clear_mask]. *)
Definition gather_selected (clear_mask : list Z) (bit : Z) (i : nat) : bool :=
  negb (mask_test (clear_mask !!! i) CF_CLEAR_FILL_BIT)
  && mask_test (clear_mask !!! i) bit.

(** ** Pass 5: samples and rasters *)

(** What pass 5 keeps true of one of its two sample buffers after [k]
    pixels; the running bounds start at 0. *)
Definition reflectance_samples (n k : nat) (smp : list Z) (count : nat)
           (mn mx : Z) : Prop :=
  (count <= k)%nat
  /\ length smp = n
  /\ enclosed smp count mn mx
  /\ mn <= 0 <= mx.

(** The reader delivers NIR and SWIR1 lines of [ncols] samples on the
    first [nrows] rows of pass [p]. *)
Definition refl_lines_wide (env : env_t) (p : pass_id) (nrows ncols : nat)
  : Prop :=
  forall row line, (row < nrows)%nat -> read_refl_row env p row = Some line ->
    length (nth BI_NIR (buf line) []) = ncols
    /\ length (nth BI_SWIR_1 (buf line) []) = ncols.

(** The cell pass 5 leaves in a raster for a sample [v]: substituted
    unless the pixel is fill. *)
Definition raster_cell (ref max : Z) (clear_cell v : Z) : Z :=
  if mask_test clear_cell CF_CLEAR_FILL_BIT then v else saturate ref max v.

(** The buffers of the flood-fill section. *)
Definition flood_fill_buffer (b : buffer) : bool :=
  match b with
  | B_nir | B_swir1 | B_nir_data | B_swir1_data
  | B_filled_nir_data | B_filled_swir1_data => true
  | _ => false
  end.

(** Pass 5 in the scene [fill_px; veg_px], on the [clear_mask] pass 1 has
    left. *)
Definition demo_fifth_pass : p5_state :=
  match fifth_pass (demo_env [fill_px; veg_px] 2) 1 2
                   (p1_clear_mask (demo_first_pass [fill_px; veg_px]))
                   CF_CLEAR_LAND_BIT with
  | Ok s => s
  | Fail s => s
  end.

(** An environment that serves the image [img] and whose flood fill
    fails. *)
Definition failing_fill_env (img : list pixel) (ncols : nat) : env_t :=
  {| meta := demo_meta; nband := 6;
     GetInputLine := GetInputLine (demo_env img ncols);
     GetInputThermLine := GetInputThermLine (demo_env img ncols);
     prctile := prctile (demo_env img ncols);
     prctile2 := prctile2 (demo_env img ncols);
     fill_local_minima_in_image := fun _ _ _ _ => None;
     alloc_ok := fun _ => true |}.
(** ** Facts about mask cells *)

Lemma land_pow2 (m k : Z) :
  0 <= k -> Z.land m (2 ^ k) = if Z.testbit m k then 2 ^ k else 0.
Proof.
  intros Hk. apply Z.bits_inj'. intros n Hn.
  rewrite Z.land_spec, Z.pow2_bits_eqb by assumption.
  destruct (Z.eqb_spec k n) as [->|Hne].
  - destruct (Z.testbit m n); simpl.
    + rewrite Z.pow2_bits_eqb, Z.eqb_refl by assumption. reflexivity.
    + rewrite Z.bits_0. reflexivity.
  - rewrite andb_false_r. destruct (Z.testbit m k).
    + rewrite Z.pow2_bits_eqb by assumption.
      symmetry. apply Z.eqb_neq. assumption.
    + rewrite Z.bits_0. reflexivity.
Qed.

Lemma mask_test_testbit (m k : Z) :
  0 <= k -> mask_test m (2 ^ k) = Z.testbit m k.
Proof.
  intros Hk. unfold mask_test. rewrite land_pow2 by assumption.
  destruct (Z.testbit m k); [|reflexivity].
  assert (0 < 2 ^ k) by (apply Z.pow_pos_nonneg; lia).
  destruct (Z.eqb_spec (2 ^ k) 0); [lia | reflexivity].
Qed.

Lemma testbit_to_u8 (x n : Z) :
  0 <= n -> Z.testbit (to_u8 x) n = (n <? 8) && Z.testbit x n.
Proof.
  intros Hn. unfold to_u8. change 256 with (2 ^ 8).
  destruct (Z.ltb_spec n 8).
  - rewrite Z.mod_pow2_bits_low by lia. reflexivity.
  - rewrite Z.mod_pow2_bits_high by lia. reflexivity.
Qed.

Lemma testbit_mask_or (m k n : Z) :
  0 <= k -> 0 <= n ->
  Z.testbit (mask_or m (2 ^ k)) n = (n <? 8) && (Z.testbit m n || (n =? k)).
Proof.
  intros Hk Hn. unfold mask_or.
  rewrite testbit_to_u8, Z.lor_spec, Z.pow2_bits_eqb by assumption.
  rewrite (Z.eqb_sym k n). reflexivity.
Qed.

Lemma testbit_mask_andnot (m k n : Z) :
  0 <= k -> 0 <= n ->
  Z.testbit (mask_andnot m (2 ^ k)) n
  = (n <? 8) && (Z.testbit m n && negb (n =? k)).
Proof.
  intros Hk Hn. unfold mask_andnot.
  rewrite testbit_to_u8, Z.land_spec, Z.lnot_spec, Z.pow2_bits_eqb by assumption.
  rewrite (Z.eqb_sym k n). reflexivity.
Qed.

Lemma testbit_mask_assign (c : bool) (m k n : Z) :
  0 <= k -> 0 <= n ->
  Z.testbit (mask_assign c m (2 ^ k)) n
  = (n <? 8) && (if n =? k then c else Z.testbit m n).
Proof.
  intros Hk Hn. unfold mask_assign. destruct c.
  - rewrite testbit_mask_or by assumption.
    destruct (n =? k); [rewrite orb_true_r|rewrite orb_false_r]; reflexivity.
  - rewrite testbit_mask_andnot by assumption.
    destruct (n =? k); simpl; [rewrite andb_false_r|rewrite andb_true_r];
      reflexivity.
Qed.

(** Reading flag [2^j] after an assignment to flag [2^k]. *)
Lemma mask_test_assign (c : bool) (m k j : Z) :
  0 <= k -> 0 <= j < 8 ->
  mask_test (mask_assign c m (2 ^ k)) (2 ^ j)
  = if j =? k then c else mask_test m (2 ^ j).
Proof.
  intros Hk Hj. rewrite !mask_test_testbit, testbit_mask_assign by lia.
  destruct (Z.ltb_spec j 8); [reflexivity | lia].
Qed.

Lemma mask_test_or (m k j : Z) :
  0 <= k -> 0 <= j < 8 ->
  mask_test (mask_or m (2 ^ k)) (2 ^ j)
  = if j =? k then true else mask_test m (2 ^ j).
Proof. intros. apply (mask_test_assign true); assumption. Qed.

Lemma mask_test_andnot (m k j : Z) :
  0 <= k -> 0 <= j < 8 ->
  mask_test (mask_andnot m (2 ^ k)) (2 ^ j)
  = if j =? k then false else mask_test m (2 ^ j).
Proof. intros. apply (mask_test_assign false); assumption. Qed.

(** The flags as powers of two, and the simplification of flag reads. *)
Ltac flags_as_powers :=
  change CF_FILL_BIT with (2 ^ 0) in *;
  change CF_CLOUD_BIT with (2 ^ 1) in *;
  change CF_SHADOW_BIT with (2 ^ 2) in *;
  change CF_SNOW_BIT with (2 ^ 3) in *;
  change CF_WATER_BIT with (2 ^ 4) in *.

Ltac flag_reads :=
  repeat first
    [ rewrite mask_test_assign by lia
    | rewrite mask_test_or by lia
    | rewrite mask_test_andnot by lia ];
  cbn [Z.eqb Pos.eqb].

(** ** Pass 1 on one pixel *)

Lemma spec_ndvi_eq (px : pixel) : spec_ndvi px = ndvi_of px.
Proof.
  unfold spec_ndvi, ndvi_of. rewrite (Z.add_comm (nir px)).
  destruct (red px + nir px =? 0); reflexivity.
Qed.

Lemma spec_ndsi_eq (px : pixel) : spec_ndsi px = ndsi_of px.
Proof.
  unfold spec_ndsi, ndsi_of. destruct (green px + swir1 px =? 0); reflexivity.
Qed.

Lemma spec_satu_bv_eq (meta : meta_t) (px : pixel) :
  spec_satu_bv meta px = satu_bv_of meta px.
Proof. reflexivity. Qed.

Lemma satu_bv_is_one (meta : meta_t) (px : pixel) :
  (satu_bv_of meta px =? 1) = visible_saturated meta px.
Proof. unfold satu_bv_of. destruct (visible_saturated meta px); reflexivity. Qed.

(** Once the basic test has set CLOUD, the whiteness in force is the
    specification's, whatever the previous pixel left. *)
Lemma whiteness_p1_fresh (meta : meta_t) (px : pixel) (w : F32.t) :
  whiteness_p1 meta px true w = spec_whiteness meta px.
Proof.
  unfold whiteness_p1, spec_whiteness.
  change (spec_satu_bv meta px) with (satu_bv_of meta px).
  rewrite satu_bv_is_one.
  destruct (visible_saturated meta px); [reflexivity|].
  destruct (F32.eqb (visi_mean_p1 px) (F32.of_Z 0)); reflexivity.
Qed.

Lemma first_pass_pixel_cloud (meta : meta_t) (px : pixel) (w : F32.t) (m : Z) :
  mask_test (fst (first_pass_pixel meta px w m)) CF_CLOUD_BIT
  = spec_cloud_chain meta px.
Proof.
  unfold first_pass_pixel, spec_cloud_chain, spec_basic_test,
    spec_whiteness_test, spec_hot_test, spec_ratio_test, ratio_test.
  rewrite spec_ndvi_eq, spec_ndsi_eq.
  change (spec_satu_bv meta px) with (satu_bv_of meta px).
  rewrite satu_bv_is_one. cbn [fst].
  set (basic := below (ndsi_of px) (F64.lit 8 10) && below (ndvi_of px) (F64.lit 8 10)
                && (swir2 px >? 300) && (therm px <? 2700)).
  flags_as_powers.
  match goal with
  | |- context [mask_assign ?c (mask_assign ?s (mask_assign basic m _) _) _] =>
      set (m3 := mask_assign c (mask_assign s (mask_assign basic m (2 ^ 1)) _) _)
  end.
  assert (H3 : mask_test m3 (2 ^ 1) = basic) by (subst m3; flag_reads; reflexivity).
  rewrite H3.
  destruct basic.
  - rewrite whiteness_p1_fresh.
    destruct (below (spec_whiteness meta px) (F64.lit 7 10)),
      (positive (hot_of px) || visible_saturated meta px),
      (swir1 px =? 0),
      (above (F32.div (F32.of_Z (nir px)) (F32.of_Z (swir1 px))) (F64.lit 3 4));
      repeat (cbn [andb orb negb]; flag_reads; rewrite ?H3); reflexivity.
  - destruct (swir1 px =? 0);
      repeat (cbn [andb orb negb]; flag_reads; rewrite ?H3); reflexivity.
Qed.

(** ** Facts about the sweeps *)

Section SweepFacts.
Local Open Scope nat_scope.
Context {Row St V : Type}.
(** What is observed of a state at a pixel index, and what every
    iteration keeps true of the state. *)
Variable get : St -> nat -> V.
Variable Inv : St -> Prop.

(** A column loop whose iteration [c] touches the observation at
    [base + c] only relates, cell by cell, the state it starts from to
    the state it ends in. *)
Lemma for_cols_sweep (base bound : nat) (body : nat -> St -> St)
      (R : nat -> V -> V -> Prop) :
  (forall c st, c < bound -> Inv st ->
     Inv (body c st)
     /\ R c (get st (base + c)) (get (body c st) (base + c))
     /\ (forall q, q <> base + c -> get (body c st) q = get st q)) ->
  forall n c0 st, c0 + n <= bound -> Inv st ->
    Inv (for_cols body n c0 st)
    /\ (forall c, c0 <= c < c0 + n ->
          R c (get st (base + c)) (get (for_cols body n c0 st) (base + c)))
    /\ (forall q, q < base + c0 \/ base + c0 + n <= q ->
          get (for_cols body n c0 st) q = get st q).
Proof.
  intros Hbody. induction n as [|n IH]; intros c0 st Hle Hinv; cbn [for_cols].
  - split; [assumption|]. split; [intros c Hc; lia | reflexivity].
  - destruct (Hbody c0 st) as (Hi & Hr & Hf); [lia | assumption |].
    destruct (IH (S c0) (body c0 st)) as (Hi' & Hr' & Hf'); [lia | assumption |].
    split; [assumption|]. split.
    + intros c Hc. destruct (Nat.eq_dec c c0) as [->|Hne].
      * rewrite Hf' by lia. assumption.
      * rewrite <- (Hf (base + c)) by lia. apply Hr'. lia.
    + intros q Hq. rewrite Hf' by lia. apply Hf. lia.
Qed.

(** The same for the row loop: a row that touches the observations of
    its own scan line only. *)
Lemma for_rows_sweep (ncols nrows : nat) (read : nat -> option Row)
      (row_body : Row -> nat -> St -> St)
      (R : Row -> nat -> nat -> V -> V -> Prop) :
  (forall line r st, r < nrows -> read r = Some line -> Inv st ->
     Inv (row_body line r st)
     /\ (forall c, c < ncols ->
           R line r c (get st (r * ncols + c))
             (get (row_body line r st) (r * ncols + c)))
     /\ (forall q, q < r * ncols \/ r * ncols + ncols <= q ->
           get (row_body line r st) q = get st q)) ->
  forall n r0 st st', r0 + n <= nrows -> Inv st ->
    for_rows read row_body n r0 st = Ok st' ->
    Inv st'
    /\ (forall r c, r0 <= r < r0 + n -> c < ncols ->
          exists line, read r = Some line
            /\ R line r c (get st (r * ncols + c)) (get st' (r * ncols + c)))
    /\ (forall q, q < r0 * ncols \/ (r0 + n) * ncols <= q ->
          get st' q = get st q).
Proof.
  intros Hbody. induction n as [|n IH]; intros r0 st st' Hle Hinv Hrun;
    cbn [for_rows] in Hrun.
  - injection Hrun as <-. split; [assumption|].
    split; [intros r c Hr; lia | reflexivity].
  - destruct (read r0) as [line|] eqn:Hread; [|discriminate].
    destruct (Hbody line r0 st) as (Hi & Hr & Hf); [lia | assumption..|].
    destruct (IH (S r0) (row_body line r0 st) st') as (Hi' & Hr' & Hf');
      [lia | assumption..|].
    split; [assumption|]. split.
    + intros r c Hrr Hc. destruct (Nat.eq_dec r r0) as [->|Hne].
      * exists line. split; [assumption|].
        rewrite Hf' by nia. apply Hr. assumption.
      * destruct (Hr' r c) as (line' & Hline' & HR); [lia | assumption |].
        exists line'. split; [assumption|].
        rewrite <- (Hf (r * ncols + c)) by nia. assumption.
    + intros q Hq. rewrite Hf' by nia. apply Hf. nia.
Qed.

(** The shape all six passes share: a column loop in a row loop, the
    iteration at [(r, c)] working on pixel index [r * ncols + c]. *)
Lemma sweep_pointwise (ncols nrows : nat) (read : nat -> option Row)
      (body : Row -> nat -> nat -> St -> St)
      (R : Row -> nat -> nat -> V -> V -> Prop) :
  (forall line r c st, r < nrows -> c < ncols -> read r = Some line ->
     Inv st ->
     Inv (body line (r * ncols + c) c st)
     /\ R line r c (get st (r * ncols + c))
          (get (body line (r * ncols + c) c st) (r * ncols + c))
     /\ (forall q, q <> r * ncols + c ->
           get (body line (r * ncols + c) c st) q = get st q)) ->
  forall st st', Inv st ->
    for_rows read
      (fun line r => for_cols (fun c => body line (r * ncols + c) c) ncols 0)
      nrows 0 st = Ok st' ->
    Inv st'
    /\ (forall r c, r < nrows -> c < ncols ->
          exists line, read r = Some line
            /\ R line r c (get st (r * ncols + c)) (get st' (r * ncols + c))).
Proof.
  intros Hbody st st' Hinv Hrun.
  destruct (for_rows_sweep ncols nrows read
              (fun line r => for_cols (fun c => body line (r * ncols + c) c) ncols 0)
              R) with (n := nrows) (r0 := 0) (st := st) (st' := st')
    as (Hi & Hr & _); [|lia|assumption..|].
  - intros line r s Hr Hread Hs.
    destruct (for_cols_sweep (r * ncols) ncols
                (fun c => body line (r * ncols + c) c) (R line r))
      with (n := ncols) (c0 := 0) (st := s) as (Hi & Hc & Hf);
      [|lia|assumption|].
    + intros c s' Hc Hs'. apply Hbody; assumption.
    + split; [assumption|]. split.
      * intros c Hlt. apply Hc. lia.
      * intros q Hq. apply Hf. lia.
  - split; [assumption|]. intros r c Hr' Hc. apply Hr; [lia|assumption].
Qed.

(** A sweep that runs to its end from one state does so from any other:
    only the reads can stop it. *)
Lemma for_rows_total (read : nat -> option Row)
      (row_body : Row -> nat -> St -> St) (n r0 : nat) (st st' : St) :
  for_rows read row_body n r0 st = Ok st' ->
  forall st2, exists st2', for_rows read row_body n r0 st2 = Ok st2'.
Proof.
  revert r0 st. induction n as [|n IH]; intros r0 st Hrun st2;
    cbn [for_rows] in *.
  - eexists. reflexivity.
  - destruct (read r0) as [line|]; [|discriminate].
    apply (IH _ _ Hrun).
Qed.
End SweepFacts.

(** Every pixel index of an [nrows * ncols] image is [r * ncols + c] for
    a row and a column of the image. *)
Lemma pixel_index_split (nrows ncols p : nat) :
  (p < nrows * ncols)%nat ->
  exists r c, (r < nrows)%nat /\ (c < ncols)%nat /\ p = (r * ncols + c)%nat.
Proof.
  intros Hp. assert (ncols <> 0)%nat by nia.
  exists (p / ncols)%nat, (p mod ncols)%nat. split; [|split].
  - apply Nat.Div0.div_lt_upper_bound. nia.
  - apply Nat.mod_upper_bound. assumption.
  - rewrite (Nat.div_mod_eq p ncols) at 1. nia.
Qed.

(** ** The passes, cell by cell *)

Lemma first_pass_pointwise (env : env_t) (nrows ncols : nat) (st st' : p1_state) :
  length (p1_pixel_mask st) = (nrows * ncols)%nat ->
  first_pass env nrows ncols st = Ok st' ->
  length (p1_pixel_mask st') = (nrows * ncols)%nat
  /\ forall r c, (r < nrows)%nat -> (c < ncols)%nat ->
       exists line, read_row env P1 r = Some line
         /\ first_pass_cell (meta env) line c
              (p1_pixel_mask st !!! (r * ncols + c)%nat)
              (p1_pixel_mask st' !!! (r * ncols + c)%nat).
Proof.
  intros Hlen Hrun. unfold first_pass in Hrun.
  apply (sweep_pointwise (fun s i => p1_pixel_mask s !!! i)
           (fun s => length (p1_pixel_mask s) = (nrows * ncols)%nat)
           ncols nrows (read_row env P1) (first_pass_body (meta env))
           (fun line r c => first_pass_cell (meta env) line c)) in Hrun;
    [assumption | | assumption].
  clear. intros line r c st Hr Hc _ Hlen.
  assert (Hi : (r * ncols + c < length (p1_pixel_mask st))%nat) by nia.
  unfold first_pass_body, first_pass_cell.
  destruct (is_fill (saturate_all (meta env) (raw_pixel line c))).
  - cbn. rewrite length_insert, list_lookup_total_insert_eq by assumption.
    split; [assumption|]. split; [reflexivity|].
    intros q Hq. apply list_lookup_total_insert_ne. congruence.
  - destruct (first_pass_pixel (meta env) (saturate_all (meta env) (raw_pixel line c))
                (p1_whiteness st) (p1_pixel_mask st !!! (r * ncols + c)%nat))
      as [cell w] eqn:Hpx.
    assert (Hcell : exists w0, cell = fst (first_pass_pixel (meta env)
                      (saturate_all (meta env) (raw_pixel line c)) w0
                      (p1_pixel_mask st !!! (r * ncols + c)%nat)))
      by (exists (p1_whiteness st); rewrite Hpx; reflexivity).
    destruct (mask_test cell CF_CLOUD_BIT); [|destruct (mask_test cell CF_WATER_BIT)];
      cbn; rewrite length_insert, list_lookup_total_insert_eq by assumption;
      (split; [assumption|]); (split; [assumption|]);
      intros q Hq; apply list_lookup_total_insert_ne; congruence.
Qed.

Lemma all_cloud_pointwise (n : nat) (pm : list Z) :
  length pm = n ->
  length (all_cloud n pm) = n
  /\ forall p, (p < n)%nat -> all_cloud n pm !!! p = all_cloud_pixel (pm !!! p).
Proof.
  intros Hlen. unfold all_cloud.
  destruct (for_cols_sweep (fun (l : list Z) i => l !!! i)
              (fun l => length l = n) 0 n
              (fun pixel_index l =>
                 <[pixel_index := all_cloud_pixel (l !!! pixel_index)]> l)
              (fun _ v v' => v' = all_cloud_pixel v))
    with (n := n) (c0 := 0%nat) (st := pm) as (Hl & Hr & _);
    [|lia|assumption|].
  - intros c l Hc Hl. rewrite length_insert. split; [assumption|].
    cbn [Nat.add]. split.
    + apply list_lookup_total_insert_eq. lia.
    + intros q Hq. apply list_lookup_total_insert_ne. congruence.
  - split; [assumption|]. intros p Hp. apply (Hr p). lia.
Qed.

Lemma fourth_pass_pointwise (env : env_t) (nrows ncols : nat)
      (fp wfp : list F32.t) (clr_mask wclr_mask tl : F32.t) (st st' : masks) :
  length (pixel_mask st) = (nrows * ncols)%nat ->
  length (conf_mask st) = (nrows * ncols)%nat ->
  fourth_pass env nrows ncols fp wfp clr_mask wclr_mask tl st = Ok st' ->
  (length (pixel_mask st') = (nrows * ncols)%nat
   /\ length (conf_mask st') = (nrows * ncols)%nat)
  /\ forall r c, (r < nrows)%nat -> (c < ncols)%nat ->
       exists line, read_therm_row env P4 r = Some line
         /\ cells st' (r * ncols + c)
            = fourth_pass_cell (meta env) fp wfp clr_mask wclr_mask tl line
                (r * ncols + c) c (cells st (r * ncols + c)).
Proof.
  intros Hpm Hcm Hrun. unfold fourth_pass in Hrun.
  apply (sweep_pointwise cells
           (fun s => length (pixel_mask s) = (nrows * ncols)%nat
                     /\ length (conf_mask s) = (nrows * ncols)%nat)
           ncols nrows (read_therm_row env P4)
           (fourth_pass_body (meta env) fp wfp clr_mask wclr_mask tl)
           (fun line r c v v' =>
              v' = fourth_pass_cell (meta env) fp wfp clr_mask wclr_mask tl line
                     (r * ncols + c) c v)) in Hrun;
    [assumption | | split; assumption].
  clear. intros line r c st Hr Hc _ [Hpm Hcm].
  assert (Hi : (r * ncols + c < length (pixel_mask st))%nat) by nia.
  assert (Hj : (r * ncols + c < length (conf_mask st))%nat) by nia.
  unfold fourth_pass_body, fourth_pass_cell, cells. cbn [fst snd].
  destruct (mask_test (pixel_mask st !!! (r * ncols + c)%nat) CF_FILL_BIT).
  - split; [split; assumption|]. split; reflexivity.
  - destruct (fourth_pass_pixel _ _ _ _ _ _ _) as [cf m]. cbn.
    rewrite !length_insert, !list_lookup_total_insert_eq by assumption.
    split; [split; assumption|]. split; [reflexivity|].
    intros q Hq. rewrite !list_lookup_total_insert_ne by congruence. reflexivity.
Qed.

Lemma sixth_pass_pointwise (env : env_t) (nrows ncols : nat)
      (filled_nir_data filled_swir1_data : list Z) (st st' : masks) :
  length (pixel_mask st) = (nrows * ncols)%nat ->
  length (conf_mask st) = (nrows * ncols)%nat ->
  sixth_pass env nrows ncols filled_nir_data filled_swir1_data st = Ok st' ->
  (length (pixel_mask st') = (nrows * ncols)%nat
   /\ length (conf_mask st') = (nrows * ncols)%nat)
  /\ forall r c, (r < nrows)%nat -> (c < ncols)%nat ->
       exists line, read_row env P6 r = Some line
         /\ cells st' (r * ncols + c)
            = sixth_pass_cell (meta env) filled_nir_data filled_swir1_data line
                (r * ncols + c) c (cells st (r * ncols + c)).
Proof.
  intros Hpm Hcm Hrun. unfold sixth_pass in Hrun.
  apply (sweep_pointwise cells
           (fun s => length (pixel_mask s) = (nrows * ncols)%nat
                     /\ length (conf_mask s) = (nrows * ncols)%nat)
           ncols nrows (read_row env P6)
           (sixth_pass_body (meta env) filled_nir_data filled_swir1_data)
           (fun line r c v v' =>
              v' = sixth_pass_cell (meta env) filled_nir_data filled_swir1_data
                     line (r * ncols + c) c v)) in Hrun;
    [assumption | | split; assumption].
  clear. intros line r c st Hr Hc _ [Hpm Hcm].
  assert (Hi : (r * ncols + c < length (pixel_mask st))%nat) by nia.
  assert (Hj : (r * ncols + c < length (conf_mask st))%nat) by nia.
  unfold sixth_pass_body, sixth_pass_cell, cells. cbn [fst snd].
  destruct (mask_test (pixel_mask st !!! (r * ncols + c)%nat) CF_FILL_BIT); cbn.
  - rewrite length_insert, list_lookup_total_insert_eq by assumption.
    split; [split; assumption|]. split; [reflexivity|].
    intros q Hq. rewrite list_lookup_total_insert_ne by congruence. reflexivity.
  - rewrite length_insert, list_lookup_total_insert_eq by assumption.
    split; [split; assumption|]. split; [reflexivity|].
    intros q Hq. rewrite list_lookup_total_insert_ne by congruence. reflexivity.
Qed.

(** ** The stages of a run that returns SUCCESS *)

Ltac stage_inv H :=
  repeat match type of H with
    | status (RETURN_ERROR _ _) = SUCCESS => discriminate H
    | context [if negb ?b then _ else _] => destruct (negb b) eqn:?
    | context [match ?x with Ok _ => _ | Fail _ => _ end] => destruct x eqn:?
    | context [match ?x with Some _ => _ | None => _ end] => destruct x eqn:?
    end.

Lemma sixth_stage_success (env : env_t) (nrows ncols : nat) (l : list buffer)
      (fn fs : list Z) (o : io_t) :
  status (sixth_stage env nrows ncols l fn fs o) = SUCCESS ->
  exists m, sixth_pass env nrows ncols fn fs (io_masks o) = Ok m
    /\ io (sixth_stage env nrows ncols l fn fs o) = set_masks o m.
Proof.
  unfold sixth_stage. intros H.
  destruct (sixth_pass env nrows ncols fn fs (io_masks o)) as [m|m];
    [|discriminate H].
  exists m. split; reflexivity.
Qed.

Lemma fifth_stage_success (env : env_t) (nrows ncols : nat) (l : list buffer)
      (clear_mask : list Z) (land_bit : Z) (o : io_t) :
  status (fifth_stage env nrows ncols l clear_mask land_bit o) = SUCCESS ->
  exists fn fs m, sixth_pass env nrows ncols fn fs (io_masks o) = Ok m
    /\ io (fifth_stage env nrows ncols l clear_mask land_bit o) = set_masks o m.
Proof.
  unfold fifth_stage. intros H. stage_inv H.
  apply sixth_stage_success in H. destruct H as (m & Hm & Hio).
  eauto.
Qed.

Lemma fourth_stage_success (env : env_t) (nrows ncols : nat) (thr : F32.t)
      (l : list buffer) (clear_mask : list Z) (land_bit water_bit : Z)
      (s3 : p3_state) (o : io_t) :
  status (fourth_stage env nrows ncols thr l clear_mask land_bit water_bit s3 o)
  = SUCCESS ->
  exists clr wclr m4 fn fs m6,
    fourth_pass env nrows ncols (final_prob s3) (wfinal_prob s3) clr wclr
                (t_templ o) (io_masks o) = Ok m4
    /\ sixth_pass env nrows ncols fn fs m4 = Ok m6
    /\ io (fourth_stage env nrows ncols thr l clear_mask land_bit water_bit s3 o)
       = set_masks o m6.
Proof.
  unfold fourth_stage. intros H. stage_inv H.
  apply fifth_stage_success in H. destruct H as (fn & fs & m6 & Hm & Hio).
  cbn [set_masks io_masks] in Hm. rewrite Hio. eauto 10.
Qed.

Lemma third_stage_success (env : env_t) (nrows ncols : nat) (thr : F32.t)
      (l : list buffer) (clear_mask : list Z) (land_bit water_bit : Z)
      (temp_l t_wtemp : F32.t) (o : io_t) :
  status (third_stage env nrows ncols thr l clear_mask land_bit water_bit
                      temp_l t_wtemp o) = SUCCESS ->
  exists fp wfp clr wclr m4 fn fs m6,
    fourth_pass env nrows ncols fp wfp clr wclr (t_templ o) (io_masks o) = Ok m4
    /\ sixth_pass env nrows ncols fn fs m4 = Ok m6
    /\ io (third_stage env nrows ncols thr l clear_mask land_bit water_bit
                       temp_l t_wtemp o) = set_masks o m6.
Proof.
  unfold third_stage. intros H. stage_inv H.
  apply fourth_stage_success in H.
  destruct H as (clr & wclr & m4 & fn & fs & m6 & H4 & H6 & Hio).
  eauto 12.
Qed.

Lemma second_stage_success (env : env_t) (nrows ncols : nat) (thr : F32.t)
      (l : list buffer) (clear_mask : list Z) (land_ptm water_ptm : F32.t)
      (o : io_t) :
  status (second_stage env nrows ncols thr l clear_mask land_ptm water_ptm o)
  = SUCCESS ->
  exists tl0 th0 fp wfp clr wclr m4 fn fs m6,
    land_percentiles env nrows ncols clear_mask land_ptm water_ptm tl0 th0
    /\ fourth_pass env nrows ncols fp wfp clr wclr
                   (F32.sub tl0 (F32.of_Z t_buffer)) (io_masks o) = Ok m4
    /\ sixth_pass env nrows ncols fn fs m4 = Ok m6
    /\ io (second_stage env nrows ncols thr l clear_mask land_ptm water_ptm o)
       = set_masks (set_temps o (F32.sub tl0 (F32.of_Z t_buffer))
                              (F32.add th0 (F32.of_Z t_buffer))) m6.
Proof.
  unfold second_stage. intros H. stage_inv H.
  apply third_stage_success in H.
  destruct H as (fp & wfp & clr & wclr & m4 & fn & fs & m6 & H4 & H6 & Hio).
  unfold set_temps, set_masks in *. cbn [io_masks clear_ptm t_templ t_temph] in *.
  match goal with
  | H1 : prctile _ (f_temp _) _ _ _ (pct l_pt) = Some ?a,
    H2 : prctile _ (f_temp _) _ _ _ (pct h_pt) = Some ?b |- _ =>
      exists a, b, fp, wfp, clr, wclr, m4, fn, fs, m6
  end.
  split; [|split; [assumption|split; assumption]].
  unfold land_percentiles. eexists. split; [eassumption|].
  cbn zeta. split; assumption.
Qed.

(** A run that returns SUCCESS went through pass 1 and then either
    through the all-cloud shortcut or through passes 2 to 6; of the
    latter, passes 4 and 6 are the ones that write the caller's masks. *)
Lemma run_success (env : env_t) (nrows ncols : nat) (thr : F32.t) (o : io_t) :
  let out := potential_cloud_shadow_snow_mask env nrows ncols thr o in
  status out = SUCCESS ->
  exists s1,
    first_pass env nrows ncols
               (p1_init (nrows * ncols) (pixel_mask (io_masks o))) = Ok s1
    /\ clear_ptm (io out)
       = percent_of (clear_pixel_counter s1) (image_data_counter s1)
    /\ if all_cloud_test (clear_ptm (io out)) then
         io_masks (io out)
         = {| pixel_mask := all_cloud (nrows * ncols) (p1_pixel_mask s1);
              conf_mask := conf_mask (io_masks o) |}
         /\ t_templ (io out) = minus_one /\ t_temph (io out) = minus_one
       else
         exists tl0 th0 fp wfp clr wclr m4 fn fs,
           land_percentiles env nrows ncols (p1_clear_mask s1)
             (percent_of (clear_land_pixel_counter s1) (image_data_counter s1))
             (percent_of (clear_water_pixel_counter s1) (image_data_counter s1))
             tl0 th0
           /\ t_templ (io out) = F32.sub tl0 (F32.of_Z t_buffer)
           /\ t_temph (io out) = F32.add th0 (F32.of_Z t_buffer)
           /\ fourth_pass env nrows ncols fp wfp clr wclr (t_templ (io out))
                {| pixel_mask := p1_pixel_mask s1;
                   conf_mask := conf_mask (io_masks o) |} = Ok m4
           /\ sixth_pass env nrows ncols fn fs m4 = Ok (io_masks (io out)).
Proof.
  cbn zeta. unfold potential_cloud_shadow_snow_mask.
  destruct (negb (alloc_ok env B_clear_mask)); [discriminate|].
  destruct (first_pass env nrows ncols
              (p1_init (nrows * ncols) (pixel_mask (io_masks o)))) as [s1|s1];
    [|discriminate].
  cbn [set_clear_ptm set_masks clear_ptm io_masks].
  destruct (all_cloud_test (percent_of (clear_pixel_counter s1)
                                       (image_data_counter s1))) eqn:Htest.
  - intros _. exists s1. cbn. rewrite Htest. repeat split; reflexivity.
  - intros H. exists s1. split; [reflexivity|].
    apply second_stage_success in H.
    destruct H as (tl0 & th0 & fp & wfp & clr & wclr & m4 & fn & fs & m6
                   & Hland & H4 & H6 & Hio).
    rewrite Hio. cbn. rewrite Htest. split; [reflexivity|].
    exists tl0, th0, fp, wfp, clr, wclr, m4, fn, fs.
    cbn in H4. repeat split; assumption.
Qed.

(** ** Pass 1: the cloud chain *)

(** C1. After pass 1, the CLOUD bit of every non-fill pixel is set exactly
    when the four chained tests all pass: the basic test (NDSI and NDVI
    below 0.8, SWIR2 above 300, thermal below 2700), the whiteness test
    (below 0.7), the haze test ([hot] positive or a saturated visible
    band) and the band-ratio test (SWIR1 not 0 and NIR/SWIR1 above 0.75);
    NDVI and NDSI are 0.01 on a zero denominator, whiteness is 100 on a
    zero visible mean and 0 under saturation, and the float comparisons
    carry the MINSIGMA epsilon. A failing test leaves CLOUD cleared. *)
Theorem first_pass_cloud_chain (env : env_t) (nrows ncols : nat)
        (st st' : p1_state) (r c : nat) :
  length (p1_pixel_mask st) = (nrows * ncols)%nat ->
  first_pass env nrows ncols st = Ok st' ->
  (r < nrows)%nat -> (c < ncols)%nat ->
  exists line,
    read_row env P1 r = Some line
    /\ let px := saturate_all (meta env) (raw_pixel line c) in
       is_fill px = false ->
       mask_test (p1_pixel_mask st' !!! (r * ncols + c)%nat) CF_CLOUD_BIT
       = spec_cloud_chain (meta env) px.
Proof.
  intros Hlen Hrun Hr Hc.
  destruct (first_pass_pointwise env nrows ncols st st' Hlen Hrun) as [_ Hcell].
  destruct (Hcell r c Hr Hc) as (line & Hread & Hrel).
  exists line. split; [assumption|]. cbn zeta. intros Hfill.
  unfold first_pass_cell in Hrel. rewrite Hfill in Hrel.
  destruct Hrel as [w ->]. apply first_pass_pixel_cloud.
Qed.

Lemma first_pass_cloud_chain_witness :
  exists line,
    read_row (demo_env [cloud_px; veg_px] 2) P1 0 = Some line
    /\ let px := saturate_all demo_meta (raw_pixel line 0) in
       is_fill px = false ->
       mask_test (p1_pixel_mask (demo_first_pass [cloud_px; veg_px]) !!! 0%nat)
                 CF_CLOUD_BIT
       = spec_cloud_chain demo_meta px.
Proof.
  apply (first_pass_cloud_chain (demo_env [cloud_px; veg_px] 2) 1 2
           (p1_init 2 [0; 0]) (demo_first_pass [cloud_px; veg_px]) 0 0).
  - reflexivity.
  - vm_compute. reflexivity.
  - lia.
  - lia.
Defined.

(** ** Pass 4: the confidence decision *)

Lemma high_test_spec (m : Z) (fp wfp clr wclr tl : F32.t) (th : Z) :
  high_test m fp wfp clr wclr tl th = spec_high m fp wfp clr wclr tl th.
Proof.
  unfold high_test, spec_high. change t_buffer with 400.
  destruct (mask_test m CF_CLOUD_BIT), (mask_test m CF_WATER_BIT),
    (F32.ltb clr fp), (F32.ltb wclr wfp); reflexivity.
Qed.

Lemma med_test_spec (m : Z) (fp wfp clr wclr : F32.t) :
  med_test m fp wfp clr wclr = spec_med m fp wfp clr wclr.
Proof.
  unfold med_test, spec_med.
  destruct (mask_test m CF_CLOUD_BIT), (mask_test m CF_WATER_BIT),
    (exceeds_less_10 fp clr), (exceeds_less_10 wfp wclr); reflexivity.
Qed.

(** The decision on one pixel: the confidence of the first matching case,
    CLOUD set on HIGH and cleared otherwise, the other flags untouched. *)
Lemma fourth_pass_pixel_spec (m : Z) (fp wfp clr wclr tl : F32.t) (th : Z) :
  let high := spec_high m fp wfp clr wclr tl th in
  let med := spec_med m fp wfp clr wclr in
  fst (fourth_pass_pixel m fp wfp clr wclr tl th) = spec_confidence high med
  /\ mask_test (snd (fourth_pass_pixel m fp wfp clr wclr tl th)) CF_CLOUD_BIT
     = high
  /\ forall j, 0 <= j < 8 -> j <> 1 ->
       mask_test (snd (fourth_pass_pixel m fp wfp clr wclr tl th)) (2 ^ j)
       = mask_test m (2 ^ j).
Proof.
  cbn zeta. unfold fourth_pass_pixel, spec_confidence.
  rewrite high_test_spec, med_test_spec. flags_as_powers.
  destruct (spec_high m fp wfp clr wclr tl th);
    [|destruct (spec_med m fp wfp clr wclr)]; cbn [fst snd];
    (split; [reflexivity|]); (split; [flag_reads; reflexivity|]);
    intros j Hj Hne; flag_reads;
    destruct (Z.eqb_spec j 1); (lia || reflexivity).
Qed.

(** C2. Pass 4 gives every non-fill pixel (thermal sample after the
    saturation substitution) the confidence of the first case that
    matches, top-down: HIGH, with CLOUD set, exactly when CLOUD and not
    WATER and [final_prob > clr_mask], or CLOUD and WATER and
    [wfinal_prob > wclr_mask], or [thermal < t_templ + 400 - 3500];
    otherwise MED, with CLOUD cleared, when the same holds with the
    thresholds lowered by 10; otherwise LOW, with CLOUD cleared. Hence
    after pass 4 HIGH implies CLOUD set, and MED or LOW imply CLOUD
    cleared. *)
Theorem fourth_pass_confidence (env : env_t) (nrows ncols : nat)
        (fp wfp : list F32.t) (clr_mask wclr_mask tl : F32.t)
        (st st' : masks) (r c : nat) :
  length (pixel_mask st) = (nrows * ncols)%nat ->
  length (conf_mask st) = (nrows * ncols)%nat ->
  fourth_pass env nrows ncols fp wfp clr_mask wclr_mask tl st = Ok st' ->
  (r < nrows)%nat -> (c < ncols)%nat ->
  let i := (r * ncols + c)%nat in
  mask_test (pixel_mask st !!! i) CF_FILL_BIT = false ->
  exists line,
    read_therm_row env P4 r = Some line
    /\ let th := saturate (therm_satu_value_ref (meta env))
                          (therm_satu_value_max (meta env)) (therm_at line c) in
       let m := pixel_mask st !!! i in
       let high := spec_high m (fp !!! i) (wfp !!! i) clr_mask wclr_mask tl th in
       let med := spec_med m (fp !!! i) (wfp !!! i) clr_mask wclr_mask in
       conf_mask st' !!! i = spec_confidence high med
       /\ mask_test (pixel_mask st' !!! i) CF_CLOUD_BIT = high
       /\ (conf_mask st' !!! i = CLOUD_CONFIDENCE_HIGH ->
           mask_test (pixel_mask st' !!! i) CF_CLOUD_BIT = true)
       /\ (conf_mask st' !!! i = CLOUD_CONFIDENCE_MED
           \/ conf_mask st' !!! i = CLOUD_CONFIDENCE_LOW ->
           mask_test (pixel_mask st' !!! i) CF_CLOUD_BIT = false).
Proof.
  intros Hpm Hcm Hrun Hr Hc i Hfill.
  destruct (fourth_pass_pointwise env nrows ncols fp wfp clr_mask wclr_mask tl
              st st' Hpm Hcm Hrun) as [_ Hcell].
  destruct (Hcell r c Hr Hc) as (line & Hread & Heq).
  exists line. split; [assumption|]. cbn zeta.
  unfold fourth_pass_cell, cells in Heq. cbn [fst snd] in Heq.
  fold i in Heq. rewrite Hfill in Heq.
  pose proof (fourth_pass_pixel_spec (pixel_mask st !!! i) (fp !!! i) (wfp !!! i)
                clr_mask wclr_mask tl
                (saturate (therm_satu_value_ref (meta env))
                   (therm_satu_value_max (meta env)) (therm_at line c)))
    as (Hconf & Hcloud & _).
  destruct (fourth_pass_pixel _ _ _ _ _ _ _) as [cf m'].
  injection Heq as Hm Hcf. cbn [fst snd] in Hconf, Hcloud.
  rewrite Hm, Hcf, Hcloud, Hconf. clear.
  split; [reflexivity|]. split; [reflexivity|].
  match goal with
  | |- context [spec_confidence ?h ?d] => destruct h, d
  end; unfold spec_confidence;
    (split; [intros H | intros [H|H]]); (reflexivity || discriminate H).
Qed.

Lemma fourth_pass_confidence_witness :
  exists line,
    read_therm_row (demo_env [cloud_px; veg_px] 2) P4 0 = Some line
    /\ let th := saturate (therm_satu_value_ref demo_meta)
                          (therm_satu_value_max demo_meta) (therm_at line 0) in
       let m := pixel_mask demo_p4_in !!! 0%nat in
       let high := spec_high m (demo_final_prob !!! 0%nat)
                             (demo_wfinal_prob !!! 0%nat) demo_threshold
                             demo_threshold (F32.of_Z 500) th in
       let med := spec_med m (demo_final_prob !!! 0%nat)
                           (demo_wfinal_prob !!! 0%nat) demo_threshold
                           demo_threshold in
       conf_mask demo_p4_out !!! 0%nat = spec_confidence high med
       /\ mask_test (pixel_mask demo_p4_out !!! 0%nat) CF_CLOUD_BIT = high
       /\ (conf_mask demo_p4_out !!! 0%nat = CLOUD_CONFIDENCE_HIGH ->
           mask_test (pixel_mask demo_p4_out !!! 0%nat) CF_CLOUD_BIT = true)
       /\ (conf_mask demo_p4_out !!! 0%nat = CLOUD_CONFIDENCE_MED
           \/ conf_mask demo_p4_out !!! 0%nat = CLOUD_CONFIDENCE_LOW ->
           mask_test (pixel_mask demo_p4_out !!! 0%nat) CF_CLOUD_BIT = false).
Proof.
  apply (fourth_pass_confidence (demo_env [cloud_px; veg_px] 2) 1 2
           demo_final_prob demo_wfinal_prob demo_threshold demo_threshold
           (F32.of_Z 500) demo_p4_in demo_p4_out 0 0).
  - reflexivity.
  - reflexivity.
  - vm_compute. reflexivity.
  - lia.
  - lia.
  - vm_compute. reflexivity.
Defined.

(** ** Which flags each step leaves alone *)

Lemma first_pass_pixel_frame (meta : meta_t) (px : pixel) (w : F32.t) (m j : Z) :
  0 <= j < 8 -> j <> 1 -> j <> 3 -> j <> 4 ->
  mask_test (fst (first_pass_pixel meta px w m)) (2 ^ j) = mask_test m (2 ^ j).
Proof.
  intros Hj H1 H3 H4. unfold first_pass_pixel. cbn [fst]. flags_as_powers.
  assert (E1 : (j =? 1) = false) by (apply Z.eqb_neq; assumption).
  assert (E3 : (j =? 3) = false) by (apply Z.eqb_neq; assumption).
  assert (E4 : (j =? 4) = false) by (apply Z.eqb_neq; assumption).
  match goal with
  | |- context [if ?b then mask_assign ?c ?x ?k else mask_andnot ?x ?k] =>
      destruct b
  end; flag_reads; rewrite ?E1, ?E3, ?E4; reflexivity.
Qed.

Lemma all_cloud_pixel_frame (m j : Z) :
  0 <= j < 8 -> j <> 2 ->
  mask_test (all_cloud_pixel m) (2 ^ j) = mask_test m (2 ^ j).
Proof.
  intros Hj H2. unfold all_cloud_pixel. flags_as_powers.
  assert (E2 : (j =? 2) = false) by (apply Z.eqb_neq; assumption).
  destruct (negb (mask_test m (2 ^ 1))); flag_reads; rewrite E2; reflexivity.
Qed.

Lemma all_cloud_pixel_shadow (m : Z) :
  mask_test (all_cloud_pixel m) CF_SHADOW_BIT = negb (mask_test m CF_CLOUD_BIT).
Proof.
  unfold all_cloud_pixel. flags_as_powers.
  destruct (mask_test m (2 ^ 1)); cbn [negb]; flag_reads; reflexivity.
Qed.

Lemma sixth_pass_pixel_frame (m fn fs n s j : Z) :
  0 <= j < 8 -> j <> 2 -> j <> 4 ->
  mask_test (sixth_pass_pixel m fn fs n s) (2 ^ j) = mask_test m (2 ^ j).
Proof.
  intros Hj H2 H4. unfold sixth_pass_pixel. cbn zeta. flags_as_powers.
  assert (E2 : (j =? 2) = false) by (apply Z.eqb_neq; assumption).
  assert (E4 : (j =? 4) = false) by (apply Z.eqb_neq; assumption).
  match goal with
  | |- context [if ?b then mask_andnot _ _ else _] => destruct b
  end; flag_reads; rewrite ?E2, ?E4; reflexivity.
Qed.

(** After the statements of pass 6, WATER is what it was unless CLOUD is
    set, in which case it is cleared. *)
Lemma sixth_pass_pixel_water (m fn fs n s : Z) :
  mask_test (sixth_pass_pixel m fn fs n s) CF_WATER_BIT
  = mask_test m CF_WATER_BIT && negb (mask_test m CF_CLOUD_BIT).
Proof.
  unfold sixth_pass_pixel. cbn zeta. flags_as_powers. flag_reads.
  destruct (mask_test m (2 ^ 4)) eqn:Ew, (mask_test m (2 ^ 1)) eqn:Ec;
    cbn [andb negb]; flag_reads; rewrite ?Ew, ?Ec; reflexivity.
Qed.

Lemma fourth_pass_cell_frame (me : meta_t) (fp wfp : list F32.t)
      (clr wclr tl : F32.t) (line : row_t) (i c : nat) (v : Z * Z) (j : Z) :
  0 <= j < 8 -> j <> 1 ->
  mask_test (fst (fourth_pass_cell me fp wfp clr wclr tl line i c v)) (2 ^ j)
  = mask_test (fst v) (2 ^ j).
Proof.
  intros Hj H1. unfold fourth_pass_cell.
  destruct (mask_test (fst v) CF_FILL_BIT); [reflexivity|].
  pose proof (fourth_pass_pixel_spec (fst v) (fp !!! i) (wfp !!! i) clr wclr tl
                (saturate (therm_satu_value_ref me) (therm_satu_value_max me)
                          (therm_at line c))) as (_ & _ & Hframe).
  destruct (fourth_pass_pixel _ _ _ _ _ _ _) as [cf m]. cbn [fst snd] in *.
  apply Hframe; assumption.
Qed.

Lemma sixth_pass_cell_frame (me : meta_t) (fn fs : list Z) (line : row_t)
      (i c : nat) (v : Z * Z) (j : Z) :
  0 <= j < 8 -> j <> 2 -> j <> 4 ->
  mask_test (fst (sixth_pass_cell me fn fs line i c v)) (2 ^ j)
  = mask_test (fst v) (2 ^ j).
Proof.
  intros Hj H2 H4. unfold sixth_pass_cell.
  destruct (mask_test (fst v) CF_FILL_BIT); cbn [fst]; [reflexivity|].
  apply sixth_pass_pixel_frame; assumption.
Qed.

(** ** The caller's masks along a run *)

(** On the full path the cells of every pixel go through pass 4 and then
    through pass 6, and through nothing else. *)
Lemma full_path_cells (env : env_t) (nrows ncols : nat) (fp wfp : list F32.t)
      (clr wclr tl : F32.t) (fn fs : list Z) (st m4 m6 : masks) (r c : nat) :
  length (pixel_mask st) = (nrows * ncols)%nat ->
  length (conf_mask st) = (nrows * ncols)%nat ->
  fourth_pass env nrows ncols fp wfp clr wclr tl st = Ok m4 ->
  sixth_pass env nrows ncols fn fs m4 = Ok m6 ->
  (r < nrows)%nat -> (c < ncols)%nat ->
  exists l4 l6,
    cells m6 (r * ncols + c)
    = sixth_pass_cell (meta env) fn fs l6 (r * ncols + c) c
        (fourth_pass_cell (meta env) fp wfp clr wclr tl l4 (r * ncols + c) c
           (cells st (r * ncols + c))).
Proof.
  intros Hpm Hcm H4 H6 Hr Hc.
  destruct (fourth_pass_pointwise _ _ _ _ _ _ _ _ _ _ Hpm Hcm H4)
    as [[Hpm4 Hcm4] Hcell4].
  destruct (sixth_pass_pointwise _ _ _ _ _ _ _ Hpm4 Hcm4 H6) as [_ Hcell6].
  destruct (Hcell4 r c Hr Hc) as (l4 & _ & E4).
  destruct (Hcell6 r c Hr Hc) as (l6 & _ & E6).
  exists l4, l6. rewrite E6, E4. reflexivity.
Qed.

Lemma fourth_pass_cell_fill (me : meta_t) (fp wfp : list F32.t)
      (clr wclr tl : F32.t) (line : row_t) (i c : nat) (v : Z * Z) :
  mask_test (fst v) CF_FILL_BIT = true ->
  fourth_pass_cell me fp wfp clr wclr tl line i c v = v.
Proof. intros H. unfold fourth_pass_cell. rewrite H. reflexivity. Qed.

Lemma sixth_pass_cell_fill (me : meta_t) (fn fs : list Z) (line : row_t)
      (i c : nat) (v : Z * Z) :
  mask_test (fst v) CF_FILL_BIT = true ->
  sixth_pass_cell me fn fs line i c v = (fst v, CF_FILL_PIXEL).
Proof. intros H. unfold sixth_pass_cell. rewrite H. reflexivity. Qed.

(** Pass 1 leaves a cell with the FILL flag set only on a fill pixel,
    where the cell is exactly [CF_FILL_BIT], provided the flag was not set
    in the mask handed in. *)
Lemma first_pass_cell_fill (m : meta_t) (line : row_t) (c : nat) (v v' : Z) :
  first_pass_cell m line c v v' ->
  mask_test v CF_FILL_BIT = false ->
  mask_test v' CF_FILL_BIT = true ->
  v' = CF_FILL_BIT.
Proof.
  unfold first_pass_cell.
  destruct (is_fill (saturate_all m (raw_pixel line c))); [tauto|].
  intros [w ->] Hv Hv'. flags_as_powers.
  rewrite first_pass_pixel_frame in Hv' by lia. congruence.
Qed.

(** C10. SNOW is written in pass 1 only: at a successful return, through
    the all-cloud shortcut or through passes 2 to 6, the SNOW bit of every
    pixel is the one pass 1 left. *)
Theorem snow_written_in_first_pass_only (env : env_t) (nrows ncols : nat)
        (thr : F32.t) (o : io_t) :
  length (pixel_mask (io_masks o)) = (nrows * ncols)%nat ->
  length (conf_mask (io_masks o)) = (nrows * ncols)%nat ->
  let out := potential_cloud_shadow_snow_mask env nrows ncols thr o in
  status out = SUCCESS ->
  exists s1,
    first_pass env nrows ncols
               (p1_init (nrows * ncols) (pixel_mask (io_masks o))) = Ok s1
    /\ forall p, (p < nrows * ncols)%nat ->
         mask_test (pixel_mask (io_masks (io out)) !!! p) CF_SNOW_BIT
         = mask_test (p1_pixel_mask s1 !!! p) CF_SNOW_BIT.
Proof.
  intros Hpm Hcm out Hok.
  destruct (run_success env nrows ncols thr o Hok) as (s1 & H1 & _ & Hcase).
  fold out in Hcase. exists s1. split; [assumption|].
  destruct (first_pass_pointwise env nrows ncols
                (p1_init (nrows * ncols) (pixel_mask (io_masks o))) s1 Hpm H1) as [Hlen1 _].
  intros p Hp. flags_as_powers.
  destruct (all_cloud_test (clear_ptm (io out))).
  - destruct Hcase as (-> & _). cbn [pixel_mask].
    destruct (all_cloud_pointwise _ _ Hlen1) as [_ Hcell].
    rewrite Hcell by assumption. apply all_cloud_pixel_frame; lia.
  - destruct Hcase as (tl0 & th0 & fp & wfp & clr & wclr & m4 & fn & fs
                       & _ & _ & _ & H4 & H6).
    destruct (pixel_index_split nrows ncols p Hp) as (r & c & Hr & Hc & ->).
    destruct (full_path_cells env nrows ncols fp wfp clr wclr _ fn fs
                {| pixel_mask := p1_pixel_mask s1;
                   conf_mask := conf_mask (io_masks o) |} m4 _ r c
                Hlen1 Hcm H4 H6 Hr Hc) as (l4 & l6 & E).
    change (pixel_mask (io_masks (io out)) !!! (r * ncols + c)%nat)
      with (fst (cells (io_masks (io out)) (r * ncols + c))).
    rewrite E, sixth_pass_cell_frame, fourth_pass_cell_frame by lia.
    reflexivity.
Qed.

Lemma snow_written_in_first_pass_only_witness :
  exists s1,
    first_pass (demo_env [wet_cloud_px; veg_px] 2) 1 2
               (p1_init 2 (pixel_mask (io_masks (demo_io 2)))) = Ok s1
    /\ forall p, (p < 1 * 2)%nat ->
         mask_test (pixel_mask (io_masks (io (demo_run [wet_cloud_px; veg_px])))
                    !!! p) CF_SNOW_BIT
         = mask_test (p1_pixel_mask s1 !!! p) CF_SNOW_BIT.
Proof.
  apply (snow_written_in_first_pass_only (demo_env [wet_cloud_px; veg_px] 2) 1 2
           demo_threshold (demo_io 2)).
  - reflexivity.
  - reflexivity.
  - vm_compute. reflexivity.
Defined.

(** C7. On the full six-pass path, with a [pixel_mask] that carries no
    FILL bit when it is handed in, no pixel has both WATER and CLOUD set
    after pass 6; a pixel that enters the statements of pass 6 with both
    set leaves them with WATER cleared and CLOUD still set. *)
Theorem water_cloud_exclusive (env : env_t) (nrows ncols : nat)
        (thr : F32.t) (o : io_t) :
  length (pixel_mask (io_masks o)) = (nrows * ncols)%nat ->
  length (conf_mask (io_masks o)) = (nrows * ncols)%nat ->
  (forall p, (p < nrows * ncols)%nat ->
     mask_test (pixel_mask (io_masks o) !!! p) CF_FILL_BIT = false) ->
  let out := potential_cloud_shadow_snow_mask env nrows ncols thr o in
  status out = SUCCESS ->
  all_cloud_test (clear_ptm (io out)) = false ->
  (forall p, (p < nrows * ncols)%nat ->
     mask_test (pixel_mask (io_masks (io out)) !!! p) CF_WATER_BIT
     && mask_test (pixel_mask (io_masks (io out)) !!! p) CF_CLOUD_BIT = false)
  /\ (forall m fn fs n s,
        mask_test m CF_WATER_BIT = true -> mask_test m CF_CLOUD_BIT = true ->
        mask_test (sixth_pass_pixel m fn fs n s) CF_WATER_BIT = false
        /\ mask_test (sixth_pass_pixel m fn fs n s) CF_CLOUD_BIT = true).
Proof.
  intros Hpm Hcm Hclean out Hok Hfull. split.
  - destruct (run_success env nrows ncols thr o Hok) as (s1 & H1 & _ & Hcase).
    fold out in Hcase. rewrite Hfull in Hcase.
    destruct Hcase as (tl0 & th0 & fp & wfp & clr & wclr & m4 & fn & fs
                       & _ & _ & _ & H4 & H6).
    destruct (first_pass_pointwise env nrows ncols
                (p1_init (nrows * ncols) (pixel_mask (io_masks o))) s1 Hpm H1) as [Hlen1 Hcell1].
    intros p Hp.
    destruct (pixel_index_split nrows ncols p Hp) as (r & c & Hr & Hc & ->).
    destruct (full_path_cells env nrows ncols fp wfp clr wclr _ fn fs
                {| pixel_mask := p1_pixel_mask s1;
                   conf_mask := conf_mask (io_masks o) |} m4 _ r c
                Hlen1 Hcm H4 H6 Hr Hc) as (l4 & l6 & E).
    destruct (Hcell1 r c Hr Hc) as (l1 & _ & Hrel). cbn [p1_init p1_pixel_mask] in Hrel.
    change (pixel_mask (io_masks (io out)) !!! (r * ncols + c)%nat)
      with (fst (cells (io_masks (io out)) (r * ncols + c))).
    rewrite E. clear E. unfold cells at 1. cbn [pixel_mask conf_mask].
    set (v1 := p1_pixel_mask s1 !!! (r * ncols + c)%nat) in *.
    destruct (mask_test v1 CF_FILL_BIT) eqn:Hfill.
    + rewrite fourth_pass_cell_fill, sixth_pass_cell_fill by assumption.
      cbn [fst].
      rewrite (first_pass_cell_fill _ _ _ _ _ Hrel (Hclean _ Hp) Hfill).
      reflexivity.
    + set (v4 := fourth_pass_cell _ _ _ _ _ _ _ _ _ _).
      assert (Hfill4 : mask_test (fst v4) CF_FILL_BIT = false).
      { subst v4. flags_as_powers. rewrite fourth_pass_cell_frame by lia.
        assumption. }
      unfold sixth_pass_cell. rewrite Hfill4. cbn [fst].
      rewrite sixth_pass_pixel_water. flags_as_powers.
      rewrite sixth_pass_pixel_frame by lia.
      destruct (mask_test (fst v4) (2 ^ 4)), (mask_test (fst v4) (2 ^ 1));
        reflexivity.
  - intros m fn fs n s Hw Hc. rewrite sixth_pass_pixel_water, Hw, Hc.
    split; [reflexivity|]. flags_as_powers.
    rewrite sixth_pass_pixel_frame by lia. assumption.
Qed.

Lemma water_cloud_exclusive_witness :
  (forall p, (p < 1 * 2)%nat ->
     mask_test (pixel_mask (io_masks (io (demo_run [wet_cloud_px; veg_px]))) !!! p)
               CF_WATER_BIT
     && mask_test (pixel_mask (io_masks (io (demo_run [wet_cloud_px; veg_px]))) !!! p)
                  CF_CLOUD_BIT = false)
  /\ (forall m fn fs n s,
        mask_test m CF_WATER_BIT = true -> mask_test m CF_CLOUD_BIT = true ->
        mask_test (sixth_pass_pixel m fn fs n s) CF_WATER_BIT = false
        /\ mask_test (sixth_pass_pixel m fn fs n s) CF_CLOUD_BIT = true).
Proof.
  apply (water_cloud_exclusive (demo_env [wet_cloud_px; veg_px] 2) 1 2
           demo_threshold (demo_io 2)).
  - reflexivity.
  - reflexivity.
  - intros p Hp. destruct p as [|[|p]]; [reflexivity | reflexivity | lia].
  - vm_compute. reflexivity.
  - vm_compute. reflexivity.
Defined.

(** ** Pass 6 applied twice *)

Lemma sixth_pass_pixel_bits (m fn fs n s k : Z) :
  0 <= k ->
  Z.testbit (sixth_pass_pixel m fn fs n s) k
  = (k <? 8)
    && (if k =? 2 then
          (if wrap16 (fn - n) <? wrap16 (fs - s)
           then wrap16 (fn - n) else wrap16 (fs - s)) >? 200
        else if k =? 4 then Z.testbit m 4 && negb (Z.testbit m 1)
        else Z.testbit m k).
Proof.
  intros Hk. unfold sixth_pass_pixel. cbn zeta.
  set (sh := (if wrap16 (fn - n) <? wrap16 (fs - s)
              then wrap16 (fn - n) else wrap16 (fs - s)) >? 200).
  flags_as_powers. flag_reads. rewrite !mask_test_testbit by lia.
  destruct (Z.testbit m 4) eqn:E4, (Z.testbit m 1) eqn:E1; cbn [andb negb];
    rewrite ?testbit_mask_andnot, ?testbit_mask_assign by lia;
    destruct (Z.ltb_spec k 8), (Z.eqb_spec k 2), (Z.eqb_spec k 4);
    subst; cbn [andb negb]; try lia; try reflexivity;
    rewrite ?E4, ?E1, ?andb_true_r; reflexivity.
Qed.

Lemma sixth_pass_pixel_idempotent (m fn fs n s : Z) :
  sixth_pass_pixel (sixth_pass_pixel m fn fs n s) fn fs n s
  = sixth_pass_pixel m fn fs n s.
Proof.
  apply Z.bits_inj'. intros k Hk.
  rewrite (sixth_pass_pixel_bits (sixth_pass_pixel m fn fs n s)) by assumption.
  rewrite !sixth_pass_pixel_bits by lia.
  change (4 <? 8) with true. change (1 <? 8) with true.
  change (4 =? 2) with false. change (1 =? 2) with false.
  change (4 =? 4) with true. change (1 =? 4) with false. cbn match.
  destruct (k <? 8), (k =? 2), (k =? 4), (Z.testbit m 4), (Z.testbit m 1);
    reflexivity.
Qed.

Lemma sixth_pass_cell_idempotent (me : meta_t) (fn fs : list Z) (line : row_t)
      (i c : nat) (v : Z * Z) :
  sixth_pass_cell me fn fs line i c (sixth_pass_cell me fn fs line i c v)
  = sixth_pass_cell me fn fs line i c v.
Proof.
  destruct (mask_test (fst v) CF_FILL_BIT) eqn:Hfill.
  - rewrite (sixth_pass_cell_fill me fn fs line i c v Hfill).
    rewrite (sixth_pass_cell_fill me fn fs line i c (fst v, CF_FILL_PIXEL) Hfill).
    reflexivity.
  - unfold sixth_pass_cell. rewrite Hfill. cbn [fst snd]. flags_as_powers.
    rewrite sixth_pass_pixel_frame, Hfill by lia.
    rewrite sixth_pass_pixel_idempotent. reflexivity.
Qed.

(** Two arrays of one length with the same cells are the same array. *)
Lemma list_total_ext {A : Type} `{!Inhabited A} (l1 l2 : list A) (n : nat) :
  length l1 = n -> length l2 = n ->
  (forall i, (i < n)%nat -> l1 !!! i = l2 !!! i) -> l1 = l2.
Proof.
  intros H1 H2 Hext. apply (list_eq_same_length l1 l2 n); [assumption..|].
  intros i x y Hi Hx Hy.
  apply list_lookup_total_correct in Hx, Hy. rewrite <- Hx, <- Hy.
  apply Hext. assumption.
Qed.

Lemma masks_ext (a b : masks) (n : nat) :
  length (pixel_mask a) = n -> length (conf_mask a) = n ->
  length (pixel_mask b) = n -> length (conf_mask b) = n ->
  (forall i, (i < n)%nat -> cells a i = cells b i) -> a = b.
Proof.
  destruct a as [pa ca], b as [pb cb]. cbn [pixel_mask conf_mask].
  intros Hpa Hca Hpb Hcb Hext.
  assert (pa = pb) as ->.
  { apply (list_total_ext pa pb n); [assumption..|].
    intros i Hi. specialize (Hext i Hi). unfold cells in Hext. cbn in Hext.
    congruence. }
  assert (ca = cb) as ->.
  { apply (list_total_ext ca cb n); [assumption..|].
    intros i Hi. specialize (Hext i Hi). unfold cells in Hext. cbn in Hext.
    congruence. }
  reflexivity.
Qed.

(** C8. Pass 6 is idempotent: run again on the masks it has produced, with
    the same filled rasters and the same band inputs, it runs to its end
    and returns the same [pixel_mask] and the same [conf_mask]. *)
Theorem sixth_pass_idempotent (env : env_t) (nrows ncols : nat)
        (filled_nir_data filled_swir1_data : list Z) (st st' : masks) :
  length (pixel_mask st) = (nrows * ncols)%nat ->
  length (conf_mask st) = (nrows * ncols)%nat ->
  sixth_pass env nrows ncols filled_nir_data filled_swir1_data st = Ok st' ->
  sixth_pass env nrows ncols filled_nir_data filled_swir1_data st' = Ok st'.
Proof.
  intros Hpm Hcm Hrun.
  destruct (sixth_pass_pointwise _ _ _ _ _ _ _ Hpm Hcm Hrun)
    as [[Hpm' Hcm'] Hcell].
  destruct (for_rows_total _ _ _ _ _ _ Hrun st') as [st2 Hrun2].
  fold (sixth_pass env nrows ncols filled_nir_data filled_swir1_data st') in Hrun2.
  destruct (sixth_pass_pointwise _ _ _ _ _ _ _ Hpm' Hcm' Hrun2)
    as [[Hpm2 Hcm2] Hcell2].
  rewrite Hrun2. f_equal.
  apply (masks_ext st2 st' (nrows * ncols)); [assumption..|].
  intros i Hi.
  destruct (pixel_index_split nrows ncols i Hi) as (r & c & Hr & Hc & ->).
  destruct (Hcell r c Hr Hc) as (line & Hread & E).
  destruct (Hcell2 r c Hr Hc) as (line2 & Hread2 & E2).
  assert (line2 = line) as -> by congruence.
  rewrite E2, E. apply sixth_pass_cell_idempotent.
Qed.

Lemma sixth_pass_idempotent_witness :
  sixth_pass (demo_env [wet_cloud_px; veg_px] 2) 1 2 demo_filled_nir
             demo_filled_swir1 demo_p6_out = Ok demo_p6_out.
Proof.
  apply (sixth_pass_idempotent (demo_env [wet_cloud_px; veg_px] 2) 1 2
           demo_filled_nir demo_filled_swir1 demo_p6_in demo_p6_out).
  - reflexivity.
  - reflexivity.
  - vm_compute. reflexivity.
Defined.

(** ** An image of fill pixels *)

(** The fill pixel passes the fill test of pass 1 unless the saturation
    substitution, which runs first, rewrites it; it cannot when the
    thermal sentinel is another value than [FILL_PIXEL]. *)
Lemma fill_px_is_fill (m : meta_t) :
  therm_satu_value_ref m <> FILL_PIXEL ->
  is_fill (saturate_all m fill_px) = true.
Proof.
  intros Hne.
  assert (E : therm (saturate_all m fill_px) = FILL_PIXEL).
  { unfold saturate_all, fill_px, saturate. cbn [therm].
    destruct (Z.eqb_spec FILL_PIXEL (therm_satu_value_ref m)); congruence. }
  unfold is_fill. rewrite E. reflexivity.
Qed.

(** Pass 1 on an image of fill pixels: every cell of [pixel_mask] is
    exactly FILL, every cell of [clear_mask] is CLEAR_FILL, and no pixel
    is counted. *)
Lemma first_pass_all_fill (env : env_t) (nrows ncols : nat) (st st' : p1_state) :
  is_fill (saturate_all (meta env) fill_px) = true ->
  all_fill_image env nrows ncols ->
  length (p1_pixel_mask st) = (nrows * ncols)%nat ->
  length (p1_clear_mask st) = (nrows * ncols)%nat ->
  first_pass env nrows ncols st = Ok st' ->
  (image_data_counter st' = image_data_counter st
   /\ clear_pixel_counter st' = clear_pixel_counter st
   /\ clear_land_pixel_counter st' = clear_land_pixel_counter st
   /\ clear_water_pixel_counter st' = clear_water_pixel_counter st)
  /\ forall p, (p < nrows * ncols)%nat ->
       p1_pixel_mask st' !!! p = CF_FILL_BIT
       /\ p1_clear_mask st' !!! p = CF_CLEAR_FILL_BIT.
Proof.
  intros Hfp Hfill Hpm Hcm Hrun. unfold first_pass in Hrun.
  apply (sweep_pointwise p1_cells
           (fun s => (length (p1_pixel_mask s) = (nrows * ncols)%nat
                      /\ length (p1_clear_mask s) = (nrows * ncols)%nat)
                     /\ image_data_counter s = image_data_counter st
                     /\ clear_pixel_counter s = clear_pixel_counter st
                     /\ clear_land_pixel_counter s = clear_land_pixel_counter st
                     /\ clear_water_pixel_counter s = clear_water_pixel_counter st)
           ncols nrows (read_row env P1) (first_pass_body (meta env))
           (fun _ _ _ _ v' => v' = (CF_FILL_BIT, CF_CLEAR_FILL_BIT))) in Hrun.
  - destruct Hrun as [[_ Hcnt] Hcell]. split; [assumption|].
    intros p Hp.
    destruct (pixel_index_split nrows ncols p Hp) as (r & c & Hr & Hc & ->).
    destruct (Hcell r c Hr Hc) as (line & _ & E).
    unfold p1_cells in E. injection E as E1 E2. split; assumption.
  - intros line r c s Hr Hc Hread [[Hl1 Hl2] Hcnt].
    unfold first_pass_body, p1_cells.
    rewrite (Hfill r c line Hr Hc Hread), Hfp.
    cbn [p1_pixel_mask p1_clear_mask image_data_counter clear_pixel_counter
         clear_land_pixel_counter clear_water_pixel_counter].
    rewrite !length_insert, !list_lookup_total_insert_eq by nia.
    split; [split; [split|]; assumption|]. split; [reflexivity|].
    intros q Hq. rewrite !list_lookup_total_insert_ne by congruence. reflexivity.
  - repeat split; assumption.
Qed.

(** Pass 2 over a [clear_mask] of CLEAR_FILL cells collects nothing. *)
Lemma second_pass_all_fill (env : env_t) (nrows ncols : nat)
      (clear_mask : list Z) (land_bit water_bit : Z) (s2 : p2_state) :
  (forall p, (p < nrows * ncols)%nat ->
     clear_mask !!! p = CF_CLEAR_FILL_BIT) ->
  second_pass env nrows ncols clear_mask land_bit water_bit = Ok s2 ->
  s2 = p2_init (nrows * ncols).
Proof.
  intros Hfill Hrun. unfold second_pass in Hrun.
  apply (sweep_pointwise (fun (_ : p2_state) (_ : nat) => tt)
           (fun s => s = p2_init (nrows * ncols))
           ncols nrows (read_therm_row env P2)
           (second_pass_body (meta env) clear_mask land_bit water_bit)
           (fun _ _ _ _ _ => True)) in Hrun.
  - apply Hrun.
  - intros line r c s Hr Hc _ ->. unfold second_pass_body.
    rewrite Hfill by nia. change (mask_test CF_CLEAR_FILL_BIT CF_CLEAR_FILL_BIT)
      with true. cbn match. repeat split.
  - reflexivity.
Qed.

Lemma percent_of_nothing : percent_of 0 0 = S754_nan.
Proof. vm_compute. reflexivity. Qed.

(** No comparison with a NaN holds, so a NaN percentage does not take the
    all-cloud shortcut. *)
Lemma all_cloud_test_nan : all_cloud_test S754_nan = false.
Proof. vm_compute. reflexivity. Qed.

Lemma enough_nan : enough S754_nan = false.
Proof. vm_compute. reflexivity. Qed.

(** On every image all of whose samples are [FILL_PIXEL], and that the
    fill test of pass 1 takes as fill, pass 1 counts no image data: the
    division by [image_data_counter] is 0/0, [clear_ptm] is a NaN and the
    test of the all-cloud shortcut is false. The run goes through passes
    2 to 6; when it returns SUCCESS, [t_templ] and [t_temph] are the two
    percentiles of the empty land sample lowered and raised by 400, every
    [pixel_mask] cell is exactly FILL and every [conf_mask] cell is
    [CF_FILL_PIXEL]. *)
Lemma all_fill_image_full_path (env : env_t) (nrows ncols : nat) (thr : F32.t)
      (o : io_t) :
  length (pixel_mask (io_masks o)) = (nrows * ncols)%nat ->
  length (conf_mask (io_masks o)) = (nrows * ncols)%nat ->
  is_fill (saturate_all (meta env) fill_px) = true ->
  all_fill_image env nrows ncols ->
  let out := potential_cloud_shadow_snow_mask env nrows ncols thr o in
  status out = SUCCESS ->
  F32.is_nan (clear_ptm (io out)) = true
  /\ all_cloud_test (clear_ptm (io out)) = false
  /\ (exists tl0 th0,
        prctile env (replicate (nrows * ncols) 0) 0 0 0 (pct l_pt) = Some tl0
        /\ prctile env (replicate (nrows * ncols) 0) 0 0 0 (pct h_pt) = Some th0
        /\ t_templ (io out) = F32.sub tl0 (F32.of_Z 400)
        /\ t_temph (io out) = F32.add th0 (F32.of_Z 400))
  /\ forall p, (p < nrows * ncols)%nat ->
       pixel_mask (io_masks (io out)) !!! p = CF_FILL_BIT
       /\ conf_mask (io_masks (io out)) !!! p = CF_FILL_PIXEL.
Proof.
  intros Hpm Hcm Hfp Hfill out Hok.
  destruct (run_success env nrows ncols thr o Hok) as (s1 & H1 & Hptm & Hcase).
  fold out in Hptm, Hcase.
  destruct (first_pass_all_fill env nrows ncols
              (p1_init (nrows * ncols) (pixel_mask (io_masks o))) s1 Hfp Hfill
              Hpm (length_replicate _ _) H1) as [(Hc0 & Hc1 & Hc2 & Hc3) Hcell1].
  cbn [p1_init image_data_counter clear_pixel_counter clear_land_pixel_counter
       clear_water_pixel_counter] in Hc0, Hc1, Hc2, Hc3.
  rewrite Hc0, Hc1, percent_of_nothing in Hptm.
  rewrite Hptm in Hcase |- *. rewrite all_cloud_test_nan in Hcase.
  split; [reflexivity|]. split; [apply all_cloud_test_nan|].
  destruct Hcase as (tl0 & th0 & fp & wfp & clr & wclr & m4 & fn & fs
                     & Hland & Htl & Hth & H4 & H6).
  split.
  - exists tl0, th0. unfold land_percentiles in Hland. cbn zeta in Hland.
    destruct Hland as (s2 & H2 & Hl & Hh).
    apply second_pass_all_fill in H2; [|intros p Hp; apply Hcell1; assumption].
    subst s2. cbn in Hl, Hh. repeat split; assumption.
  - intros p Hp.
    destruct (first_pass_pointwise env nrows ncols
                (p1_init (nrows * ncols) (pixel_mask (io_masks o))) s1 Hpm H1)
      as [Hlen1 _].
    destruct (pixel_index_split nrows ncols p Hp) as (r & c & Hr & Hc & ->).
    destruct (full_path_cells env nrows ncols fp wfp clr wclr _ fn fs
                {| pixel_mask := p1_pixel_mask s1;
                   conf_mask := conf_mask (io_masks o) |} m4 _ r c
                Hlen1 Hcm H4 H6 Hr Hc) as (l4 & l6 & E).
    unfold cells at 2 in E. cbn [pixel_mask conf_mask] in E.
    destruct (Hcell1 _ Hp) as [E1 _]. rewrite E1 in E.
    rewrite fourth_pass_cell_fill, sixth_pass_cell_fill in E by reflexivity.
    unfold cells in E. injection E as Ea Eb. split; assumption.
Qed.

Lemma all_fill_image_full_path_witness :
  F32.is_nan (clear_ptm (io (demo_run [fill_px]))) = true
  /\ all_cloud_test (clear_ptm (io (demo_run [fill_px]))) = false
  /\ (exists tl0 th0,
        prctile (demo_env [fill_px] 1) (replicate (1 * 1) 0) 0 0 0 (pct l_pt)
        = Some tl0
        /\ prctile (demo_env [fill_px] 1) (replicate (1 * 1) 0) 0 0 0 (pct h_pt)
           = Some th0
        /\ t_templ (io (demo_run [fill_px])) = F32.sub tl0 (F32.of_Z 400)
        /\ t_temph (io (demo_run [fill_px])) = F32.add th0 (F32.of_Z 400))
  /\ forall p, (p < 1 * 1)%nat ->
       pixel_mask (io_masks (io (demo_run [fill_px]))) !!! p = CF_FILL_BIT
       /\ conf_mask (io_masks (io (demo_run [fill_px]))) !!! p = CF_FILL_PIXEL.
Proof.
  apply (all_fill_image_full_path (demo_env [fill_px] 1) 1 1 demo_threshold
           (demo_io 1)).
  - reflexivity.
  - reflexivity.
  - vm_compute. reflexivity.
  - intros r c line Hr Hc Hread.
    destruct r as [|r]; [|lia]. destruct c as [|c]; [|lia].
    vm_compute in Hread. injection Hread as <-. reflexivity.
  - vm_compute. reflexivity.
Defined.

(** C5. The all-fill scenario on the code: on the 1 x 2 image all of
    whose samples are [FILL_PIXEL], with the masks zeroed at entry and a
    percentile routine that gives 0 on an empty sample, pass 1 counts no
    image data ([image_data_counter] is 0), so the unguarded division
    gives a NaN for [clear_ptm], not 0; the comparison of the all-cloud
    shortcut is false on it, the run goes through passes 2 to 6 and
    returns SUCCESS with [t_templ] = -400 and [t_temph] = 400, not -1.
    Both [pixel_mask] cells are exactly FILL and both [conf_mask] cells
    are [CF_FILL_PIXEL]. *)
Theorem all_fill_image_divides_by_zero :
  image_data_counter (demo_first_pass [fill_px; fill_px]) = 0
  /\ clear_pixel_counter (demo_first_pass [fill_px; fill_px]) = 0
  /\ status (demo_run [fill_px; fill_px]) = SUCCESS
  /\ F32.is_nan (clear_ptm (io (demo_run [fill_px; fill_px]))) = true
  /\ F32.eqb (clear_ptm (io (demo_run [fill_px; fill_px]))) (F32.of_Z 0) = false
  /\ all_cloud_test (clear_ptm (io (demo_run [fill_px; fill_px]))) = false
  /\ t_templ (io (demo_run [fill_px; fill_px])) = F32.of_Z (-400)
  /\ t_temph (io (demo_run [fill_px; fill_px])) = F32.of_Z 400
  /\ F32.eqb (t_templ (io (demo_run [fill_px; fill_px]))) minus_one = false
  /\ F32.eqb (t_temph (io (demo_run [fill_px; fill_px]))) minus_one = false
  /\ pixel_mask (io_masks (io (demo_run [fill_px; fill_px])))
     = [CF_FILL_BIT; CF_FILL_BIT]
  /\ conf_mask (io_masks (io (demo_run [fill_px; fill_px])))
     = [CF_FILL_PIXEL; CF_FILL_PIXEL].
Proof. vm_compute. repeat split; reflexivity. Qed.

(** ** The whiteness of pass 3 against the whiteness of pass 1 *)

Lemma sf_same_eq (x y : spec_float) : sf_same x y = true -> x = y.
Proof.
  destruct x as [a|a| |s m e], y as [b|b| |s' m' e']; cbn; try discriminate.
  - intros H. apply Bool.eqb_prop in H. congruence.
  - intros H. apply Bool.eqb_prop in H. congruence.
  - reflexivity.
  - intros H. apply andb_prop in H. destruct H as [H He].
    apply andb_prop in H. destruct H as [Hs Hm].
    apply Bool.eqb_prop in Hs. apply Pos.eqb_eq in Hm. apply Z.eqb_eq in He.
    congruence.
Qed.

Lemma widening_exact_sound (k : nat) (n z : Z) :
  widening_exact k n = true -> n <= z < n + Z.of_nat k ->
  F64.of_single (F32.of_Z z) = F64.of_Z z.
Proof.
  revert n. induction k as [|k IH]; intros n Hchk Hz; [lia|].
  cbn [widening_exact] in Hchk. apply andb_prop in Hchk.
  destruct Hchk as [Hn Hrest].
  destruct (Z.eq_dec z n) as [->|Hne].
  - apply sf_same_eq. assumption.
  - apply (IH (n + 1)); [assumption | lia].
Qed.

(** Every sum of three [int16] samples converts to [double] through
    [float] without loss. *)
Lemma widening_exact_sums :
  widening_exact (Z.to_nat 196609) (-98304) = true.
Proof. vm_compute. reflexivity. Qed.

Lemma visi_mean_agree (px : pixel) :
  int16_range (blue px) -> int16_range (green px) -> int16_range (red px) ->
  visi_mean_p1 px = visi_mean_p3 px.
Proof.
  unfold int16_range, SHRT_MIN, SHRT_MAX. intros Hb Hg Hr.
  unfold visi_mean_p1, visi_mean_p3.
  rewrite (widening_exact_sound _ _ (blue px + green px + red px)
             widening_exact_sums) by lia.
  reflexivity.
Qed.

(** C6, as amended. On the same band inputs the whiteness of pass 3 is
    the whiteness of pass 1 (same visible mean, same formula, 0 under the
    same saturation override) except where the visible mean is 0 and no
    visible band is saturated: there pass 3 takes 0 and pass 1 takes
    100. *)
Theorem whiteness_third_pass_rule (meta : meta_t) (px : pixel) (w : F32.t) :
  int16_range (blue px) -> int16_range (green px) -> int16_range (red px) ->
  (visible_saturated meta px = true
   \/ F32.eqb (visi_mean_p3 px) (F32.of_Z 0) = false ->
   whiteness_p3 meta px = whiteness_p1 meta px true w)
  /\ (visible_saturated meta px = false ->
      F32.eqb (visi_mean_p3 px) (F32.of_Z 0) = true ->
      whiteness_p3 meta px = f32_zero
      /\ whiteness_p1 meta px true w = F32.of_double (F64.lit 100 1)).
Proof.
  intros Hb Hg Hr. unfold whiteness_p3, whiteness_p1. cbn zeta.
  rewrite (visi_mean_agree px Hb Hg Hr).
  destruct (visible_saturated meta px),
    (F32.eqb (visi_mean_p3 px) (F32.of_Z 0)); cbn [negb]; split;
    try (intros [H|H]; (discriminate H || reflexivity));
    try (intros H1 H2; (discriminate H1 || discriminate H2 || (split; reflexivity))).
Qed.

Lemma whiteness_third_pass_rule_witness :
  (visible_saturated demo_meta veg_px = true
   \/ F32.eqb (visi_mean_p3 veg_px) (F32.of_Z 0) = false ->
   whiteness_p3 demo_meta veg_px = whiteness_p1 demo_meta veg_px true f32_zero)
  /\ (visible_saturated demo_meta veg_px = false ->
      F32.eqb (visi_mean_p3 veg_px) (F32.of_Z 0) = true ->
      whiteness_p3 demo_meta veg_px = f32_zero
      /\ whiteness_p1 demo_meta veg_px true f32_zero
         = F32.of_double (F64.lit 100 1)).
Proof.
  apply (whiteness_third_pass_rule demo_meta veg_px f32_zero);
    unfold int16_range, SHRT_MIN, SHRT_MAX; cbn; lia.
Defined.

(** The pixel [balanced_px] is neither fill nor water, pass 1 computes
    its whiteness (its basic cloud test passes), its visible mean is 0,
    and the two passes disagree on its whiteness: 100 in pass 1, 0 in
    pass 3. *)
Lemma whiteness_third_pass_differs :
  ~ (is_fill (saturate_all demo_meta balanced_px) = false ->
     mask_test (fst (first_pass_pixel demo_meta balanced_px f32_zero 0))
               CF_WATER_BIT = false ->
     F32.eqb (visi_mean_p3 balanced_px) (F32.of_Z 0) = true ->
     whiteness_p3 demo_meta balanced_px
     = snd (first_pass_pixel demo_meta balanced_px f32_zero 0)
     /\ whiteness_p3 demo_meta balanced_px = F32.of_double (F64.lit 100 1)).
Proof.
  intros H.
  destruct H as [H _]; [vm_compute; reflexivity..|].
  vm_compute in H. discriminate H.
Qed.

(** ** The FILL flag along a run *)

(** X14. On the full path, with a [pixel_mask] that carries no FILL bit
    when it is handed in, a pixel whose FILL bit is set at the return has
    no other bit set and has [CF_FILL_PIXEL] in [conf_mask]. *)
Lemma fill_exclusive_full_path (env : env_t) (nrows ncols : nat)
      (thr : F32.t) (o : io_t) :
  length (pixel_mask (io_masks o)) = (nrows * ncols)%nat ->
  length (conf_mask (io_masks o)) = (nrows * ncols)%nat ->
  (forall p, (p < nrows * ncols)%nat ->
     mask_test (pixel_mask (io_masks o) !!! p) CF_FILL_BIT = false) ->
  let out := potential_cloud_shadow_snow_mask env nrows ncols thr o in
  status out = SUCCESS ->
  all_cloud_test (clear_ptm (io out)) = false ->
  forall p, (p < nrows * ncols)%nat ->
    mask_test (pixel_mask (io_masks (io out)) !!! p) CF_FILL_BIT = true ->
    pixel_mask (io_masks (io out)) !!! p = CF_FILL_BIT
    /\ conf_mask (io_masks (io out)) !!! p = CF_FILL_PIXEL.
Proof.
  intros Hpm Hcm Hclean out Hok Hfull p Hp.
  destruct (run_success env nrows ncols thr o Hok) as (s1 & H1 & _ & Hcase).
  fold out in Hcase. rewrite Hfull in Hcase.
  destruct Hcase as (tl0 & th0 & fp & wfp & clr & wclr & m4 & fn & fs
                     & _ & _ & _ & H4 & H6).
  destruct (first_pass_pointwise env nrows ncols
              (p1_init (nrows * ncols) (pixel_mask (io_masks o))) s1 Hpm H1)
    as [Hlen1 Hcell1].
  destruct (pixel_index_split nrows ncols p Hp) as (r & c & Hr & Hc & ->).
  destruct (full_path_cells env nrows ncols fp wfp clr wclr _ fn fs
              {| pixel_mask := p1_pixel_mask s1;
                 conf_mask := conf_mask (io_masks o) |} m4 _ r c
              Hlen1 Hcm H4 H6 Hr Hc) as (l4 & l6 & E).
  destruct (Hcell1 r c Hr Hc) as (l1 & _ & Hrel).
  cbn [p1_init p1_pixel_mask] in Hrel.
  change (pixel_mask (io_masks (io out)) !!! (r * ncols + c)%nat)
    with (fst (cells (io_masks (io out)) (r * ncols + c))).
  change (conf_mask (io_masks (io out)) !!! (r * ncols + c)%nat)
    with (snd (cells (io_masks (io out)) (r * ncols + c))).
  rewrite !E. clear E. unfold cells. cbn [pixel_mask conf_mask].
  set (v1 := p1_pixel_mask s1 !!! (r * ncols + c)%nat) in *.
  flags_as_powers.
  rewrite sixth_pass_cell_frame, fourth_pass_cell_frame by lia. cbn [fst].
  intros Hfill.
  rewrite fourth_pass_cell_fill, sixth_pass_cell_fill by exact Hfill.
  cbn [fst snd]. split; [|reflexivity].
  apply (first_pass_cell_fill _ _ _ _ _ Hrel (Hclean _ Hp) Hfill).
Qed.

(** X15. The all-cloud shortcut runs over every pixel, fill pixels
    included: SHADOW becomes the negation of CLOUD, the other flags stay,
    [conf_mask] is not written and the two temperatures are -1. *)
Lemma all_cloud_shortcut_every_pixel (env : env_t) (nrows ncols : nat)
      (thr : F32.t) (o : io_t) :
  length (pixel_mask (io_masks o)) = (nrows * ncols)%nat ->
  let out := potential_cloud_shadow_snow_mask env nrows ncols thr o in
  status out = SUCCESS ->
  all_cloud_test (clear_ptm (io out)) = true ->
  t_templ (io out) = minus_one /\ t_temph (io out) = minus_one
  /\ conf_mask (io_masks (io out)) = conf_mask (io_masks o)
  /\ exists s1,
       first_pass env nrows ncols
                  (p1_init (nrows * ncols) (pixel_mask (io_masks o))) = Ok s1
       /\ forall p, (p < nrows * ncols)%nat ->
            mask_test (pixel_mask (io_masks (io out)) !!! p) CF_SHADOW_BIT
            = negb (mask_test (p1_pixel_mask s1 !!! p) CF_CLOUD_BIT)
            /\ forall j, 0 <= j < 8 -> j <> 2 ->
                 mask_test (pixel_mask (io_masks (io out)) !!! p) (2 ^ j)
                 = mask_test (p1_pixel_mask s1 !!! p) (2 ^ j).
Proof.
  intros Hpm out Hok Hshort.
  destruct (run_success env nrows ncols thr o Hok) as (s1 & H1 & _ & Hcase).
  fold out in Hcase. rewrite Hshort in Hcase.
  destruct Hcase as (Hm & Htl & Hth).
  split; [assumption|]. split; [assumption|]. rewrite Hm. cbn [conf_mask pixel_mask].
  split; [reflexivity|]. exists s1. split; [assumption|].
  destruct (first_pass_pointwise env nrows ncols
              (p1_init (nrows * ncols) (pixel_mask (io_masks o))) s1 Hpm H1)
    as [Hlen1 _].
  destruct (all_cloud_pointwise _ _ Hlen1) as [_ Hcell].
  intros p Hp. rewrite Hcell by assumption. split.
  - apply all_cloud_pixel_shadow.
  - intros j Hj Hne. apply all_cloud_pixel_frame; assumption.
Qed.

(** C3. The all-cloud shortcut breaks the exclusivity of FILL: in the
    scene of one fill pixel and one cloud pixel the run returns SUCCESS
    through the shortcut, and the fill pixel, whose cell was exactly FILL
    after pass 1, ends with FILL and SHADOW both set. *)
Theorem shortcut_sets_shadow_on_fill_pixel :
  status (demo_run [fill_px; cloud_px]) = SUCCESS
  /\ all_cloud_test (clear_ptm (io (demo_run [fill_px; cloud_px]))) = true
  /\ is_fill (saturate_all demo_meta fill_px) = true
  /\ p1_pixel_mask (demo_first_pass [fill_px; cloud_px]) !!! 0%nat = CF_FILL_BIT
  /\ pixel_mask (io_masks (io (demo_run [fill_px; cloud_px]))) !!! 0%nat
     = Z.lor CF_FILL_BIT CF_SHADOW_BIT.
Proof. vm_compute. repeat split; reflexivity. Qed.

(** C4. In the scene of one cloud pixel and one fill pixel the shortcut
    is taken, the two temperatures are -1 and the run returns SUCCESS,
    but SHADOW is set on the fill pixel too: the loop of the shortcut
    does not look at the FILL bit. *)
Theorem shortcut_shadow_not_only_on_non_fill :
  status (demo_run [cloud_px; fill_px]) = SUCCESS
  /\ all_cloud_test (clear_ptm (io (demo_run [cloud_px; fill_px]))) = true
  /\ t_templ (io (demo_run [cloud_px; fill_px])) = minus_one
  /\ t_temph (io (demo_run [cloud_px; fill_px])) = minus_one
  /\ is_fill (saturate_all demo_meta fill_px) = true
  /\ pixel_mask (io_masks (io (demo_run [cloud_px; fill_px])))
     = [CF_CLOUD_BIT; Z.lor CF_FILL_BIT CF_SHADOW_BIT]
  /\ mask_test (pixel_mask (io_masks (io (demo_run [cloud_px; fill_px]))) !!! 1%nat)
               CF_SHADOW_BIT = true.
Proof. vm_compute. repeat split; reflexivity. Qed.

(** ** The scratch buffers at the return *)

Lemma in_free (x b : buffer) (l : list buffer) :
  In x l -> buffer_eqb x b = false -> In x (free b l).
Proof.
  intros Hin Hne. unfold free. apply filter_In. split; [assumption|].
  rewrite Hne. reflexivity.
Qed.

Lemma in_alloc (env : env_t) (x b : buffer) (l : list buffer) :
  In x l -> In x (alloc env b l).
Proof.
  intros Hin. unfold alloc. destruct (alloc_ok env b); [right|]; assumption.
Qed.

(** Keeps track of [clear_mask] through the allocations and releases of
    the other buffers. *)
Ltac keeps_clear_mask :=
  repeat first
    [ assumption
    | apply in_alloc
    | apply in_free; [|reflexivity] ].

Ltac failure_cases :=
  repeat match goal with
    | |- context [if negb ?b then _ else _] => destruct (negb b)
    | |- context [match ?x with Ok _ => _ | Fail _ => _ end] => destruct x
    | |- context [match ?x with Some _ => _ | None => _ end] => destruct x
    end.

Lemma sixth_stage_failure (env : env_t) (nrows ncols : nat) (l : list buffer)
      (fn fs : list Z) (o : io_t) :
  In B_clear_mask l ->
  status (sixth_stage env nrows ncols l fn fs o) = FAILURE ->
  In B_clear_mask (live (sixth_stage env nrows ncols l fn fs o)).
Proof.
  intros Hin. unfold sixth_stage. failure_cases; cbn [status live RETURN_ERROR].
  - discriminate.
  - intros _. assumption.
Qed.

Lemma fifth_stage_failure (env : env_t) (nrows ncols : nat) (l : list buffer)
      (clear_mask : list Z) (land_bit : Z) (o : io_t) :
  In B_clear_mask l ->
  status (fifth_stage env nrows ncols l clear_mask land_bit o) = FAILURE ->
  In B_clear_mask (live (fifth_stage env nrows ncols l clear_mask land_bit o)).
Proof.
  intros Hin. unfold fifth_stage. failure_cases;
    try solve [cbn [status live RETURN_ERROR]; intros _; keeps_clear_mask].
  intros H. apply sixth_stage_failure; [keeps_clear_mask | exact H].
Qed.

Lemma fourth_stage_failure (env : env_t) (nrows ncols : nat) (thr : F32.t)
      (l : list buffer) (clear_mask : list Z) (land_bit water_bit : Z)
      (s3 : p3_state) (o : io_t) :
  In B_clear_mask l ->
  status (fourth_stage env nrows ncols thr l clear_mask land_bit water_bit s3 o)
  = FAILURE ->
  In B_clear_mask
     (live (fourth_stage env nrows ncols thr l clear_mask land_bit water_bit s3 o)).
Proof.
  intros Hin. unfold fourth_stage. failure_cases;
    try solve [cbn [status live RETURN_ERROR]; intros _; keeps_clear_mask].
  intros H. apply fifth_stage_failure; [keeps_clear_mask | exact H].
Qed.

Lemma third_stage_failure (env : env_t) (nrows ncols : nat) (thr : F32.t)
      (l : list buffer) (clear_mask : list Z) (land_bit water_bit : Z)
      (temp_l t_wtemp : F32.t) (o : io_t) :
  In B_clear_mask l ->
  status (third_stage env nrows ncols thr l clear_mask land_bit water_bit
                      temp_l t_wtemp o) = FAILURE ->
  In B_clear_mask
     (live (third_stage env nrows ncols thr l clear_mask land_bit water_bit
                        temp_l t_wtemp o)).
Proof.
  intros Hin. unfold third_stage. failure_cases;
    try solve [cbn [status live RETURN_ERROR]; intros _; keeps_clear_mask].
  intros H. apply fourth_stage_failure; [keeps_clear_mask | exact H].
Qed.

Lemma second_stage_failure (env : env_t) (nrows ncols : nat) (thr : F32.t)
      (l : list buffer) (clear_mask : list Z) (land_ptm water_ptm : F32.t)
      (o : io_t) :
  In B_clear_mask l ->
  status (second_stage env nrows ncols thr l clear_mask land_ptm water_ptm o)
  = FAILURE ->
  In B_clear_mask
     (live (second_stage env nrows ncols thr l clear_mask land_ptm water_ptm o)).
Proof.
  intros Hin. unfold second_stage. failure_cases;
    try solve [cbn [status live RETURN_ERROR]; intros _; keeps_clear_mask].
  intros H. apply third_stage_failure; [keeps_clear_mask | exact H].
Qed.

(** X17. No failure return releases [clear_mask]: once it has been
    allocated, every path that returns FAILURE returns with it still
    allocated. *)
Lemma failure_keeps_clear_mask (env : env_t) (nrows ncols : nat) (thr : F32.t)
      (o : io_t) :
  alloc_ok env B_clear_mask = true ->
  status (potential_cloud_shadow_snow_mask env nrows ncols thr o) = FAILURE ->
  In B_clear_mask (live (potential_cloud_shadow_snow_mask env nrows ncols thr o)).
Proof.
  intros Halloc. unfold potential_cloud_shadow_snow_mask, alloc.
  rewrite Halloc. cbn [negb].
  destruct (first_pass env nrows ncols _) as [s1|s1].
  - destruct (all_cloud_test _).
    + discriminate.
    + intros H. apply second_stage_failure; [left; reflexivity | exact H].
  - intros _. left. reflexivity.
Qed.

(** C9. A failed read leaks: when the reader fails on the first line of
    pass 1, the function returns FAILURE with [clear_mask] still
    allocated; no statement of the failure return releases it. *)
Theorem failed_read_leaks_clear_mask :
  status (potential_cloud_shadow_snow_mask failing_reader_env 1 1 demo_threshold
                                           (demo_io 1)) = FAILURE
  /\ live (potential_cloud_shadow_snow_mask failing_reader_env 1 1 demo_threshold
                                            (demo_io 1)) = [B_clear_mask].
Proof. vm_compute. split; reflexivity. Qed.

(** A return with SUCCESS has released every scratch buffer. *)
Ltac success_cases :=
  unfold alloc;
  repeat match goal with
    | |- context [alloc_ok ?e ?b] => destruct (alloc_ok e b)
    end;
  cbn [negb andb free List.filter buffer_eqb];
  repeat match goal with
    | |- status (RETURN_ERROR _ _) = SUCCESS -> _ => discriminate
    | |- context [match ?x with Ok _ => _ | Fail _ => _ end] => destruct x
    | |- context [match ?x with Some _ => _ | None => _ end] => destruct x
    end.

Lemma sixth_stage_releases (env : env_t) (nrows ncols : nat) (fn fs : list Z)
      (o : io_t) :
  status (sixth_stage env nrows ncols
            [B_filled_swir1_data; B_filled_nir_data; B_clear_mask] fn fs o)
  = SUCCESS ->
  live (sixth_stage env nrows ncols
          [B_filled_swir1_data; B_filled_nir_data; B_clear_mask] fn fs o) = [].
Proof. unfold sixth_stage. success_cases. reflexivity. Qed.

Lemma fifth_stage_releases (env : env_t) (nrows ncols : nat)
      (clear_mask : list Z) (land_bit : Z) (o : io_t) :
  status (fifth_stage env nrows ncols [B_clear_mask] clear_mask land_bit o)
  = SUCCESS ->
  live (fifth_stage env nrows ncols [B_clear_mask] clear_mask land_bit o) = [].
Proof. unfold fifth_stage. success_cases. apply sixth_stage_releases. Qed.

Lemma fourth_stage_releases (env : env_t) (nrows ncols : nat) (thr : F32.t)
      (clear_mask : list Z) (land_bit water_bit : Z) (s3 : p3_state) (o : io_t) :
  status (fourth_stage env nrows ncols thr
            [B_final_prob; B_wfinal_prob; B_clear_mask] clear_mask land_bit
            water_bit s3 o) = SUCCESS ->
  live (fourth_stage env nrows ncols thr
          [B_final_prob; B_wfinal_prob; B_clear_mask] clear_mask land_bit
          water_bit s3 o) = [].
Proof. unfold fourth_stage. success_cases. apply fifth_stage_releases. Qed.

Lemma third_stage_releases (env : env_t) (nrows ncols : nat) (thr : F32.t)
      (clear_mask : list Z) (land_bit water_bit : Z) (temp_l t_wtemp : F32.t)
      (o : io_t) :
  status (third_stage env nrows ncols thr [B_clear_mask] clear_mask land_bit
            water_bit temp_l t_wtemp o) = SUCCESS ->
  live (third_stage env nrows ncols thr [B_clear_mask] clear_mask land_bit
          water_bit temp_l t_wtemp o) = [].
Proof. unfold third_stage. success_cases. apply fourth_stage_releases. Qed.

Lemma second_stage_releases (env : env_t) (nrows ncols : nat) (thr : F32.t)
      (clear_mask : list Z) (land_ptm water_ptm : F32.t) (o : io_t) :
  status (second_stage env nrows ncols thr [B_clear_mask] clear_mask land_ptm
            water_ptm o) = SUCCESS ->
  live (second_stage env nrows ncols thr [B_clear_mask] clear_mask land_ptm
          water_ptm o) = [].
Proof. unfold second_stage. success_cases. apply third_stage_releases. Qed.

(** X16. Every return of SUCCESS, through the shortcut or through passes
    2 to 6, comes with every buffer the function allocated released. *)
Lemma success_releases_everything (env : env_t) (nrows ncols : nat)
      (thr : F32.t) (o : io_t) :
  status (potential_cloud_shadow_snow_mask env nrows ncols thr o) = SUCCESS ->
  live (potential_cloud_shadow_snow_mask env nrows ncols thr o) = [].
Proof.
  unfold potential_cloud_shadow_snow_mask. success_cases.
  destruct (all_cloud_test _); [reflexivity|]. apply second_stage_releases.
Qed.

(** ** Sweeps, step by step *)

Section SweepSteps.
Local Open Scope nat_scope.
Context {Row St : Type}.
(** What holds of the state once the pixels before a pixel index have
    been worked on. *)
Variable P : nat -> St -> Prop.

Lemma for_cols_steps (base bound : nat) (body : nat -> St -> St) :
  (forall c st, c < bound -> P (base + c) st -> P (S (base + c)) (body c st)) ->
  forall n c0 st, c0 + n <= bound -> P (base + c0) st ->
    P (base + c0 + n) (for_cols body n c0 st).
Proof.
  intros Hbody. induction n as [|n IH]; intros c0 st Hle H0; cbn [for_cols].
  - rewrite Nat.add_0_r. assumption.
  - replace (base + c0 + S n) with (base + S c0 + n) by lia.
    apply IH; [lia|]. rewrite Nat.add_succ_r. apply Hbody; [lia | assumption].
Qed.

Lemma for_rows_steps (ncols nrows : nat) (read : nat -> option Row)
      (row_body : Row -> nat -> St -> St) :
  (forall line r st, r < nrows -> read r = Some line ->
     P (r * ncols) st -> P (r * ncols + ncols) (row_body line r st)) ->
  forall n r0 st st', r0 + n <= nrows -> P (r0 * ncols) st ->
    for_rows read row_body n r0 st = Ok st' ->
    P ((r0 + n) * ncols) st'.
Proof.
  intros Hbody. induction n as [|n IH]; intros r0 st st' Hle H0 Hrun;
    cbn [for_rows] in Hrun.
  - injection Hrun as <-. rewrite Nat.add_0_r. assumption.
  - destruct (read r0) as [line|] eqn:Hread; [|discriminate].
    replace (r0 + S n) with (S r0 + n) by lia.
    apply (IH (S r0) (row_body line r0 st) st'); [lia | | assumption].
    replace (S r0 * ncols) with (r0 * ncols + ncols) by lia.
    apply Hbody; [lia | assumption..].
Qed.

(** The shape the passes share: the iteration at [(r, c)] is step
    [r * ncols + c]. *)
Lemma sweep_steps (ncols nrows : nat) (read : nat -> option Row)
      (body : Row -> nat -> nat -> St -> St) :
  (forall line r c st, r < nrows -> c < ncols -> read r = Some line ->
     P (r * ncols + c) st ->
     P (S (r * ncols + c)) (body line (r * ncols + c) c st)) ->
  forall st st', P 0 st ->
    for_rows read
      (fun line r => for_cols (fun c => body line (r * ncols + c) c) ncols 0)
      nrows 0 st = Ok st' ->
    P (nrows * ncols) st'.
Proof.
  intros Hbody st st' H0 Hrun.
  apply (for_rows_steps ncols nrows read
           (fun line r => for_cols (fun c => body line (r * ncols + c) c) ncols 0))
    with (n := nrows) (r0 := 0) (st := st); [|lia|assumption..].
  intros line r s Hr Hread Hs.
  replace (r * ncols + ncols) with (r * ncols + 0 + ncols) by lia.
  apply (for_cols_steps (r * ncols) ncols); [|lia|rewrite Nat.add_0_r; assumption].
  intros c s' Hc Hs'. apply Hbody; assumption.
Qed.
End SweepSteps.

(** ** Pass 1: snow, water, clear mask and counters *)

Lemma first_pass_pixel_snow (meta : meta_t) (px : pixel) (w : F32.t) (m : Z) :
  mask_test (fst (first_pass_pixel meta px w m)) CF_SNOW_BIT = snow_test px.
Proof.
  unfold first_pass_pixel, snow_test. cbn [fst]. flags_as_powers.
  match goal with
  | |- context [if ?b then mask_assign ?c ?x ?k else mask_andnot ?x ?k] =>
      destruct b
  end; flag_reads; reflexivity.
Qed.

Lemma first_pass_pixel_water (meta : meta_t) (px : pixel) (w : F32.t) (m : Z) :
  mask_test (fst (first_pass_pixel meta px w m)) CF_WATER_BIT = water_test px.
Proof.
  unfold first_pass_pixel, water_test. cbn [fst]. flags_as_powers.
  match goal with
  | |- context [if ?b then mask_assign ?c ?x ?k else mask_andnot ?x ?k] =>
      destruct b
  end; flag_reads; reflexivity.
Qed.

(** X1. After pass 1 the SNOW bit and the WATER bit of every non-fill
    pixel are the outcome of the snow test and of the water test on its
    samples (after the saturation substitution), whatever the cell held
    before and whatever the cloud chain decides. *)
Theorem first_pass_snow_water (env : env_t) (nrows ncols : nat)
        (st st' : p1_state) (r c : nat) :
  length (p1_pixel_mask st) = (nrows * ncols)%nat ->
  first_pass env nrows ncols st = Ok st' ->
  (r < nrows)%nat -> (c < ncols)%nat ->
  exists line,
    read_row env P1 r = Some line
    /\ let px := saturate_all (meta env) (raw_pixel line c) in
       is_fill px = false ->
       mask_test (p1_pixel_mask st' !!! (r * ncols + c)%nat) CF_SNOW_BIT
       = snow_test px
       /\ mask_test (p1_pixel_mask st' !!! (r * ncols + c)%nat) CF_WATER_BIT
          = water_test px.
Proof.
  intros Hlen Hrun Hr Hc.
  destruct (first_pass_pointwise env nrows ncols st st' Hlen Hrun) as [_ Hcell].
  destruct (Hcell r c Hr Hc) as (line & Hread & Hrel).
  exists line. split; [assumption|]. cbn zeta. intros Hfill.
  unfold first_pass_cell in Hrel. rewrite Hfill in Hrel.
  destruct Hrel as [w ->].
  split; [apply first_pass_pixel_snow | apply first_pass_pixel_water].
Qed.

Lemma first_pass_snow_water_witness :
  exists line,
    read_row (demo_env [wet_cloud_px; veg_px] 2) P1 0 = Some line
    /\ let px := saturate_all demo_meta (raw_pixel line 0) in
       is_fill px = false ->
       mask_test (p1_pixel_mask (demo_first_pass [wet_cloud_px; veg_px]) !!! 0%nat)
                 CF_SNOW_BIT = snow_test px
       /\ mask_test (p1_pixel_mask (demo_first_pass [wet_cloud_px; veg_px]) !!! 0%nat)
                    CF_WATER_BIT = water_test px.
Proof.
  apply (first_pass_snow_water (demo_env [wet_cloud_px; veg_px] 2) 1 2
           (p1_init 2 [0; 0]) (demo_first_pass [wet_cloud_px; veg_px]) 0 0).
  - reflexivity.
  - vm_compute. reflexivity.
  - lia.
  - lia.
Defined.

Lemma clear_cell_of_not_fill (cell : Z) :
  mask_test (clear_cell_of cell) CF_CLEAR_FILL_BIT = false.
Proof.
  unfold clear_cell_of.
  destruct (mask_test cell CF_CLOUD_BIT), (mask_test cell CF_WATER_BIT);
    reflexivity.
Qed.

(** X2. After pass 1 the [clear_mask] cell of a fill pixel is CLEAR_FILL
    and that of a non-fill pixel is 0 when the pixel is CLOUD, CLEAR and
    CLEAR_WATER when it is WATER and not CLOUD, CLEAR and CLEAR_LAND
    otherwise; so CLEAR_FILL is set in [clear_mask] exactly on the pixels
    the fill test catches, whatever [pixel_mask] held at entry. *)
Theorem first_pass_clear_mask (env : env_t) (nrows ncols : nat)
        (st st' : p1_state) (r c : nat) :
  length (p1_pixel_mask st) = (nrows * ncols)%nat ->
  length (p1_clear_mask st) = (nrows * ncols)%nat ->
  first_pass env nrows ncols st = Ok st' ->
  (r < nrows)%nat -> (c < ncols)%nat ->
  exists line,
    read_row env P1 r = Some line
    /\ let px := saturate_all (meta env) (raw_pixel line c) in
       let i := (r * ncols + c)%nat in
       p1_clear_mask st' !!! i
       = (if is_fill px then CF_CLEAR_FILL_BIT
          else clear_cell_of (p1_pixel_mask st' !!! i))
       /\ mask_test (p1_clear_mask st' !!! i) CF_CLEAR_FILL_BIT = is_fill px.
Proof.
  intros Hpm Hcm Hrun Hr Hc. unfold first_pass in Hrun.
  apply (sweep_pointwise p1_cells
           (fun s => length (p1_pixel_mask s) = (nrows * ncols)%nat
                     /\ length (p1_clear_mask s) = (nrows * ncols)%nat)
           ncols nrows (read_row env P1) (first_pass_body (meta env))
           (fun line _ c _ v' =>
              snd v' = if is_fill (saturate_all (meta env) (raw_pixel line c))
                       then CF_CLEAR_FILL_BIT else clear_cell_of (fst v')))
    in Hrun; [| |split; assumption].
  - destruct Hrun as [_ Hcell].
    destruct (Hcell r c Hr Hc) as (line & Hread & E).
    exists line. split; [assumption|]. cbn zeta.
    unfold p1_cells in E. cbn [fst snd] in E. rewrite E. split; [reflexivity|].
    destruct (is_fill _); [reflexivity | apply clear_cell_of_not_fill].
  - clear. intros line r c st Hr Hc _ [Hl1 Hl2].
    assert (Hi : (r * ncols + c < length (p1_pixel_mask st))%nat) by nia.
    assert (Hj : (r * ncols + c < length (p1_clear_mask st))%nat) by nia.
    unfold first_pass_body, p1_cells.
    destruct (is_fill (saturate_all (meta env) (raw_pixel line c))).
    + cbn [p1_pixel_mask p1_clear_mask fst snd].
      rewrite !length_insert, !list_lookup_total_insert_eq by assumption.
      split; [split; assumption|]. split; [reflexivity|].
      intros q Hq. rewrite !list_lookup_total_insert_ne by congruence.
      reflexivity.
    + destruct (first_pass_pixel _ _ _ _) as [cell w].
      unfold clear_cell_of.
      destruct (mask_test cell CF_CLOUD_BIT) eqn:Ec;
        [|destruct (mask_test cell CF_WATER_BIT) eqn:Ew];
        cbn [p1_pixel_mask p1_clear_mask fst snd];
        rewrite !length_insert, !list_lookup_total_insert_eq by assumption;
        rewrite ?Ec, ?Ew;
        (split; [split; assumption|]); (split; [reflexivity|]);
        intros q Hq; rewrite !list_lookup_total_insert_ne by congruence;
        reflexivity.
Qed.

Lemma first_pass_clear_mask_witness :
  exists line,
    read_row (demo_env [fill_px; water_px] 2) P1 0 = Some line
    /\ let px := saturate_all demo_meta (raw_pixel line 1) in
       let i := (0 * 2 + 1)%nat in
       p1_clear_mask (demo_first_pass [fill_px; water_px]) !!! i
       = (if is_fill px then CF_CLEAR_FILL_BIT
          else clear_cell_of (p1_pixel_mask (demo_first_pass [fill_px; water_px]) !!! i))
       /\ mask_test (p1_clear_mask (demo_first_pass [fill_px; water_px]) !!! i)
                    CF_CLEAR_FILL_BIT = is_fill px.
Proof.
  apply (first_pass_clear_mask (demo_env [fill_px; water_px] 2) 1 2
           (p1_init 2 [0; 0]) (demo_first_pass [fill_px; water_px]) 0 1).
  - reflexivity.
  - reflexivity.
  - vm_compute. reflexivity.
  - lia.
  - lia.
Defined.

(** X3. The counters of pass 1, started at zero, end with the clear
    pixels split into clear land and clear water, no more clear pixels
    than image pixels, and no more image pixels than the image has
    pixels. *)
Theorem first_pass_counters (env : env_t) (nrows ncols : nat) (pm : list Z)
        (s1 : p1_state) :
  first_pass env nrows ncols (p1_init (nrows * ncols) pm) = Ok s1 ->
  clear_pixel_counter s1
  = clear_land_pixel_counter s1 + clear_water_pixel_counter s1
  /\ 0 <= clear_land_pixel_counter s1
  /\ 0 <= clear_water_pixel_counter s1
  /\ clear_pixel_counter s1 <= image_data_counter s1
  /\ image_data_counter s1 <= Z.of_nat (nrows * ncols).
Proof.
  intros Hrun. unfold first_pass in Hrun.
  apply (sweep_steps
           (fun k s =>
              clear_pixel_counter s
              = clear_land_pixel_counter s + clear_water_pixel_counter s
              /\ 0 <= clear_land_pixel_counter s
              /\ 0 <= clear_water_pixel_counter s
              /\ clear_pixel_counter s <= image_data_counter s
              /\ image_data_counter s <= Z.of_nat k)
           ncols nrows (read_row env P1) (first_pass_body (meta env)))
    in Hrun; [assumption | | cbn; lia].
  clear. intros line r c st _ _ _ (H1 & H2 & H3 & H4 & H5).
  unfold first_pass_body.
  destruct (is_fill _).
  - cbn [image_data_counter clear_pixel_counter clear_land_pixel_counter
         clear_water_pixel_counter]. lia.
  - destruct (first_pass_pixel _ _ _ _) as [cell w].
    destruct (mask_test cell CF_CLOUD_BIT); [|destruct (mask_test cell CF_WATER_BIT)];
      cbn [image_data_counter clear_pixel_counter clear_land_pixel_counter
           clear_water_pixel_counter]; lia.
Qed.

Lemma first_pass_counters_witness :
  clear_pixel_counter (demo_first_pass [cloud_px; veg_px; water_px])
  = clear_land_pixel_counter (demo_first_pass [cloud_px; veg_px; water_px])
    + clear_water_pixel_counter (demo_first_pass [cloud_px; veg_px; water_px])
  /\ 0 <= clear_land_pixel_counter (demo_first_pass [cloud_px; veg_px; water_px])
  /\ 0 <= clear_water_pixel_counter (demo_first_pass [cloud_px; veg_px; water_px])
  /\ clear_pixel_counter (demo_first_pass [cloud_px; veg_px; water_px])
     <= image_data_counter (demo_first_pass [cloud_px; veg_px; water_px])
  /\ image_data_counter (demo_first_pass [cloud_px; veg_px; water_px])
     <= Z.of_nat (1 * 3).
Proof.
  apply (first_pass_counters (demo_env [cloud_px; veg_px; water_px] 3) 1 3
           [0; 0; 0]).
  vm_compute. reflexivity.
Defined.

(** ** Pass 1 run again *)

Lemma first_pass_pixel_high_bits (meta : meta_t) (px : pixel) (w : F32.t)
      (m k : Z) :
  8 <= k -> Z.testbit (fst (first_pass_pixel meta px w m)) k = false.
Proof.
  intros Hk. unfold first_pass_pixel. cbn [fst].
  assert (Hlt : (k <? 8) = false) by (apply Z.ltb_ge; assumption).
  match goal with
  | |- context [if ?b then mask_assign ?c ?x ?j else mask_andnot ?x ?j] =>
      destruct b; [destruct c|]
  end; unfold mask_assign, mask_or, mask_andnot;
    rewrite testbit_to_u8, Hlt by lia; reflexivity.
Qed.

(** The cell pass 1 leaves on a non-fill pixel, bit by bit: CLOUD, SNOW
    and WATER come from the samples, the other five bits of the byte from
    the cell as it was. *)
Lemma first_pass_pixel_bits (meta : meta_t) (px : pixel) (w : F32.t) (m k : Z) :
  0 <= k ->
  Z.testbit (fst (first_pass_pixel meta px w m)) k
  = (k <? 8)
    && (if k =? 1 then spec_cloud_chain meta px
        else if k =? 3 then snow_test px
        else if k =? 4 then water_test px
        else Z.testbit m k).
Proof.
  intros Hk. destruct (Z.ltb_spec k 8) as [Hlt|Hge];
    [|apply first_pass_pixel_high_bits; assumption].
  cbn [andb]. rewrite <- !mask_test_testbit by assumption.
  destruct (Z.eqb_spec k 1) as [->|H1].
  { apply first_pass_pixel_cloud. }
  destruct (Z.eqb_spec k 3) as [->|H3].
  { apply first_pass_pixel_snow. }
  destruct (Z.eqb_spec k 4) as [->|H4].
  { apply first_pass_pixel_water. }
  apply first_pass_pixel_frame; [lia | assumption..].
Qed.

Lemma first_pass_pixel_idempotent (meta : meta_t) (px : pixel) (w w' : F32.t)
      (m : Z) :
  fst (first_pass_pixel meta px w' (fst (first_pass_pixel meta px w m)))
  = fst (first_pass_pixel meta px w m).
Proof.
  apply Z.bits_inj'. intros k Hk.
  rewrite (first_pass_pixel_bits meta px w' _ k Hk).
  rewrite (first_pass_pixel_bits meta px w m k Hk).
  destruct (k <? 8), (k =? 1), (k =? 3), (k =? 4); reflexivity.
Qed.

(** X4. Pass 1 run again over the [pixel_mask] it has produced, with the
    same reads, runs to its end and returns the same [pixel_mask],
    whatever the counters and the [whiteness] it is started with: the
    CLOUD, SNOW and WATER bits it finds in a cell, and the whiteness left
    by the pixel before, do not reach its result. *)
Theorem first_pass_idempotent (env : env_t) (nrows ncols : nat)
        (st st' st2 : p1_state) :
  length (p1_pixel_mask st) = (nrows * ncols)%nat ->
  first_pass env nrows ncols st = Ok st' ->
  p1_pixel_mask st2 = p1_pixel_mask st' ->
  exists st2',
    first_pass env nrows ncols st2 = Ok st2'
    /\ p1_pixel_mask st2' = p1_pixel_mask st'.
Proof.
  intros Hlen Hrun Hsame.
  destruct (first_pass_pointwise env nrows ncols st st' Hlen Hrun)
    as [Hlen' Hcell].
  destruct (for_rows_total _ _ _ _ _ _ Hrun st2) as [st2' Hrun2].
  fold (first_pass env nrows ncols st2) in Hrun2.
  exists st2'. split; [assumption|].
  assert (Hlen2 : length (p1_pixel_mask st2) = (nrows * ncols)%nat)
    by (rewrite Hsame; assumption).
  destruct (first_pass_pointwise env nrows ncols st2 st2' Hlen2 Hrun2)
    as [Hlen2' Hcell2].
  apply (list_total_ext _ _ (nrows * ncols)); [assumption..|].
  intros i Hi.
  destruct (pixel_index_split nrows ncols i Hi) as (r & c & Hr & Hc & ->).
  destruct (Hcell r c Hr Hc) as (line & Hread & Hrel).
  destruct (Hcell2 r c Hr Hc) as (line2 & Hread2 & Hrel2).
  assert (line2 = line) as -> by congruence.
  rewrite Hsame in Hrel2. unfold first_pass_cell in Hrel, Hrel2.
  destruct (is_fill _); [congruence|].
  destruct Hrel as [w E], Hrel2 as [w2 E2].
  rewrite E2, E. apply first_pass_pixel_idempotent.
Qed.

Lemma first_pass_idempotent_witness :
  exists st2',
    first_pass (demo_env [wet_cloud_px; veg_px] 2) 1 2
               (p1_init 2 (p1_pixel_mask (demo_first_pass [wet_cloud_px; veg_px])))
    = Ok st2'
    /\ p1_pixel_mask st2' = p1_pixel_mask (demo_first_pass [wet_cloud_px; veg_px]).
Proof.
  apply (first_pass_idempotent (demo_env [wet_cloud_px; veg_px] 2) 1 2
           (p1_init 2 [0; 0]) (demo_first_pass [wet_cloud_px; veg_px])).
  - reflexivity.
  - vm_compute. reflexivity.
  - reflexivity.
Defined.

(** ** Pass 2: what the percentile routine is handed *)

Lemma wrap16_range (x : Z) : int16_range (wrap16 x).
Proof.
  unfold int16_range, wrap16, SHRT_MIN, SHRT_MAX.
  pose proof (Z.mod_pos_bound (x + 32768) 65536). lia.
Qed.

Lemma nth_int16 (l : list Z) (c : nat) :
  Forall int16_range l -> int16_range (nth c l 0).
Proof.
  intros H. revert c. induction H as [|x l Hx _ IH]; intros [|c]; cbn;
    try assumption; try apply IH;
    unfold int16_range, SHRT_MIN, SHRT_MAX; lia.
Qed.

Lemma saturate_int16 (ref max v : Z) :
  int16_range v -> int16_range (saturate ref max v).
Proof.
  intros H. unfold saturate. destruct (v =? ref); [apply wrap16_range | assumption].
Qed.

Lemma thermal_samples_keep (n k : nat) (smp : list Z) (count : nat) (mn mx : Z) :
  thermal_samples n k smp count mn mx ->
  thermal_samples n (S k) smp count mn mx.
Proof.
  unfold thermal_samples. intros (H1 & H2 & H3 & H4 & H5).
  split; [lia|]. split; [assumption|]. split; [assumption|].
  split; assumption.
Qed.

Lemma thermal_samples_push (n k : nat) (smp : list Z) (count : nat)
      (mn mx t : Z) :
  (k < n)%nat -> int16_range t ->
  thermal_samples n k smp count mn mx ->
  thermal_samples n (S k) (<[count := t]> smp) (S count)
                  (if mn >? t then t else mn) (if mx <? t then t else mx).
Proof.
  unfold thermal_samples, enclosed. intros Hk Ht (H1 & H2 & H3 & H4 & H5).
  split; [lia|]. split; [rewrite length_insert; assumption|].
  assert (Hnew : <[count := t]> smp !!! count = t)
    by (apply list_lookup_total_insert_eq; lia).
  split; [|split].
  - intros j Hj. destruct (Nat.eq_dec j count) as [->|Hne].
    + rewrite Hnew. assumption.
    + rewrite list_lookup_total_insert_ne by congruence. apply H3. lia.
  - intros j Hj. destruct (Nat.eq_dec j count) as [->|Hne].
    + rewrite Hnew. destruct (Z.gtb_spec mn t), (Z.ltb_spec mx t).
      * lia.
      * destruct count as [|count'].
        -- destruct H5 as [-> ->]; [reflexivity|].
           unfold int16_range, SHRT_MIN, SHRT_MAX in *. lia.
        -- specialize (H4 0%nat ltac:(lia)). lia.
      * destruct count as [|count'].
        -- destruct H5 as [-> ->]; [reflexivity|].
           unfold int16_range, SHRT_MIN, SHRT_MAX in *. lia.
        -- specialize (H4 0%nat ltac:(lia)). lia.
      * destruct count as [|count'].
        -- destruct H5 as [-> ->]; [reflexivity|].
           unfold int16_range, SHRT_MIN, SHRT_MAX in *. lia.
        -- specialize (H4 0%nat ltac:(lia)). lia.
    + rewrite list_lookup_total_insert_ne by congruence.
      specialize (H4 j ltac:(lia)).
      destruct (Z.gtb_spec mn t), (Z.ltb_spec mx t); lia.
  - intros H. discriminate H.
Qed.

(** A bound replaced because it sat at its sentinel still encloses the
    samples. *)
Lemma thermal_samples_bounds (n k : nat) (smp : list Z) (count : nat)
      (mn mx : Z) :
  thermal_samples n k smp count mn mx ->
  enclosed smp count (lower_bound mn) (upper_bound mx)
  /\ (count = 0%nat -> lower_bound mn = 0 /\ upper_bound mx = 0).
Proof.
  unfold thermal_samples, enclosed, lower_bound, upper_bound.
  intros (H1 & H2 & H3 & H4 & H5). split.
  - intros j Hj. specialize (H3 j Hj). specialize (H4 j Hj).
    unfold int16_range, SHRT_MIN, SHRT_MAX in *.
    destruct (Z.eqb_spec mn 32767), (Z.eqb_spec mx (-32768)); lia.
  - intros H0. destruct (H5 H0) as [-> ->]. split; reflexivity.
Qed.

(** X5. Pass 2 hands [prctile] sound arguments: on [int16] thermal lines,
    each of its two sample counts is at most the number of pixels (the
    size of the buffer), every sample gathered lies between the lower and
    the upper bound handed over (the bounds after the sentinels have been
    replaced by 0), and both bounds are 0 when no sample was gathered. *)
Theorem second_pass_bounds (env : env_t) (nrows ncols : nat)
        (clear_mask : list Z) (land_bit water_bit : Z) (s2 : p2_state) :
  therm_lines_int16 env P2 ->
  second_pass env nrows ncols clear_mask land_bit water_bit = Ok s2 ->
  ((land_count s2 <= nrows * ncols)%nat
   /\ length (f_temp s2) = (nrows * ncols)%nat
   /\ enclosed (f_temp s2) (land_count s2) (lower_bound (f_temp_min s2))
               (upper_bound (f_temp_max s2))
   /\ (land_count s2 = 0%nat ->
       lower_bound (f_temp_min s2) = 0 /\ upper_bound (f_temp_max s2) = 0))
  /\ ((water_count s2 <= nrows * ncols)%nat
      /\ length (f_wtemp s2) = (nrows * ncols)%nat
      /\ enclosed (f_wtemp s2) (water_count s2) (lower_bound (f_wtemp_min s2))
                  (upper_bound (f_wtemp_max s2))
      /\ (water_count s2 = 0%nat ->
          lower_bound (f_wtemp_min s2) = 0 /\ upper_bound (f_wtemp_max s2) = 0)).
Proof.
  intros Hlines Hrun. unfold second_pass in Hrun.
  apply (sweep_steps
           (fun k s =>
              (k <= nrows * ncols)%nat
              /\ thermal_samples (nrows * ncols) k (f_temp s) (land_count s)
                   (f_temp_min s) (f_temp_max s)
              /\ thermal_samples (nrows * ncols) k (f_wtemp s) (water_count s)
                   (f_wtemp_min s) (f_wtemp_max s))
           ncols nrows (read_therm_row env P2)
           (second_pass_body (meta env) clear_mask land_bit water_bit))
    in Hrun.
  - destruct Hrun as (_ & Hl & Hw).
    pose proof (thermal_samples_bounds _ _ _ _ _ _ Hl) as [Hl1 Hl2].
    pose proof (thermal_samples_bounds _ _ _ _ _ _ Hw) as [Hw1 Hw2].
    destruct Hl as (Hlc & Hll & _), Hw as (Hwc & Hwl & _).
    split; (split; [assumption|]); (split; [assumption|]); split; assumption.
  - intros line r c st Hr Hc Hread (Hk & Hl & Hw).
    assert (Hlt : (r * ncols + c < nrows * ncols)%nat) by nia.
    split; [lia|].
    assert (Ht : int16_range
                   (saturate (therm_satu_value_ref (meta env))
                      (therm_satu_value_max (meta env)) (therm_at line c))).
    { apply saturate_int16. unfold therm_at. apply nth_int16.
      unfold read_therm_row in Hread.
      destruct (GetInputThermLine env P2 r) as [th|] eqn:Hth; [|discriminate].
      injection Hread as <-. cbn [therm_buf]. apply (Hlines r th Hth). }
    unfold second_pass_body.
    destruct (mask_test (clear_mask !!! (r * ncols + c)%nat) CF_CLEAR_FILL_BIT).
    { split; apply thermal_samples_keep; assumption. }
    destruct (mask_test (clear_mask !!! (r * ncols + c)%nat) land_bit),
      (mask_test (clear_mask !!! (r * ncols + c)%nat) water_bit);
      cbn [f_temp f_temp_min f_temp_max land_count f_wtemp f_wtemp_min
           f_wtemp_max water_count];
      split;
      first [ apply thermal_samples_push; assumption
            | apply thermal_samples_keep; assumption ].
  - split; [lia|]. unfold thermal_samples, enclosed.
    cbn [f_temp f_temp_min f_temp_max land_count f_wtemp f_wtemp_min
         f_wtemp_max water_count].
    rewrite length_replicate.
    repeat split; try lia; intros j Hj; lia.
Qed.

Lemma demo_env_int16 (img : list pixel) (ncols : nat) (p : pass_id) :
  Forall (fun px => int16_range (therm px)) img ->
  therm_lines_int16 (demo_env img ncols) p.
Proof.
  intros H row line Hline. cbn in Hline. injection Hline as <-.
  apply Forall_map. unfold scan_line. apply Forall_take, Forall_drop.
  assumption.
Qed.

Lemma second_pass_bounds_witness :
  ((land_count demo_second_pass <= 1 * 2)%nat
   /\ length (f_temp demo_second_pass) = (1 * 2)%nat
   /\ enclosed (f_temp demo_second_pass) (land_count demo_second_pass)
               (lower_bound (f_temp_min demo_second_pass))
               (upper_bound (f_temp_max demo_second_pass))
   /\ (land_count demo_second_pass = 0%nat ->
       lower_bound (f_temp_min demo_second_pass) = 0
       /\ upper_bound (f_temp_max demo_second_pass) = 0))
  /\ ((water_count demo_second_pass <= 1 * 2)%nat
      /\ length (f_wtemp demo_second_pass) = (1 * 2)%nat
      /\ enclosed (f_wtemp demo_second_pass) (water_count demo_second_pass)
                  (lower_bound (f_wtemp_min demo_second_pass))
                  (upper_bound (f_wtemp_max demo_second_pass))
      /\ (water_count demo_second_pass = 0%nat ->
          lower_bound (f_wtemp_min demo_second_pass) = 0
          /\ upper_bound (f_wtemp_max demo_second_pass) = 0)).
Proof.
  apply (second_pass_bounds (demo_env [veg_px; water_px] 2) 1 2
           (p1_clear_mask (demo_first_pass [veg_px; water_px]))
           CF_CLEAR_LAND_BIT CF_CLEAR_WATER_BIT demo_second_pass).
  - apply demo_env_int16.
    repeat constructor; unfold int16_range, SHRT_MIN, SHRT_MAX; cbn; lia.
  - vm_compute. reflexivity.
Defined.

(** ** Pass 3: the two probability surfaces *)

(** X6. After pass 3 the two probability surfaces are complementary: a
    pixel whose FILL bit is set keeps 0 in both (the buffers are zeroed
    when they are allocated), a water pixel has 0 in [final_prob] and its
    water probability in [wfinal_prob], and any other pixel has its land
    probability in [final_prob] and 0 in [wfinal_prob]. *)
Theorem third_pass_surfaces (env : env_t) (nrows ncols : nat)
        (pixel_mask : list Z) (t_temph temp_l t_wtemp : F32.t)
        (s3 : p3_state) (r c : nat) :
  third_pass env nrows ncols pixel_mask t_temph temp_l t_wtemp = Ok s3 ->
  (r < nrows)%nat -> (c < ncols)%nat ->
  exists line,
    read_row env P3 r = Some line
    /\ let i := (r * ncols + c)%nat in
       let px := saturate_p3 (meta env) (raw_pixel line c) in
       p3_cells s3 i
       = if mask_test (pixel_mask !!! i) CF_FILL_BIT then (f32_zero, f32_zero)
         else if mask_test (pixel_mask !!! i) CF_WATER_BIT
              then (f32_zero, wfinal_prob_of t_wtemp px)
              else (final_prob_of (meta env) t_temph temp_l px, f32_zero).
Proof.
  intros Hrun Hr Hc. unfold third_pass in Hrun.
  apply (sweep_pointwise p3_cells
           (fun s => length (final_prob s) = (nrows * ncols)%nat
                     /\ length (wfinal_prob s) = (nrows * ncols)%nat)
           ncols nrows (read_row env P3)
           (third_pass_body (meta env) pixel_mask t_temph temp_l t_wtemp)
           (fun line r c v v' =>
              v' = if mask_test (pixel_mask !!! (r * ncols + c)%nat) CF_FILL_BIT
                   then v
                   else if mask_test (pixel_mask !!! (r * ncols + c)%nat)
                                     CF_WATER_BIT
                        then (f32_zero,
                              wfinal_prob_of t_wtemp
                                (saturate_p3 (meta env) (raw_pixel line c)))
                        else (final_prob_of (meta env) t_temph temp_l
                                (saturate_p3 (meta env) (raw_pixel line c)),
                              f32_zero))) in Hrun.
  - destruct Hrun as [_ Hcell].
    destruct (Hcell r c Hr Hc) as (line & Hread & E).
    exists line. split; [assumption|]. cbn zeta. rewrite E.
    destruct (mask_test _ CF_FILL_BIT); [|reflexivity].
    unfold p3_cells. cbn [final_prob wfinal_prob].
    rewrite !lookup_total_replicate_2 by nia. reflexivity.
  - clear. intros line r c st Hr Hc _ [Hl1 Hl2].
    assert (Hi : (r * ncols + c < length (final_prob st))%nat) by nia.
    assert (Hj : (r * ncols + c < length (wfinal_prob st))%nat) by nia.
    unfold third_pass_body, p3_cells.
    destruct (mask_test (pixel_mask !!! (r * ncols + c)%nat) CF_FILL_BIT).
    { split; [split; assumption|]. split; reflexivity. }
    destruct (mask_test (pixel_mask !!! (r * ncols + c)%nat) CF_WATER_BIT);
      cbn [final_prob wfinal_prob];
      rewrite !length_insert, !list_lookup_total_insert_eq by assumption;
      (split; [split; assumption|]); (split; [reflexivity|]);
      intros q Hq; rewrite !list_lookup_total_insert_ne by congruence;
      reflexivity.
  - cbn [final_prob wfinal_prob]. rewrite !length_replicate. split; reflexivity.
Qed.

Lemma third_pass_surfaces_witness :
  exists line,
    read_row (demo_env [water_px; veg_px] 2) P3 0 = Some line
    /\ let i := (0 * 2 + 0)%nat in
       let px := saturate_p3 demo_meta (raw_pixel line 0) in
       p3_cells demo_third_pass i
       = if mask_test (p1_pixel_mask (demo_first_pass [water_px; veg_px]) !!! i)
                      CF_FILL_BIT
         then (f32_zero, f32_zero)
         else if mask_test (p1_pixel_mask (demo_first_pass [water_px; veg_px]) !!! i)
                           CF_WATER_BIT
              then (f32_zero, wfinal_prob_of (F32.of_Z 2900) px)
              else (final_prob_of demo_meta (F32.of_Z 3000) (F32.of_Z 1000) px,
                    f32_zero).
Proof.
  apply (third_pass_surfaces (demo_env [water_px; veg_px] 2) 1 2
           (p1_pixel_mask (demo_first_pass [water_px; veg_px]))
           (F32.of_Z 3000) (F32.of_Z 1000) (F32.of_Z 2900) demo_third_pass 0 0).
  - vm_compute. reflexivity.
  - lia.
  - lia.
Defined.

(** ** Pass 4 on a pixel pass 1 left clear *)

(** X7. A non-fill pixel that reaches pass 4 without CLOUD never gets
    medium confidence: it gets HIGH, and CLOUD, exactly when its thermal
    sample is below [t_templ + 400 - 3500], and LOW, with CLOUD still
    clear, otherwise. The probabilities play no part for it. *)
Theorem fourth_pass_clear_pixel (env : env_t) (nrows ncols : nat)
        (fp wfp : list F32.t) (clr_mask wclr_mask tl : F32.t)
        (st st' : masks) (r c : nat) :
  length (pixel_mask st) = (nrows * ncols)%nat ->
  length (conf_mask st) = (nrows * ncols)%nat ->
  fourth_pass env nrows ncols fp wfp clr_mask wclr_mask tl st = Ok st' ->
  (r < nrows)%nat -> (c < ncols)%nat ->
  let i := (r * ncols + c)%nat in
  mask_test (pixel_mask st !!! i) CF_FILL_BIT = false ->
  mask_test (pixel_mask st !!! i) CF_CLOUD_BIT = false ->
  exists line,
    read_therm_row env P4 r = Some line
    /\ let cold := cold_test tl (saturate (therm_satu_value_ref (meta env))
                                   (therm_satu_value_max (meta env))
                                   (therm_at line c)) in
       conf_mask st' !!! i
       = (if cold then CLOUD_CONFIDENCE_HIGH else CLOUD_CONFIDENCE_LOW)
       /\ mask_test (pixel_mask st' !!! i) CF_CLOUD_BIT = cold.
Proof.
  intros Hpm Hcm Hrun Hr Hc i Hfill Hcloud.
  destruct (fourth_pass_pointwise env nrows ncols fp wfp clr_mask wclr_mask tl
              st st' Hpm Hcm Hrun) as [_ Hcell].
  destruct (Hcell r c Hr Hc) as (line & Hread & Heq).
  exists line. split; [assumption|]. cbn zeta.
  unfold fourth_pass_cell, cells in Heq. cbn [fst snd] in Heq.
  fold i in Heq. rewrite Hfill in Heq.
  pose proof (fourth_pass_pixel_spec (pixel_mask st !!! i) (fp !!! i) (wfp !!! i)
                clr_mask wclr_mask tl
                (saturate (therm_satu_value_ref (meta env))
                   (therm_satu_value_max (meta env)) (therm_at line c)))
    as (Hconf & Hcl & _).
  destruct (fourth_pass_pixel _ _ _ _ _ _ _) as [cf m'].
  injection Heq as Hm Hcf. cbn [fst snd] in Hconf, Hcl.
  rewrite Hm, Hcf, Hcl, Hconf.
  unfold spec_high, spec_med, spec_confidence, cold_test.
  rewrite Hcloud. cbn [andb orb]. change t_buffer with 400.
  destruct (F32.ltb _ _); split; reflexivity.
Qed.

Lemma fourth_pass_clear_pixel_witness :
  exists line,
    read_therm_row (demo_env [cloud_px; veg_px] 2) P4 0 = Some line
    /\ let cold := cold_test (F32.of_Z 500)
                     (saturate (therm_satu_value_ref demo_meta)
                        (therm_satu_value_max demo_meta) (therm_at line 1)) in
       conf_mask demo_p4_out !!! (0 * 2 + 1)%nat
       = (if cold then CLOUD_CONFIDENCE_HIGH else CLOUD_CONFIDENCE_LOW)
       /\ mask_test (pixel_mask demo_p4_out !!! (0 * 2 + 1)%nat) CF_CLOUD_BIT
          = cold.
Proof.
  apply (fourth_pass_clear_pixel (demo_env [cloud_px; veg_px] 2) 1 2
           demo_final_prob demo_wfinal_prob demo_threshold demo_threshold
           (F32.of_Z 500) demo_p4_in demo_p4_out 0 1).
  - reflexivity.
  - reflexivity.
  - vm_compute. reflexivity.
  - lia.
  - lia.
  - vm_compute. reflexivity.
  - vm_compute. reflexivity.
Defined.

(** ** Pass 6: the shadow bit *)

Lemma sixth_pass_pixel_shadow (m fn fs n s : Z) :
  mask_test (sixth_pass_pixel m fn fs n s) CF_SHADOW_BIT = shadow_test fn fs n s.
Proof.
  unfold sixth_pass_pixel, shadow_test. cbn zeta. flags_as_powers.
  match goal with
  | |- context [if ?b then mask_andnot _ _ else _] => destruct b
  end; flag_reads; reflexivity.
Qed.

(** X8. After pass 6 the SHADOW bit of every pixel whose FILL bit is
    clear is the outcome of the shadow test (the smaller of the two
    16-bit differences filled - original above 200), whatever it was
    before, and the [conf_mask] cell of such a pixel is untouched; a pixel
    whose FILL bit is set keeps its [pixel_mask] cell and gets
    [CF_FILL_PIXEL] in [conf_mask]. *)
Theorem sixth_pass_shadow (env : env_t) (nrows ncols : nat)
        (filled_nir_data filled_swir1_data : list Z) (st st' : masks)
        (r c : nat) :
  length (pixel_mask st) = (nrows * ncols)%nat ->
  length (conf_mask st) = (nrows * ncols)%nat ->
  sixth_pass env nrows ncols filled_nir_data filled_swir1_data st = Ok st' ->
  (r < nrows)%nat -> (c < ncols)%nat ->
  exists line,
    read_row env P6 r = Some line
    /\ let i := (r * ncols + c)%nat in
       let n := saturate (satu_value_ref (meta env) BI_NIR)
                         (satu_value_max (meta env) BI_NIR)
                         (band_at line BI_NIR c) in
       let s := saturate (satu_value_ref (meta env) BI_SWIR_1)
                         (satu_value_max (meta env) BI_SWIR_1)
                         (band_at line BI_SWIR_1 c) in
       if mask_test (pixel_mask st !!! i) CF_FILL_BIT
       then pixel_mask st' !!! i = pixel_mask st !!! i
            /\ conf_mask st' !!! i = CF_FILL_PIXEL
       else mask_test (pixel_mask st' !!! i) CF_SHADOW_BIT
            = shadow_test (filled_nir_data !!! i) (filled_swir1_data !!! i) n s
            /\ conf_mask st' !!! i = conf_mask st !!! i.
Proof.
  intros Hpm Hcm Hrun Hr Hc.
  destruct (sixth_pass_pointwise env nrows ncols filled_nir_data
              filled_swir1_data st st' Hpm Hcm Hrun) as [_ Hcell].
  destruct (Hcell r c Hr Hc) as (line & Hread & Heq).
  exists line. split; [assumption|]. cbn zeta.
  unfold sixth_pass_cell, cells in Heq. cbn [fst snd] in Heq.
  destruct (mask_test (pixel_mask st !!! (r * ncols + c)%nat) CF_FILL_BIT);
    injection Heq as Hm Hcf; rewrite Hm, Hcf.
  - split; reflexivity.
  - split; [apply sixth_pass_pixel_shadow | reflexivity].
Qed.

Lemma sixth_pass_shadow_witness :
  exists line,
    read_row (demo_env [wet_cloud_px; veg_px] 2) P6 0 = Some line
    /\ let i := (0 * 2 + 0)%nat in
       let n := saturate (satu_value_ref demo_meta BI_NIR)
                         (satu_value_max demo_meta BI_NIR)
                         (band_at line BI_NIR 0) in
       let s := saturate (satu_value_ref demo_meta BI_SWIR_1)
                         (satu_value_max demo_meta BI_SWIR_1)
                         (band_at line BI_SWIR_1 0) in
       if mask_test (pixel_mask demo_p6_in !!! i) CF_FILL_BIT
       then pixel_mask demo_p6_out !!! i = pixel_mask demo_p6_in !!! i
            /\ conf_mask demo_p6_out !!! i = CF_FILL_PIXEL
       else mask_test (pixel_mask demo_p6_out !!! i) CF_SHADOW_BIT
            = shadow_test (demo_filled_nir !!! i) (demo_filled_swir1 !!! i) n s
            /\ conf_mask demo_p6_out !!! i = conf_mask demo_p6_in !!! i.
Proof.
  apply (sixth_pass_shadow (demo_env [wet_cloud_px; veg_px] 2) 1 2
           demo_filled_nir demo_filled_swir1 demo_p6_in demo_p6_out 0 0).
  - reflexivity.
  - reflexivity.
  - vm_compute. reflexivity.
  - lia.
  - lia.
Defined.

(** ** The confidence mask at the return *)

(** X9. A run that returns SUCCESS through passes 2 to 6 has written
    every cell of [conf_mask]: [CF_FILL_PIXEL] where the FILL bit of
    [pixel_mask] is set, and elsewhere HIGH with CLOUD set, or MED or LOW
    with CLOUD cleared. No cell keeps the value the caller handed in. *)
Theorem confidence_written_everywhere (env : env_t) (nrows ncols : nat)
        (thr : F32.t) (o : io_t) :
  length (pixel_mask (io_masks o)) = (nrows * ncols)%nat ->
  length (conf_mask (io_masks o)) = (nrows * ncols)%nat ->
  let out := potential_cloud_shadow_snow_mask env nrows ncols thr o in
  status out = SUCCESS ->
  all_cloud_test (clear_ptm (io out)) = false ->
  forall p, (p < nrows * ncols)%nat ->
    let m := pixel_mask (io_masks (io out)) !!! p in
    let cf := conf_mask (io_masks (io out)) !!! p in
    if mask_test m CF_FILL_BIT then cf = CF_FILL_PIXEL
    else (cf = CLOUD_CONFIDENCE_HIGH /\ mask_test m CF_CLOUD_BIT = true)
         \/ ((cf = CLOUD_CONFIDENCE_MED \/ cf = CLOUD_CONFIDENCE_LOW)
             /\ mask_test m CF_CLOUD_BIT = false).
Proof.
  intros Hpm Hcm out Hok Hfull p Hp.
  destruct (run_success env nrows ncols thr o Hok) as (s1 & H1 & _ & Hcase).
  fold out in Hcase. rewrite Hfull in Hcase.
  destruct Hcase as (tl0 & th0 & fp & wfp & clr & wclr & m4 & fn & fs
                     & _ & _ & _ & H4 & H6).
  destruct (first_pass_pointwise env nrows ncols
              (p1_init (nrows * ncols) (pixel_mask (io_masks o))) s1 Hpm H1)
    as [Hlen1 _].
  destruct (pixel_index_split nrows ncols p Hp) as (r & c & Hr & Hc & ->).
  destruct (full_path_cells env nrows ncols fp wfp clr wclr _ fn fs
              {| pixel_mask := p1_pixel_mask s1;
                 conf_mask := conf_mask (io_masks o) |} m4 _ r c
              Hlen1 Hcm H4 H6 Hr Hc) as (l4 & l6 & E).
  cbn zeta.
  change (pixel_mask (io_masks (io out)) !!! (r * ncols + c)%nat)
    with (fst (cells (io_masks (io out)) (r * ncols + c))).
  change (conf_mask (io_masks (io out)) !!! (r * ncols + c)%nat)
    with (snd (cells (io_masks (io out)) (r * ncols + c))).
  rewrite !E. clear E.
  set (v1 := cells _ _).
  flags_as_powers.
  rewrite !sixth_pass_cell_frame, !fourth_pass_cell_frame by lia.
  destruct (mask_test (fst v1) (2 ^ 0)) eqn:Hfill.
  - rewrite fourth_pass_cell_fill, sixth_pass_cell_fill by exact Hfill.
    reflexivity.
  - unfold fourth_pass_cell. change CF_FILL_BIT with (2 ^ 0). rewrite Hfill.
    pose proof (fourth_pass_pixel_spec (fst v1)
                  (fp !!! (r * ncols + c)%nat) (wfp !!! (r * ncols + c)%nat)
                  clr wclr (t_templ (io out))
                  (saturate (therm_satu_value_ref (meta env))
                     (therm_satu_value_max (meta env)) (therm_at l4 c)))
      as (Hconf & Hcl & Hframe).
    destruct (fourth_pass_pixel _ _ _ _ _ _ _) as [cf m']. cbn [fst snd] in *.
    unfold sixth_pass_cell. change CF_FILL_BIT with (2 ^ 0).
    cbn [fst snd]. rewrite (Hframe 0) by lia. rewrite Hfill. cbn [fst snd].
    rewrite Hconf. change CF_CLOUD_BIT with (2 ^ 1) in Hcl. rewrite Hcl.
    unfold spec_confidence.
    destruct (spec_high _ _ _ _ _ _ _); [left; split; reflexivity|].
    right. destruct (spec_med _ _ _ _ _); split; auto.
Qed.

Lemma confidence_written_everywhere_witness :
  if mask_test (pixel_mask (io_masks (io (demo_run [wet_cloud_px; veg_px])))
                  !!! 1%nat) CF_FILL_BIT
  then conf_mask (io_masks (io (demo_run [wet_cloud_px; veg_px]))) !!! 1%nat
       = CF_FILL_PIXEL
  else (conf_mask (io_masks (io (demo_run [wet_cloud_px; veg_px]))) !!! 1%nat
        = CLOUD_CONFIDENCE_HIGH
        /\ mask_test (pixel_mask (io_masks (io (demo_run [wet_cloud_px; veg_px])))
                        !!! 1%nat) CF_CLOUD_BIT = true)
       \/ ((conf_mask (io_masks (io (demo_run [wet_cloud_px; veg_px]))) !!! 1%nat
            = CLOUD_CONFIDENCE_MED
            \/ conf_mask (io_masks (io (demo_run [wet_cloud_px; veg_px])))
                 !!! 1%nat = CLOUD_CONFIDENCE_LOW)
           /\ mask_test (pixel_mask
                           (io_masks (io (demo_run [wet_cloud_px; veg_px])))
                           !!! 1%nat) CF_CLOUD_BIT = false).
Proof.
  apply (confidence_written_everywhere (demo_env [wet_cloud_px; veg_px] 2) 1 2
           demo_threshold (demo_io 2)).
  - reflexivity.
  - reflexivity.
  - vm_compute. reflexivity.
  - vm_compute. reflexivity.
  - lia.
Defined.

(** ** The samples of the dynamic thresholds *)

(** X10. The sample a gathering loop hands to [prctile2] is, in pixel
    order, the probability of every pixel that is not fill and has the
    selecting bit in [clear_mask]: the count is the number of such
    pixels, at most the size of the buffer, and the first [count] cells
    of the buffer are their probabilities. *)
Theorem gather_samples (pixel_count : nat) (clear_mask : list Z) (bit : Z)
        (src : list F32.t) :
  let g := gather pixel_count clear_mask bit src in
  let chosen := List.filter (gather_selected clear_mask bit) (seq 0 pixel_count) in
  prob_count g = length chosen
  /\ (prob_count g <= pixel_count)%nat
  /\ length (prob g) = pixel_count
  /\ take (prob_count g) (prob g) = map (fun i => src !!! i) chosen.
Proof.
  cbn zeta. unfold gather.
  pose proof (for_cols_steps
                (fun k st =>
                   prob_count st
                   = length (List.filter (gather_selected clear_mask bit) (seq 0 k))
                   /\ (prob_count st <= k)%nat
                   /\ length (prob st) = pixel_count
                   /\ take (prob_count st) (prob st)
                      = map (fun i => src !!! i)
                            (List.filter (gather_selected clear_mask bit) (seq 0 k)))
                0 pixel_count (gather_body clear_mask bit src)) as H.
  cbn [Nat.add] in H.
  match type of H with
  | ?A -> _ => assert (Hbody : A); [clear H | specialize (H Hbody pixel_count 0%nat);
                                     cbn [Nat.add] in H; apply H; clear H Hbody]
  end.
  - intros c st Hc (Hn & Hle & Hlen & Htake).
    rewrite seq_S, List.filter_app, map_app, length_app. cbn [Nat.add List.filter].
    assert (Hsel : gather_selected clear_mask bit c
                   = negb (mask_test (clear_mask !!! c) CF_CLEAR_FILL_BIT)
                     && mask_test (clear_mask !!! c) bit) by reflexivity.
    unfold gather_body.
    destruct (mask_test (clear_mask !!! c) CF_CLEAR_FILL_BIT);
      cbn [negb andb] in Hsel.
    { rewrite Hsel. cbn [map length]. rewrite !app_nil_r, Nat.add_0_r.
      repeat split; try assumption. lia. }
    rewrite Hsel.
    destruct (mask_test (clear_mask !!! c) bit).
    + cbn [prob prob_count map length]. split; [lia|]. split; [lia|].
      split; [rewrite length_insert; assumption|].
      rewrite (take_S_r _ _ (src !!! c))
        by (apply list_lookup_insert_eq; lia).
      rewrite take_insert_ge by lia. rewrite Htake. reflexivity.
    + cbn [map length]. rewrite !app_nil_r, Nat.add_0_r.
      repeat split; try assumption. lia.
  - lia.
  - cbn [prob prob_count seq List.filter map length]. rewrite length_replicate.
    repeat split; lia.
Qed.

(** ** Pass 5: samples and rasters *)

Lemma reflectance_samples_keep (n k : nat) (smp : list Z) (count : nat)
      (mn mx : Z) :
  reflectance_samples n k smp count mn mx ->
  reflectance_samples n (S k) smp count mn mx.
Proof.
  unfold reflectance_samples. intros (H1 & H2 & H3 & H4).
  split; [lia|]. split; [assumption|]. split; assumption.
Qed.

Lemma reflectance_samples_push (n k : nat) (smp : list Z) (count : nat)
      (mn mx t : Z) :
  (k < n)%nat ->
  reflectance_samples n k smp count mn mx ->
  reflectance_samples n (S k) (<[count := t]> smp) (S count)
                      (if t <? mn then t else mn) (if t >? mx then t else mx).
Proof.
  unfold reflectance_samples, enclosed. intros Hk (H1 & H2 & H3 & H4).
  split; [lia|]. split; [rewrite length_insert; assumption|]. split.
  - intros j Hj. destruct (Nat.eq_dec j count) as [->|Hne].
    + rewrite list_lookup_total_insert_eq by lia.
      destruct (Z.ltb_spec t mn), (Z.gtb_spec t mx); lia.
    + rewrite list_lookup_total_insert_ne by congruence.
      specialize (H3 j ltac:(lia)).
      destruct (Z.ltb_spec t mn), (Z.gtb_spec t mx); lia.
  - destruct (Z.ltb_spec t mn), (Z.gtb_spec t mx); lia.
Qed.

(** X11. Pass 5 hands [prctile] sound arguments: the NIR and the SWIR1
    sample counts are equal and at most the number of pixels (the size
    of the two buffers), every sample gathered lies between the running
    minimum and maximum, and these enclose 0, the value both start
    from. *)
Theorem fifth_pass_samples (env : env_t) (nrows ncols : nat)
        (clear_mask : list Z) (land_bit : Z) (s5 : p5_state) :
  fifth_pass env nrows ncols clear_mask land_bit = Ok s5 ->
  nir_count s5 = swir1_count s5
  /\ (nir_count s5 <= nrows * ncols)%nat
  /\ (length (nir_smp s5) = (nrows * ncols)%nat
      /\ enclosed (nir_smp s5) (nir_count s5) (nir_min s5) (nir_max s5)
      /\ nir_min s5 <= 0 <= nir_max s5)
  /\ (length (swir1_smp s5) = (nrows * ncols)%nat
      /\ enclosed (swir1_smp s5) (swir1_count s5) (swir1_min s5) (swir1_max s5)
      /\ swir1_min s5 <= 0 <= swir1_max s5).
Proof.
  intros Hrun. unfold fifth_pass in Hrun. cbn zeta in Hrun.
  apply (for_rows_steps
           (fun k s =>
              (k <= nrows * ncols)%nat
              /\ nir_count s = swir1_count s
              /\ reflectance_samples (nrows * ncols) k (nir_smp s) (nir_count s)
                   (nir_min s) (nir_max s)
              /\ reflectance_samples (nrows * ncols) k (swir1_smp s)
                   (swir1_count s) (swir1_min s) (swir1_max s))
           ncols nrows (read_refl_row env P5)
           (fifth_pass_row (meta env) clear_mask land_bit ncols))
    with (n := nrows) (r0 := 0%nat) in Hrun.
  - cbn [Nat.add] in Hrun. destruct Hrun as (_ & Heq & Hn & Hs).
    unfold reflectance_samples in Hn, Hs.
    destruct Hn as (Hn1 & Hn2 & Hn3 & Hn4), Hs as (Hs1 & Hs2 & Hs3 & Hs4).
    split; [assumption|]. split; [assumption|].
    split; (split; [assumption|]); split; assumption.
  - intros line r st Hr Hread Hst. unfold fifth_pass_row. cbn zeta.
    cbn [nir_smp nir_max nir_min nir_count swir1_smp swir1_max swir1_min
         swir1_count].
    replace (r * ncols + ncols)%nat with (r * ncols + 0 + ncols)%nat by lia.
    apply (for_cols_steps
             (fun k s =>
                (k <= nrows * ncols)%nat
                /\ nir_count s = swir1_count s
                /\ reflectance_samples (nrows * ncols) k (nir_smp s) (nir_count s)
                     (nir_min s) (nir_max s)
                /\ reflectance_samples (nrows * ncols) k (swir1_smp s)
                     (swir1_count s) (swir1_min s) (swir1_max s))
             (r * ncols) ncols); [|lia|rewrite Nat.add_0_r; exact Hst].
    intros c s Hc (Hk & Heq & Hn & Hs).
    assert (Hlt : (r * ncols + c < nrows * ncols)%nat) by nia.
    split; [lia|]. unfold fifth_pass_body.
    destruct (mask_test (clear_mask !!! (r * ncols + c)%nat) CF_CLEAR_FILL_BIT).
    { split; [assumption|]. split; apply reflectance_samples_keep; assumption. }
    cbn zeta.
    destruct (mask_test (clear_mask !!! (r * ncols + c)%nat) land_bit);
      cbn [nir_smp nir_max nir_min nir_count swir1_smp swir1_max swir1_min
           swir1_count].
    + split; [congruence|].
      split; apply reflectance_samples_push; assumption.
    + split; [assumption|].
      split; apply reflectance_samples_keep; assumption.
  - lia.
  - cbn [Nat.mul]. split; [lia|].
    cbn [nir_smp nir_max nir_min nir_count swir1_smp swir1_max swir1_min
         swir1_count].
    split; [reflexivity|]. unfold reflectance_samples, enclosed.
    rewrite length_replicate.
    split; (split; [lia|]); (split; [reflexivity|]); (split; [|lia]);
      intros j Hj; lia.
Qed.

Lemma fifth_pass_samples_witness :
  nir_count demo_fifth_pass = swir1_count demo_fifth_pass
  /\ (nir_count demo_fifth_pass <= 1 * 2)%nat
  /\ (length (nir_smp demo_fifth_pass) = (1 * 2)%nat
      /\ enclosed (nir_smp demo_fifth_pass) (nir_count demo_fifth_pass)
                  (nir_min demo_fifth_pass) (nir_max demo_fifth_pass)
      /\ nir_min demo_fifth_pass <= 0 <= nir_max demo_fifth_pass)
  /\ (length (swir1_smp demo_fifth_pass) = (1 * 2)%nat
      /\ enclosed (swir1_smp demo_fifth_pass) (swir1_count demo_fifth_pass)
                  (swir1_min demo_fifth_pass) (swir1_max demo_fifth_pass)
      /\ swir1_min demo_fifth_pass <= 0 <= swir1_max demo_fifth_pass).
Proof.
  apply (fifth_pass_samples (demo_env [fill_px; veg_px] 2) 1 2
           (p1_clear_mask (demo_first_pass [fill_px; veg_px]))
           CF_CLEAR_LAND_BIT demo_fifth_pass).
  vm_compute. reflexivity.
Defined.

Lemma nth_insert_eq (l : list Z) (i : nat) (v : Z) :
  (i < length l)%nat -> nth i (<[i := v]> l) 0 = v.
Proof.
  intros Hi. rewrite nth_lookup, list_lookup_insert_eq by assumption.
  reflexivity.
Qed.

Lemma nth_insert_ne (l : list Z) (i j : nat) (v : Z) :
  i <> j -> nth j (<[i := v]> l) 0 = nth j l 0.
Proof.
  intros Hne. rewrite !nth_lookup, list_lookup_insert_ne by assumption.
  reflexivity.
Qed.

(** [memcpy] writes the [n] cells from [offset] on and no other. *)
Lemma memcpy_cells (dst line : list Z) (offset n : nat) :
  (offset + n <= length dst)%nat ->
  length (memcpy dst offset line n) = length dst
  /\ (forall c, (c < n)%nat ->
        memcpy dst offset line n !!! (offset + c)%nat = nth c line 0)
  /\ (forall q, (q < offset \/ offset + n <= q)%nat ->
        memcpy dst offset line n !!! q = dst !!! q).
Proof.
  intros Hfit. unfold memcpy.
  destruct (for_cols_sweep (fun (d : list Z) q => d !!! q)
              (fun d => length d = length dst) offset n
              (fun c d => <[(offset + c)%nat := nth c line 0]> d)
              (fun c _ new => new = nth c line 0))
    with (n := n) (c0 := 0%nat) (st := dst) as (Hlen & Hin & Hout);
    [|lia|reflexivity|].
  - intros c d Hc Hd. split; [rewrite length_insert; assumption|]. split.
    + apply list_lookup_total_insert_eq. lia.
    + intros q Hq. apply list_lookup_total_insert_ne. congruence.
  - split; [assumption|]. split.
    + intros c Hc. apply Hin. lia.
    + intros q Hq. apply Hout. lia.
Qed.

(** The column loop of pass 5 leaves, in the two row buffers, the
    substituted sample of every pixel that is not fill and the sample
    read of every fill pixel; it does not touch the rasters. *)
Lemma fifth_pass_columns (m : meta_t) (clear_mask : list Z) (land_bit : Z)
      (ncols row : nat) (st : p5_state) :
  length (nir_line st) = ncols -> length (swir1_line st) = ncols ->
  let st' := for_cols (fun col => fifth_pass_body m clear_mask land_bit
                                    (row * ncols + col) col) ncols 0 st in
  nir_data st' = nir_data st /\ swir1_data st' = swir1_data st
  /\ forall c, (c < ncols)%nat ->
       nth c (nir_line st') 0
       = raster_cell (satu_value_ref m BI_NIR) (satu_value_max m BI_NIR)
                     (clear_mask !!! (row * ncols + c)%nat) (nth c (nir_line st) 0)
       /\ nth c (swir1_line st') 0
          = raster_cell (satu_value_ref m BI_SWIR_1) (satu_value_max m BI_SWIR_1)
                        (clear_mask !!! (row * ncols + c)%nat)
                        (nth c (swir1_line st) 0).
Proof.
  intros Hn Hs. cbn zeta.
  destruct (for_cols_sweep
              (fun (s : p5_state) q => (nth q (nir_line s) 0, nth q (swir1_line s) 0))
              (fun s => length (nir_line s) = ncols
                        /\ length (swir1_line s) = ncols
                        /\ nir_data s = nir_data st
                        /\ swir1_data s = swir1_data st)
              0 ncols
              (fun col => fifth_pass_body m clear_mask land_bit
                            (row * ncols + col) col)
              (fun c old new =>
                 new = (raster_cell (satu_value_ref m BI_NIR)
                          (satu_value_max m BI_NIR)
                          (clear_mask !!! (row * ncols + c)%nat) (fst old),
                        raster_cell (satu_value_ref m BI_SWIR_1)
                          (satu_value_max m BI_SWIR_1)
                          (clear_mask !!! (row * ncols + c)%nat) (snd old))))
    with (n := ncols) (c0 := 0%nat) (st := st)
    as ((_ & _ & Hd1 & Hd2) & Hin & _); [|lia|repeat split; assumption|].
  - intros c s Hc (Hl1 & Hl2 & Hd1 & Hd2). cbn [Nat.add fst snd].
    unfold fifth_pass_body, raster_cell.
    destruct (mask_test (clear_mask !!! (row * ncols + c)%nat) CF_CLEAR_FILL_BIT).
    { split; [repeat split; assumption|]. split; reflexivity. }
    cbn zeta.
    destruct (mask_test (clear_mask !!! (row * ncols + c)%nat) land_bit);
      cbn [nir_line swir1_line nir_data swir1_data];
      (split; [rewrite !length_insert; repeat split; assumption|]);
      (split; [rewrite !nth_insert_eq by lia; reflexivity|]);
      intros q Hq; rewrite !nth_insert_ne by congruence; reflexivity.
  - split; [assumption|]. split; [assumption|].
    intros c Hc. specialize (Hin c ltac:(lia)). cbn [Nat.add fst snd] in Hin.
    injection Hin as H1 H2. split; assumption.
Qed.

(** X12. The rasters pass 5 hands to the flood fill hold, at every pixel
    index, the sample read for that pixel, with the saturation sentinel
    replaced by the saturation maximum unless the pixel is fill: a fill
    pixel keeps the value the reader delivered. The reader is taken to
    deliver NIR and SWIR1 lines of [ncols] samples. *)
Theorem fifth_pass_rasters (env : env_t) (nrows ncols : nat)
        (clear_mask : list Z) (land_bit : Z) (s5 : p5_state) (r c : nat) :
  refl_lines_wide env P5 nrows ncols ->
  fifth_pass env nrows ncols clear_mask land_bit = Ok s5 ->
  (r < nrows)%nat -> (c < ncols)%nat ->
  exists line,
    read_refl_row env P5 r = Some line
    /\ nir_data s5 !!! (r * ncols + c)%nat
       = raster_cell (satu_value_ref (meta env) BI_NIR)
                     (satu_value_max (meta env) BI_NIR)
                     (clear_mask !!! (r * ncols + c)%nat) (band_at line BI_NIR c)
    /\ swir1_data s5 !!! (r * ncols + c)%nat
       = raster_cell (satu_value_ref (meta env) BI_SWIR_1)
                     (satu_value_max (meta env) BI_SWIR_1)
                     (clear_mask !!! (r * ncols + c)%nat)
                     (band_at line BI_SWIR_1 c).
Proof.
  intros Hwide Hrun Hr Hc. unfold fifth_pass in Hrun. cbn zeta in Hrun.
  destruct (for_rows_sweep
              (fun (s : p5_state) q => (nir_data s !!! q, swir1_data s !!! q))
              (fun s => length (nir_data s) = (nrows * ncols)%nat
                        /\ length (swir1_data s) = (nrows * ncols)%nat)
              ncols nrows (read_refl_row env P5)
              (fifth_pass_row (meta env) clear_mask land_bit ncols)
              (fun line r c _ new =>
                 new = (raster_cell (satu_value_ref (meta env) BI_NIR)
                          (satu_value_max (meta env) BI_NIR)
                          (clear_mask !!! (r * ncols + c)%nat)
                          (band_at line BI_NIR c),
                        raster_cell (satu_value_ref (meta env) BI_SWIR_1)
                          (satu_value_max (meta env) BI_SWIR_1)
                          (clear_mask !!! (r * ncols + c)%nat)
                          (band_at line BI_SWIR_1 c))))
    with (n := nrows) (r0 := 0%nat) (st' := s5)
         (st := {| nir_smp := replicate (nrows * ncols) 0; nir_max := 0;
                   nir_min := 0; nir_count := 0;
                   swir1_smp := replicate (nrows * ncols) 0; swir1_max := 0;
                   swir1_min := 0; swir1_count := 0;
                   nir_line := []; swir1_line := [];
                   nir_data := replicate (nrows * ncols) 0;
                   swir1_data := replicate (nrows * ncols) 0 |})
    as (_ & Hcells & _).
  - intros line r' st Hr' Hread (Hl1 & Hl2).
    destruct (Hwide r' line Hr' Hread) as [Hw1 Hw2].
    unfold fifth_pass_row. cbn zeta.
    match goal with
    | |- context [for_cols ?body ncols 0 ?s0] =>
        pose proof (fifth_pass_columns (meta env) clear_mask land_bit ncols r' s0
                      Hw1 Hw2) as Hcols;
        cbn zeta in Hcols;
        set (s1 := for_cols body ncols 0 s0) in *
    end.
    destruct Hcols as (Hd1 & Hd2 & Hline).
    cbn [nir_data swir1_data nir_line swir1_line] in Hd1, Hd2, Hline |- *.
    assert (Hfit : (r' * ncols + ncols <= nrows * ncols)%nat) by nia.
    destruct (memcpy_cells (nir_data s1) (nir_line s1) (r' * ncols) ncols)
      as (Hm1 & Hm2 & Hm3); [rewrite Hd1, Hl1; exact Hfit|].
    destruct (memcpy_cells (swir1_data s1) (swir1_line s1) (r' * ncols) ncols)
      as (Hm4 & Hm5 & Hm6); [rewrite Hd2, Hl2; exact Hfit|].
    split; [split; congruence|]. split.
    + intros c' Hc'. rewrite Hm2, Hm5 by assumption.
      destruct (Hline c' Hc') as [-> ->]. reflexivity.
    + intros q Hq. rewrite Hm3, Hm6 by exact Hq. rewrite Hd1, Hd2. reflexivity.
  - lia.
  - cbn [nir_data swir1_data]. rewrite length_replicate. split; reflexivity.
  - exact Hrun.
  - destruct (Hcells r c ltac:(lia) Hc) as (line & Hread & Heq).
    exists line. split; [assumption|]. cbn beta in Heq.
    injection Heq as H1 H2. split; assumption.
Qed.

Lemma demo_env_wide :
  refl_lines_wide (demo_env [fill_px; veg_px] 2) P5 1 2.
Proof.
  intros row line Hrow Hread. destruct row as [|row]; [|lia].
  vm_compute in Hread. injection Hread as <-. split; reflexivity.
Qed.

Lemma fifth_pass_rasters_witness :
  exists line,
    read_refl_row (demo_env [fill_px; veg_px] 2) P5 0 = Some line
    /\ nir_data demo_fifth_pass !!! (0 * 2 + 0)%nat
       = raster_cell (satu_value_ref demo_meta BI_NIR)
                     (satu_value_max demo_meta BI_NIR)
                     (p1_clear_mask (demo_first_pass [fill_px; veg_px])
                        !!! (0 * 2 + 0)%nat)
                     (band_at line BI_NIR 0)
    /\ swir1_data demo_fifth_pass !!! (0 * 2 + 0)%nat
       = raster_cell (satu_value_ref demo_meta BI_SWIR_1)
                     (satu_value_max demo_meta BI_SWIR_1)
                     (p1_clear_mask (demo_first_pass [fill_px; veg_px])
                        !!! (0 * 2 + 0)%nat)
                     (band_at line BI_SWIR_1 0).
Proof.
  apply (fifth_pass_rasters (demo_env [fill_px; veg_px] 2) 1 2
           (p1_clear_mask (demo_first_pass [fill_px; veg_px]))
           CF_CLEAR_LAND_BIT demo_fifth_pass 0 0).
  - exact demo_env_wide.
  - vm_compute. reflexivity.
  - lia.
  - lia.
Defined.

(** ** Buffers at the returns *)

(** X13. When a flood fill fails after a pass 5 that ran to its end, the
    function returns FAILURE with the caller's data as they were and with
    the six buffers of the flood-fill section released: what stays
    allocated is what was allocated before the section, these six
    apart. *)
Theorem flood_fill_failure_releases (env : env_t) (nrows ncols : nat)
        (l : list buffer) (clear_mask : list Z) (land_bit : Z) (o : io_t)
        (s5 : p5_state) (nir_boundary swir1_boundary : F32.t) :
  (forall b, alloc_ok env b = true) ->
  fifth_pass env nrows ncols clear_mask land_bit = Ok s5 ->
  prctile env (nir_smp s5) (Z.of_nat (nir_count s5)) (nir_min s5) (nir_max s5)
          (pct l_pt) = Some nir_boundary ->
  prctile env (swir1_smp s5) (Z.of_nat (swir1_count s5)) (swir1_min s5)
          (swir1_max s5) (pct l_pt) = Some swir1_boundary ->
  fill_local_minima_in_image env (nir_data s5) nrows ncols nir_boundary = None
  \/ fill_local_minima_in_image env (swir1_data s5) nrows ncols swir1_boundary
     = None ->
  let out := fifth_stage env nrows ncols l clear_mask land_bit o in
  status out = FAILURE /\ io out = o
  /\ forall b, In b (live out) <-> In b l /\ flood_fill_buffer b = false.
Proof.
  intros Halloc H5 Hn Hs Hfill. cbn zeta. unfold fifth_stage, alloc.
  rewrite !Halloc. cbn [andb negb]. rewrite H5, Hn, Hs.
  assert (Hlive : forall b,
            In b (free B_filled_swir1_data
                    (free B_filled_nir_data
                       (free B_swir1_data
                          (free B_nir_data
                             (free B_swir1
                                (free B_nir
                                   (B_filled_swir1_data :: B_filled_nir_data
                                    :: B_swir1_data :: B_nir_data :: B_swir1
                                    :: B_nir :: l)))))))
            <-> In b l /\ flood_fill_buffer b = false).
  { intros b. unfold free. rewrite !filter_In. cbn [In].
    destruct b; cbn [buffer_eqb negb flood_fill_buffer];
      intuition (discriminate || congruence). }
  destruct Hfill as [Hf|Hf]; rewrite Hf.
  - destruct (fill_local_minima_in_image env (swir1_data s5) nrows ncols
                swir1_boundary);
      cbn [status live io RETURN_ERROR]; (split; [reflexivity|]);
      (split; [reflexivity|]); exact Hlive.
  - destruct (fill_local_minima_in_image env (nir_data s5) nrows ncols
                nir_boundary);
      cbn [status live io RETURN_ERROR]; (split; [reflexivity|]);
      (split; [reflexivity|]); exact Hlive.
Qed.

Lemma flood_fill_failure_releases_witness :
  let out := fifth_stage (failing_fill_env [fill_px; veg_px] 2) 1 2
                         [B_clear_mask]
                         (p1_clear_mask (demo_first_pass [fill_px; veg_px]))
                         CF_CLEAR_LAND_BIT (demo_io 2) in
  status out = FAILURE /\ io out = demo_io 2
  /\ forall b, In b (live out) <-> In b [B_clear_mask] /\ flood_fill_buffer b = false.
Proof.
  apply (flood_fill_failure_releases (failing_fill_env [fill_px; veg_px] 2) 1 2
           [B_clear_mask] (p1_clear_mask (demo_first_pass [fill_px; veg_px]))
           CF_CLEAR_LAND_BIT (demo_io 2) demo_fifth_pass
           (F32.of_Z 0) (F32.of_Z 0)).
  - intros b. reflexivity.
  - vm_compute. reflexivity.
  - vm_compute. reflexivity.
  - vm_compute. reflexivity.
  - left. reflexivity.
Defined.

Lemma fill_exclusive_full_path_witness :
  mask_test (pixel_mask (io_masks (io (demo_run [fill_px; veg_px]))) !!! 0%nat)
            CF_FILL_BIT = true
  /\ pixel_mask (io_masks (io (demo_run [fill_px; veg_px]))) !!! 0%nat
     = CF_FILL_BIT
  /\ conf_mask (io_masks (io (demo_run [fill_px; veg_px]))) !!! 0%nat
     = CF_FILL_PIXEL.
Proof.
  split; [vm_compute; reflexivity|].
  apply (fill_exclusive_full_path (demo_env [fill_px; veg_px] 2) 1 2
           demo_threshold (demo_io 2)).
  - reflexivity.
  - reflexivity.
  - intros p Hp. destruct p as [|[|p]]; [reflexivity | reflexivity | lia].
  - vm_compute. reflexivity.
  - vm_compute. reflexivity.
  - lia.
  - vm_compute. reflexivity.
Defined.

Lemma all_cloud_shortcut_every_pixel_witness :
  t_templ (io (demo_run [fill_px; cloud_px])) = minus_one
  /\ t_temph (io (demo_run [fill_px; cloud_px])) = minus_one
  /\ conf_mask (io_masks (io (demo_run [fill_px; cloud_px])))
     = conf_mask (io_masks (demo_io 2))
  /\ exists s1,
       first_pass (demo_env [fill_px; cloud_px] 2) 1 2
                  (p1_init (1 * 2) (pixel_mask (io_masks (demo_io 2)))) = Ok s1
       /\ forall p, (p < 1 * 2)%nat ->
            mask_test (pixel_mask (io_masks (io (demo_run [fill_px; cloud_px])))
                         !!! p) CF_SHADOW_BIT
            = negb (mask_test (p1_pixel_mask s1 !!! p) CF_CLOUD_BIT)
            /\ forall j, 0 <= j < 8 -> j <> 2 ->
                 mask_test (pixel_mask
                              (io_masks (io (demo_run [fill_px; cloud_px])))
                              !!! p) (2 ^ j)
                 = mask_test (p1_pixel_mask s1 !!! p) (2 ^ j).
Proof.
  apply (all_cloud_shortcut_every_pixel (demo_env [fill_px; cloud_px] 2) 1 2
           demo_threshold (demo_io 2)).
  - reflexivity.
  - vm_compute. reflexivity.
  - vm_compute. reflexivity.
Defined.

Lemma success_releases_everything_witness :
  live (demo_run [wet_cloud_px; veg_px]) = [].
Proof.
  apply (success_releases_everything (demo_env [wet_cloud_px; veg_px] 2) 1 2
           demo_threshold (demo_io 2)).
  vm_compute. reflexivity.
Defined.

Lemma failure_keeps_clear_mask_witness :
  In B_clear_mask
     (live (potential_cloud_shadow_snow_mask failing_reader_env 1 1
              demo_threshold (demo_io 1))).
Proof.
  apply (failure_keeps_clear_mask failing_reader_env 1 1 demo_threshold
           (demo_io 1)).
  - reflexivity.
  - vm_compute. reflexivity.
Defined.
